(** * NDR teletext reader: a shallow embedding of [main.py]

    The development follows the class [Teletext]: the colour formatter chosen
    from css classes, the packing of [<b>] elements into terminal lines, the
    parsing of the page directory, and the navigation methods with their
    history list and digit input.  Python integers are [Z], lengths are [nat],
    the bytes of a response are a [string] and decoded text a list of code
    points, the page directory is a [gmap Z Z], exceptions are explicit
    outcomes. *)

From Stdlib Require Import ZArith String Ascii DecimalString DecimalPos Lia.
From stdpp Require Import gmap strings list.

Local Open Scope string_scope.
Local Open Scope list_scope.

(** ** Exceptions and outcomes *)

(** The exception classes the program can meet.  [URLError] stands for every
    failure of [urlopen] and [read]; [UnicodeDecodeError] is the failure of
    [decode]. *)
Inductive exn : Type :=
| TypeError
| KeyError
| IndexError
| ValueError
| UnicodeDecodeError
| AttributeError
| URLError
| SystemExit.

#[global] Instance exn_eq_dec : EqDecision exn.
Proof. solve_decision. Defined.

Inductive result (A : Type) : Type :=
| Ok (a : A)
| Err (e : exn).
Arguments Ok {A} a.
Arguments Err {A} e.

Definition rbind {A B : Type} (r : result A) (f : A -> result B) : result B :=
  match r with
  | Ok a => f a
  | Err e => Err e
  end.

(** ** Colour formatter (lines 69-102) *)

(** The dict [colors]; a missing key is a [KeyError]. *)
Definition colors (digit : ascii) : result string :=
  if Ascii.eqb digit "0" then Ok "black"
  else if Ascii.eqb digit "1" then Ok "red"
  else if Ascii.eqb digit "2" then Ok "green"
  else if Ascii.eqb digit "3" then Ok "yellow"
  else if Ascii.eqb digit "4" then Ok "blue"
  else if Ascii.eqb digit "5" then Ok "magenta"
  else if Ascii.eqb digit "6" then Ok "cyan"
  else if Ascii.eqb digit "7" then Ok "white"
  else Err KeyError.

Definition background_classes : list string :=
  ["b0"; "b1"; "b2"; "b3"; "b4"; "b5"; "b6"; "b7"].

Definition foreground_classes : list string :=
  ["f0"; "f1"; "f2"; "f3"; "f4"; "f5"; "f6"; "f7"].

(** [class_[1]]: the second character, [IndexError] on a shorter string. *)
Definition index1 (class_ : string) : result ascii :=
  match String.get 1 class_ with
  | Some c => Ok c
  | None => Err IndexError
  end.

(** One iteration of [for class_ in classes] on the pair [(fgc, bgc)]. *)
Definition color_step (acc : ascii * ascii) (class_ : string)
  : result (ascii * ascii) :=
  if bool_decide (class_ ∈ background_classes) then
    rbind (index1 class_) (fun c => Ok (fst acc, c))
  else if bool_decide (class_ ∈ foreground_classes) then
    rbind (index1 class_) (fun c => Ok (c, snd acc))
  else Ok acc.

Fixpoint color_loop (acc : ascii * ascii) (classes : list string)
  : result (ascii * ascii) :=
  match classes with
  | [] => Ok acc
  | class_ :: rest => rbind (color_step acc class_) (fun acc' => color_loop acc' rest)
  end.

(** The formatter is identified by the attribute name looked up on the
    terminal, [f'{colors[fgc]}_on_{colors[bgc]}']. *)
Definition classes_to_color_formatter (classes : list string) : result string :=
  rbind (color_loop ("7"%char, "0"%char) classes) (fun acc =>
  rbind (colors (fst acc)) (fun fg =>
  rbind (colors (snd acc)) (fun bg =>
  Ok (fg +:+ "_on_" +:+ bg)))).

(** *** The resolver as the specification words it *)

Inductive color : Type :=
| black | red | green | yellow | blue | magenta | cyan | white.

Definition palette : list color :=
  [black; red; green; yellow; blue; magenta; cyan; white].

Definition color_digit (c : color) : ascii :=
  match c with
  | black => "0" | red => "1" | green => "2" | yellow => "3"
  | blue => "4" | magenta => "5" | cyan => "6" | white => "7"
  end%char.

Definition color_name (c : color) : string :=
  match c with
  | black => "black" | red => "red" | green => "green" | yellow => "yellow"
  | blue => "blue" | magenta => "magenta" | cyan => "cyan" | white => "white"
  end.

(** A tag is a one-letter kind prefix followed by the digit of a colour. *)
Definition tag_of (kind : ascii) (c : color) : string :=
  String kind (String (color_digit c) EmptyString).

Definition selects (kind : ascii) (tag : string) : option color :=
  List.find (fun c => String.eqb tag (tag_of kind c)) palette.

(** The last tag of the given kind, if any. *)
Definition last_selected (kind : ascii) (tags : list string) : option color :=
  last (omap (selects kind) tags).

Definition resolve (tags : list string) : color * color :=
  (default white (last_selected "f" tags),
   default black (last_selected "b" tags)).

Definition formatter_name (fb : color * color) : string :=
  color_name (fst fb) +:+ "_on_" +:+ color_name (snd fb).

(** ** The parsed document (BeautifulSoup) *)

(** A node of the parsed tree with the attributes the program reads:
    [.name] ([None] for text nodes), [.text], [.get('class')] and
    [.children]. *)
#[warnings="-register-all"] Inductive element : Type :=
| Element (name : option string) (text : string)
          (attr_class : option (list string)) (children : list element).

Definition name (a : element) : option string :=
  match a with Element n _ _ _ => n end.
Definition text (a : element) : string :=
  match a with Element _ t _ _ => t end.
Definition attr_class (a : element) : option (list string) :=
  match a with Element _ _ c _ => c end.
Definition children (a : element) : list element :=
  match a with Element _ _ _ ch => ch end.

(** [soup.html.body.div]: [None] when a link of the attribute chain is
    missing, which the next attribute access turns into [AttributeError]. *)
Record BeautifulSoup_t : Type := { html_body_div : option element }.

(** [a.name == tag] *)
Definition named (tag : string) (a : element) : bool :=
  bool_decide (name a = Some tag).

(** [reduce(operator.add, map(lambda a: len(a.text), current_line), 0)] *)
Definition line_length (current_line : list element) : nat :=
  fold_left Nat.add (map (fun a => String.length (text a)) current_line) 0%nat.

(** One iteration of [for element in txt.children] (lines 128-134) on the
    pair [(lines, current_line)]. *)
Definition wrap_step (width : nat) (acc : list (list element) * list element)
           (el : element) : list (list element) * list element :=
  let '(lines, current_line) := acc in
  if named "b" el then
    if (width <? line_length current_line + String.length (text el))%nat
    then (lines ++ [current_line], [el])
    else (lines, current_line ++ [el])
  else (lines, current_line).

(** Lines 126-135: the list [lines] after the loop and the final append. *)
Definition wrap (width : nat) (txt_children : list element) : list (list element) :=
  let '(lines, current_line) := fold_left (wrap_step width) txt_children ([], []) in
  lines ++ [current_line].

(** The styled runs of a body block: its [<b>] children. *)
Definition runs (txt_children : list element) : list element :=
  filter (fun el => named "b" el = true) txt_children.

Definition over_width (width : nat) (el : element) : Prop :=
  (width < String.length (text el))%nat.

(** ** Bytes, text and integers of the Python runtime *)

(** A [string] is a sequence of bytes, as [response.read()] returns it; the
    names, class tags, texts and addresses the program handles are written
    with one byte per character.  Decoded text, the [str] that [decode]
    returns, is a sequence of Unicode code points. *)
Abbreviation unicode := (list N) (only parsing).

(** [ord(c)] of an ASCII character *)
Definition ord (c : ascii) : N := N_of_ascii c.

(** The text of a string whose characters are single bytes. *)
Definition text_of (s : string) : unicode :=
  map N_of_ascii (list_ascii_of_string s).

(** A continuation byte of UTF-8, and the second byte allowed after the
    first byte of a sequence of three or four. *)
Definition continuation (b : N) : bool := (128 <=? b)%N && (b <=? 191)%N.

Definition second_of_three (b0 b1 : N) : bool :=
  if (b0 =? 224)%N then (160 <=? b1)%N && (b1 <=? 191)%N
  else if (b0 =? 237)%N then (128 <=? b1)%N && (b1 <=? 159)%N
  else continuation b1.

Definition second_of_four (b0 b1 : N) : bool :=
  if (b0 =? 240)%N then (144 <=? b1)%N && (b1 <=? 191)%N
  else if (b0 =? 244)%N then (128 <=? b1)%N && (b1 <=? 143)%N
  else continuation b1.

(** [bytes.decode()]: strict UTF-8.  Overlong forms, surrogates, code points
    above U+10FFFF, stray and missing continuation bytes are refused. *)
Fixpoint decode (bytes : string) : result unicode :=
  match bytes with
  | EmptyString => Ok []
  | String c0 rest =>
      let b0 := N_of_ascii c0 in
      if (b0 <? 128)%N then
        rbind (decode rest) (fun t => Ok (b0 :: t))
      else if (194 <=? b0)%N && (b0 <=? 223)%N then
        match rest with
        | String c1 rest1 =>
            let b1 := N_of_ascii c1 in
            if continuation b1 then
              rbind (decode rest1) (fun t =>
                Ok (((b0 - 192) * 64 + (b1 - 128))%N :: t))
            else Err UnicodeDecodeError
        | _ => Err UnicodeDecodeError
        end
      else if (224 <=? b0)%N && (b0 <=? 239)%N then
        match rest with
        | String c1 (String c2 rest2) =>
            let b1 := N_of_ascii c1 in
            let b2 := N_of_ascii c2 in
            if second_of_three b0 b1 && continuation b2 then
              rbind (decode rest2) (fun t =>
                Ok (((b0 - 224) * 4096 + (b1 - 128) * 64 + (b2 - 128))%N :: t))
            else Err UnicodeDecodeError
        | _ => Err UnicodeDecodeError
        end
      else if (240 <=? b0)%N && (b0 <=? 244)%N then
        match rest with
        | String c1 (String c2 (String c3 rest3)) =>
            let b1 := N_of_ascii c1 in
            let b2 := N_of_ascii c2 in
            let b3 := N_of_ascii c3 in
            if second_of_four b0 b1 && continuation b2 && continuation b3 then
              rbind (decode rest3) (fun t =>
                Ok (((b0 - 240) * 262144 + (b1 - 128) * 4096
                     + (b2 - 128) * 64 + (b3 - 128))%N :: t))
            else Err UnicodeDecodeError
        | _ => Err UnicodeDecodeError
        end
      else Err UnicodeDecodeError
  end.

(** [s.split(sep)] for a one-character separator: never empty, and the
    pieces joined by [sep] give [s] back. *)
Fixpoint split (sep : N) (s : unicode) : list unicode :=
  match s with
  | [] => [[]]
  | c :: s' =>
      if (c =? sep)%N then [] :: split sep s'
      else match split sep s' with
           | piece :: pieces => (c :: piece) :: pieces
           | [] => [[c]]
           end
  end.

(** [l[i]] on a list *)
Definition index {A : Type} (l : list A) (i : nat) : result A :=
  match l !! i with
  | Some a => Ok a
  | None => Err IndexError
  end.

(** The blanks [int] strips from both ends: the ASCII ones (tab to carriage
    return, and the space; not the separators U+001C to U+001F) and the
    Unicode white space above U+007E. *)
Definition is_space (ch : N) : bool :=
  ((9 <=? ch) && (ch <=? 13) || (ch =? 32) || (ch =? 133) || (ch =? 160)
   || (ch =? 5760) || (8192 <=? ch) && (ch <=? 8202) || (ch =? 8232)
   || (ch =? 8233) || (ch =? 8239) || (ch =? 8287) || (ch =? 12288))%N.

Fixpoint lstrip (s : unicode) : unicode :=
  match s with
  | ch :: s' => if is_space ch then lstrip s' else s
  | [] => []
  end.

Fixpoint rstrip (s : unicode) : unicode :=
  match s with
  | [] => []
  | ch :: s' =>
      let r := rstrip s' in
      if is_space ch && bool_decide (r = []) then [] else ch :: r
  end.

(** The code points of the digit zero of every decimal script (Unicode
    14.0, as CPython 3.11 has it); the nine that follow each are its digits
    one to nine. *)
Definition decimal_zeros : list N :=
  [48; 1632; 1776; 1984; 2406; 2534; 2662; 2790; 2918; 3046; 3174; 3302;
   3430; 3558; 3664; 3792; 3872; 4160; 4240; 6112; 6160; 6470; 6608; 6784;
   6800; 6992; 7088; 7232; 7248; 42528; 43216; 43264; 43472; 43504; 43600;
   44016; 65296; 66720; 68912; 69734; 69872; 69942; 70096; 70384; 70736;
   70864; 71248; 71360; 71472; 71904; 72016; 72784; 73040; 73120; 92768;
   92864; 93008; 120782; 120792; 120802; 120812; 120822; 123200; 123632;
   125264; 130032]%N.

(** The value of a decimal digit, ASCII or not. *)
Definition decimal (ch : N) : option Z :=
  (fun zero => Z.of_N (ch - zero)) <$>
  List.find (fun zero => (zero <=? ch)%N && (ch <? zero + 10)%N) decimal_zeros.

(** The digit of a key: ['0'] to ['9']. *)
Definition digit_value (c : ascii) : option Z :=
  let n := nat_of_ascii c in
  if ((48 <=? n) && (n <=? 57))%nat then Some (Z.of_nat n - 48)%Z else None.

(** Decimal digits with single underscores allowed between digits;
    [after_digit] tells whether the previous character was a digit. *)
Fixpoint digits (acc : Z) (after_digit : bool) (s : unicode) : option Z :=
  match s with
  | [] => if after_digit then Some acc else None
  | ch :: s' =>
      match decimal ch with
      | Some d => digits (10 * acc + d)%Z true s'
      | None =>
          if (ch =? ord "_")%N && after_digit then digits acc false s' else None
      end
  end.

(** The number of digits of a numeral, underscores not counted, and the
    most that [int] converts (the default of [sys.get_int_max_str_digits]). *)
Definition digit_count (s : unicode) : nat :=
  length (filter (fun ch => is_Some (decimal ch)) s).

Definition INT_MAX_STR_DIGITS : nat := 4300.

(** The builtin [int(s)] on a text in base 10: surrounding blanks, an
    optional sign, then digits, no more than the limit; [ValueError]
    otherwise. *)
Definition int (s : unicode) : result Z :=
  let body := rstrip (lstrip s) in
  let unsigned :=
    match body with
    | ch :: rest => if (ch =? ord "-")%N || (ch =? ord "+")%N then rest else body
    | [] => body
    end in
  let negative :=
    match body with
    | ch :: _ => (ch =? ord "-")%N
    | [] => false
    end in
  match digits 0 false unsigned with
  | Some z =>
      if (INT_MAX_STR_DIGITS <? digit_count unsigned)%nat then Err ValueError
      else Ok (if negative then - z else z)%Z
  | None => Err ValueError
  end.

(** [map(f, l)] consumed in full, stopping at the first exception. *)
Fixpoint map_result {A B : Type} (f : A -> result B) (l : list A) : result (list B) :=
  match l with
  | [] => Ok []
  | a :: rest =>
      rbind (f a) (fun b => rbind (map_result f rest) (fun bs => Ok (b :: bs)))
  end.

(** [str(z)] and ["%02d" % (z,)].  CPython refuses to format a number of
    more than [INT_MAX_STR_DIGITS] digits; the pages and sub pages of a run
    are 100, 1 or numbers [int] has read from the directory, hence never
    that long. *)
Definition str (z : Z) : string := NilZero.string_of_int (Z.to_int z).

Definition pad02 (z : Z) : string :=
  if (String.length (str z) <? 2)%nat then "0" +:+ str z else str z.

(** ** The page directory (lines 154-158) *)

(** [.split('{')[1].split('}')[0]] on the decoded document *)
Definition data_string (document : unicode) : result unicode :=
  rbind (index (split (ord "{") document) 1)
        (fun inner => index (split (ord "}") inner) 0).

(** [dict(...)] fed by the lazy [map]: every item is converted by
    [list(map(int, a.split(':')))] and must then have exactly two members;
    a key met again replaces the earlier value. *)
Fixpoint dict_of_entries (acc : gmap Z Z) (entries : list unicode) : result (gmap Z Z) :=
  match entries with
  | [] => Ok acc
  | a :: rest =>
      rbind (map_result int (split (ord ":") a)) (fun item =>
        match item with
        | [k; v] => dict_of_entries (<[k := v]> acc) rest
        | _ => Err ValueError
        end)
  end.

(** Lines 154-158 on the bytes read from the response. *)
Definition parse_page_info (body : string) : result (gmap Z Z) :=
  rbind (decode body) (fun document =>
  rbind (data_string document) (fun ds =>
  dict_of_entries ∅ (split (ord ",") ds))).

(** ** The application object and its surroundings *)

(** The instance attributes set by [__init__] (the terminal apart). *)
Record Teletext : Type := {
  width : nat;
  height : nat;
  app_url : string;
  pages_url : string;
  start_page : Z;
  page : Z;
  sub_page : Z;
  current_input : list Z;
  page_info : option (gmap Z Z);
  min_page : Z;
  max_page : Z;
  soup : option BeautifulSoup_t;
  history : list (Z * Z)
}.

Definition with_page (v : Z) (s : Teletext) : Teletext :=
  {| width := width s; height := height s; app_url := app_url s;
     pages_url := pages_url s; start_page := start_page s; page := v;
     sub_page := sub_page s; current_input := current_input s;
     page_info := page_info s; min_page := min_page s; max_page := max_page s;
     soup := soup s; history := history s |}.

Definition with_sub_page (v : Z) (s : Teletext) : Teletext :=
  {| width := width s; height := height s; app_url := app_url s;
     pages_url := pages_url s; start_page := start_page s; page := page s;
     sub_page := v; current_input := current_input s;
     page_info := page_info s; min_page := min_page s; max_page := max_page s;
     soup := soup s; history := history s |}.

Definition with_current_input (v : list Z) (s : Teletext) : Teletext :=
  {| width := width s; height := height s; app_url := app_url s;
     pages_url := pages_url s; start_page := start_page s; page := page s;
     sub_page := sub_page s; current_input := v;
     page_info := page_info s; min_page := min_page s; max_page := max_page s;
     soup := soup s; history := history s |}.

Definition with_page_info (v : option (gmap Z Z)) (s : Teletext) : Teletext :=
  {| width := width s; height := height s; app_url := app_url s;
     pages_url := pages_url s; start_page := start_page s; page := page s;
     sub_page := sub_page s; current_input := current_input s;
     page_info := v; min_page := min_page s; max_page := max_page s;
     soup := soup s; history := history s |}.

Definition with_soup (v : option BeautifulSoup_t) (s : Teletext) : Teletext :=
  {| width := width s; height := height s; app_url := app_url s;
     pages_url := pages_url s; start_page := start_page s; page := page s;
     sub_page := sub_page s; current_input := current_input s;
     page_info := page_info s; min_page := min_page s; max_page := max_page s;
     soup := v; history := history s |}.

Definition with_history (v : list (Z * Z)) (s : Teletext) : Teletext :=
  {| width := width s; height := height s; app_url := app_url s;
     pages_url := pages_url s; start_page := start_page s; page := page s;
     sub_page := sub_page s; current_input := current_input s;
     page_info := page_info s; min_page := min_page s; max_page := max_page s;
     soup := soup s; history := v |}.

(** The stored page bounds, which no method assigns after [__init__]. *)
Definition with_bounds (lo hi : Z) (s : Teletext) : Teletext :=
  {| width := width s; height := height s; app_url := app_url s;
     pages_url := pages_url s; start_page := start_page s; page := page s;
     sub_page := sub_page s; current_input := current_input s;
     page_info := page_info s; min_page := lo; max_page := hi;
     soup := soup s; history := history s |}.

(** What lies outside the program: the server answering [urlopen] (the
    body read from the response, or the exception raised on the way) and the
    HTML parser. *)
Record World : Type := {
  urlopen : string -> result string;
  BeautifulSoup : string -> BeautifulSoup_t
}.

(** What the program does to the outside, in order.  [call_load] records an
    entry into [load] with its arguments; a printed line is a column, a row
    and its cells, each a formatter name with the text it is applied to. *)
Inductive event : Type :=
| call_load (page : Z) (sub_page : option Z) (no_history : bool)
| request (url : string)
| stderr_write (error : exn)
| print_clear
| print_at (x y : nat) (cells : list (string * string))
| print_clock.

(** ** A state, output and exception monad for the methods *)

Definition M (A : Type) : Type := Teletext -> result A * Teletext * list event.

Definition ret {A : Type} (a : A) : M A := fun s => (Ok a, s, []).

Definition bind {A B : Type} (m : M A) (f : A -> M B) : M B :=
  fun s =>
    match m s with
    | (Ok a, s1, t1) =>
        match f a s1 with
        | (r, s2, t2) => (r, s2, t1 ++ t2)
        end
    | (Err e, s1, t1) => (Err e, s1, t1)
    end.

Definition raise {A : Type} (e : exn) : M A := fun s => (Err e, s, []).
Definition lift {A : Type} (r : result A) : M A := fun s => (r, s, []).
Definition get : M Teletext := fun s => (Ok s, s, []).
Definition modify (f : Teletext -> Teletext) : M unit := fun s => (Ok tt, f s, []).
Definition emit (ev : event) : M unit := fun s => (Ok tt, s, [ev]).

(** [try: m  except <caught> as error: handler(error)]; the attributes
    assigned before the exception keep their new values. *)
Definition try_except {A : Type} (m : M A) (caught : exn -> bool)
           (handler : exn -> M A) : M A :=
  fun s =>
    match m s with
    | (Err e, s1, t1) =>
        if caught e then
          match handler e s1 with
          | (r, s2, t2) => (r, s2, t1 ++ t2)
          end
        else (Err e, s1, t1)
    | done => done
    end.

Notation "x <-- m ; k" := (bind m (fun x => k))
  (at level 100, m at next level, right associativity).
Notation "m >>> k" := (bind m (fun _ => k))
  (at level 100, right associativity).

(** ** The methods of [Teletext] *)

Definition APP_WIDTH : nat := 40.
Definition APP_HEIGHT : nat := 24.
Definition BASE_URL : string := "https://www.ndr.de".
Definition APP_URL : string := BASE_URL +:+ "/public/teletext".
Definition PAGES_URL : string := APP_URL +:+ "/pages.js".
Definition START_PAGE : Z := 100.

(** [display_clock] (lines 104-113): one print, whose text is the time. *)
Definition display_clock : M unit := emit print_clock.

(** The cell a run is printed as:
    [self.classes_to_color_formatter(a.get('class', []))(a.text)]. *)
Definition cell (a : element) : result (string * string) :=
  rbind (classes_to_color_formatter (default [] (attr_class a)))
        (fun formatter => Ok (formatter, text a)).

(** Lines 137-145, from the row [i] on. *)
Fixpoint print_lines (i : nat) (lines : list (list element)) : M unit :=
  match lines with
  | [] => ret tt
  | line :: rest =>
      cells <-- lift (map_result cell line);
      padding <-- lift (classes_to_color_formatter ["f7"; "b0"]);
      emit (print_at 0 (0 + i + 1) (cells ++ [(padding, " ")])) >>>
      print_lines (S i) rest
  end.

(** [display_page] (lines 115-145), the offset being [(0, 0)]. *)
Definition display_page : M unit :=
  emit print_clear >>>
  s <-- get;
  parsed <-- lift (match soup s with
                   | Some parsed => Ok parsed
                   | None => Err AttributeError
                   end);
  ttx <-- lift (match html_body_div parsed with
                | Some ttx => Ok ttx
                | None => Err AttributeError
                end);
  match filter (fun a => named "pre" a = true) (children ttx) with
  | [hdr; txt] =>
      emit (print_at 0 0 [("white_on_black", text hdr)]) >>>
      print_lines 0 (wrap (width s) (children txt))
  | _ => raise ValueError
  end.

(** [except Exception] lets [SystemExit] through. *)
Definition is_Exception (e : exn) : bool :=
  match e with
  | SystemExit => false
  | _ => true
  end.

(** [get_page_info] (lines 147-160) *)
Definition get_page_info (w : World) : M unit :=
  s <-- get;
  try_except
    (emit (request (pages_url s)) >>>
     body <-- lift (urlopen w (pages_url s));
     info <-- lift (parse_page_info body);
     modify (with_page_info (Some info)))
    is_Exception
    (fun error => emit (stderr_write error)).

(** Lines 175-178: the argument [sub_page] is kept when it is true (neither
    [None] nor [0]) and [1 <= sub_page <= self.page_info[page]], otherwise
    the sub page is [1]. *)
Definition chosen_sub_page (sub_page_ : option Z) (count : Z) : Z :=
  match sub_page_ with
  | Some sp =>
      if negb (sp =? 0)%Z && ((1 <=? sp)%Z && (sp <=? count)%Z) then sp else 1%Z
  | None => 1%Z
  end.

(** The address built at line 184 *)
Definition page_url (s : Teletext) : string :=
  app_url s +:+ "/" +:+ str (page s) +:+ "_" +:+ pad02 (sub_page s) +:+ ".htm".

(** [load] (lines 162-188) *)
Definition load (w : World) (page_ : Z) (sub_page_ : option Z) (no_history : bool)
  : M unit :=
  emit (call_load page_ sub_page_ no_history) >>>
  (if no_history then ret tt
   else modify (fun s => with_history (history s ++ [(page s, sub_page s)]) s)) >>>
  s <-- get;
  (match page_info s with
   | None => raise TypeError
   | Some info =>
       match info !! page_ with
       | Some count =>
           modify (with_page page_) >>>
           modify (with_sub_page (chosen_sub_page sub_page_ count))
       | None =>
           modify (with_page (start_page s)) >>>
           modify (with_sub_page 1)
       end
   end) >>>
  s <-- get;
  emit (request (page_url s)) >>>
  body <-- lift (urlopen w (page_url s));
  modify (with_soup (Some (BeautifulSoup w body))) >>>
  display_page.

(** [reduce(f, l)] without an initial value *)
Definition reduce {A : Type} (f : A -> A -> A) (l : list A) : result A :=
  match l with
  | [] => Err TypeError
  | a :: rest => Ok (fold_left f rest a)
  end.

(** [load_number] (lines 190-200) *)
Definition load_number (w : World) (number : Z) : M unit :=
  modify (fun s => with_current_input (current_input s ++ [number]) s) >>>
  s <-- get;
  if (length (current_input s) =? 3)%nat then
    target <-- lift (reduce (fun a b => a * 10 + b)%Z (current_input s));
    load w target None false >>>
    modify (with_current_input [])
  else ret tt.

(** [load_previous] and [load_next] (lines 202-212) *)
Definition load_previous (w : World) : M unit :=
  s <-- get; load w (page s - 1) None false.

Definition load_next (w : World) : M unit :=
  s <-- get; load w (page s + 1) None false.

(** [load_previous_sub_page] (lines 214-221) *)
Definition load_previous_sub_page (w : World) : M unit :=
  s <-- get;
  if (1 <? sub_page s)%Z then load w (page s) (Some (sub_page s - 1)%Z) false
  else load w (page s - 1) None false.

(** [self.page_info[self.page]] *)
Definition page_info_getitem (s : Teletext) : result Z :=
  match page_info s with
  | None => Err TypeError
  | Some info =>
      match info !! page s with
      | Some count => Ok count
      | None => Err KeyError
      end
  end.

(** [load_next_sub_page] (lines 223-230) *)
Definition load_next_sub_page (w : World) : M unit :=
  s <-- get;
  count <-- lift (page_info_getitem s);
  if (sub_page s <? count)%Z then load w (page s) (Some (sub_page s + 1)%Z) false
  else load w (page s + 1) None false.

(** [self.history.pop()] *)
Definition history_pop : M (Z * Z) :=
  s <-- get;
  match last (history s) with
  | None => raise IndexError
  | Some entry =>
      modify (with_history (removelast (history s))) >>>
      ret entry
  end.

(** [go_back_in_history] (lines 232-240) *)
Definition go_back_in_history (w : World) : M unit :=
  try_except
    (entry <-- history_pop;
     load w (fst entry) (Some (snd entry)) true)
    (fun e => match e with IndexError => true | _ => false end)
    (fun _ => ret tt).

(** A key as [inkey] returns it: nothing within the second, a key with a
    code of the terminal, or a character. *)
Inductive keypress : Type :=
| no_key
| KEY_ESCAPE
| KEY_BACKSPACE
| KEY_LEFT
| KEY_RIGHT
| KEY_DOWN
| KEY_UP
| other_code
| char (c : ascii).

(** The dispatch dict of [handle_events] with its default [dummy]. *)
Definition dispatch (w : World) (key : keypress) : M unit :=
  match key with
  | KEY_ESCAPE => raise SystemExit
  | KEY_BACKSPACE => go_back_in_history w
  | KEY_LEFT => load_previous w
  | KEY_RIGHT => load_next w
  | KEY_DOWN => load_previous_sub_page w
  | KEY_UP => load_next_sub_page w
  | char c =>
      if Ascii.eqb c "-" then load_previous_sub_page w
      else if Ascii.eqb c "+" then load_next_sub_page w
      else match digit_value c with
           | Some d => load_number w d
           | None => ret tt
           end
  | no_key | other_code => ret tt
  end.

(** [handle_events] (lines 242-277) *)
Definition handle_events (w : World) (key : keypress) : M unit :=
  match key with
  | no_key => display_clock
  | _ => dispatch w key >>> display_clock
  end.

(** [exec_] (lines 279-286) along the keys that arrive, each with the world
    as it is when the key is handled. *)
Fixpoint exec_ (inputs : list (World * keypress)) : M unit :=
  match inputs with
  | [] => ret tt
  | (w, key) :: rest => handle_events w key >>> exec_ rest
  end.

(** The attributes as lines 36-48 set them. *)
Definition fresh : Teletext :=
  {| width := APP_WIDTH; height := APP_HEIGHT; app_url := APP_URL;
     pages_url := PAGES_URL; start_page := START_PAGE; page := START_PAGE;
     sub_page := 1; current_input := []; page_info := None;
     min_page := 100; max_page := 899; soup := None; history := [] |}.

(** The rest of [__init__] (lines 50-52) *)
Definition init (w : World) : M unit :=
  get_page_info w >>>
  s <-- get;
  load w (start_page s) None false >>>
  display_clock.

(** [main]: construction, then the event loop. *)
Definition main (w : World) (inputs : list (World * keypress))
  : result unit * Teletext * list event :=
  (init w >>> exec_ inputs) fresh.

(** ** Notions the properties are stated with *)

(** *** Lines *)

(** The loop of lines 128-134 started from any pair [(lines, current_line)],
    followed by the final append. *)
Definition wrap_from (width : nat) (acc : list (list element) * list element)
           (txt_children : list element) : list (list element) :=
  let '(lines, current_line) := fold_left (wrap_step width) txt_children acc in
  lines ++ [current_line].

(** A line respects the width, or is one run that alone exceeds it. *)
Definition fits (width : nat) (line : list element) : Prop :=
  (line_length line <= width)%nat \/ exists r, line = [r] /\ over_width width r.

(** A line was closed because the run that opens the next one did not fit
    on it. *)
Definition closed_for (width : nat) (line next : list element) : Prop :=
  exists r rest,
    next = r :: rest /\ (width < line_length line + String.length (text r))%nat.

Definition greedy (width : nat) (lines : list (list element)) : Prop :=
  forall i line next,
    lines !! i = Some line -> lines !! S i = Some next -> closed_for width line next.

(** The text of a sequence of runs, and of a sequence of lines, read from
    left to right and from top to bottom. *)
Definition texts (line : list element) : string :=
  foldr (fun r acc => text r +:+ acc) "" line.

Definition lines_text (lines : list (list element)) : string :=
  foldr (fun line acc => texts line +:+ acc) "" lines.

(** *** Pages and navigation *)

(** A parsed page [display_page] can show: the path [html.body.div] exists
    and the [div] has exactly two [pre] children, header and body. *)
Definition renders (parsed : BeautifulSoup_t) : Prop :=
  exists ttx hdr txt,
    html_body_div parsed = Some ttx /\
    filter (fun a => named "pre" a = true) (children ttx) = [hdr; txt].

(** A world in which every page address is answered by a page that can be
    shown. *)
Definition serves (w : World) : Prop :=
  forall url, exists body, urlopen w url = Ok body /\ renders (BeautifulSoup w body).

(** The exceptions of a failed retrieval ([urlopen]) and of a failed reading
    of the parsed page ([display_page]). *)
Definition fetch_or_parse_failure (e : exn) : Prop :=
  e = URLError \/ e = AttributeError \/ e = ValueError.

(** The pair [(self.page, self.sub_page)] lines 173-182 assign, given the
    directory and the start page. *)
Definition landing (info : gmap Z Z) (start : Z) (page_ : Z) (sub_page_ : option Z)
  : Z * Z :=
  match info !! page_ with
  | Some count => (page_, chosen_sub_page sub_page_ count)
  | None => (start, 1%Z)
  end.

(** The calls of [load] and the addresses requested, as a trace shows
    them. *)
Definition load_calls (t : list event) : list (Z * option Z * bool) :=
  omap (fun ev => match ev with
                  | call_load p sp nh => Some (p, sp, nh)
                  | _ => None
                  end) t.

Definition requests (t : list event) : list string :=
  omap (fun ev => match ev with
                  | request url => Some url
                  | _ => None
                  end) t.

(** The navigation state: current page, current sub page and history. *)
Definition nav (s : Teletext) : Z * Z * list (Z * Z) :=
  (page s, sub_page s, history s).

(** The states of a running program: after [__init__] has returned, and
    after every key handled without an exception. *)
Inductive running : Teletext -> Prop :=
| running_init (w : World) (s : Teletext) (t : list event) :
    init w fresh = (Ok tt, s, t) -> running s
| running_key (w : World) (key : keypress) (s s' : Teletext) (t : list event) :
    running s -> handle_events w key s = (Ok tt, s', t) -> running s'.

(** Every state the object is ever in at the end of [__init__] or of
    [handle_events], whether it returned or raised. *)
Inductive reachable : Teletext -> Prop :=
| reachable_init (w : World) (r : result unit) (s : Teletext) (t : list event) :
    init w fresh = (r, s, t) -> reachable s
| reachable_key (w : World) (key : keypress) (r : result unit)
                (s s' : Teletext) (t : list event) :
    running s -> handle_events w key s = (r, s', t) -> reachable s'.

(** The sub page lies within the count the directory gives for the page. *)
Definition sub_page_in_range (s : Teletext) : Prop :=
  forall info count,
    page_info s = Some info -> info !! page s = Some count ->
    (1 <= sub_page s <= count)%Z.

(** *** The directory document *)

(** An entry of the listing read as [key:value], both integers. *)
Definition entry_pair (a : unicode) : option (Z * Z) :=
  match split (ord ":") a with
  | [k; v] =>
      match int k, int v with
      | Ok k, Ok v => Some (k, v)
      | _, _ => None
      end
  | _ => None
  end.

(** The mapping a sequence of pairs denotes when a later pair replaces an
    earlier one with the same key. *)
Definition last_wins (pairs : list (Z * Z)) : gmap Z Z :=
  list_to_map (reverse pairs).

(** *** Commands *)

(** The call of [load] a key leads to in a given state, if any: its three
    arguments.  The left and right keys ask for the neighbouring pages, the
    sub page keys for the neighbouring sub page or, at either end, for the
    neighbouring page, backspace for the last entry of the history, and the
    third digit of a number for that number. *)
Definition attempt (key : keypress) (s : Teletext) : option (Z * option Z * bool) :=
  let previous_sub_page :=
    if (1 <? sub_page s)%Z then Some (page s, Some (sub_page s - 1)%Z, false)
    else Some ((page s - 1)%Z, None, false) in
  let next_sub_page :=
    match page_info_getitem s with
    | Ok count =>
        if (sub_page s <? count)%Z then Some (page s, Some (sub_page s + 1)%Z, false)
        else Some ((page s + 1)%Z, None, false)
    | Err _ => None
    end in
  match key with
  | KEY_LEFT => Some ((page s - 1)%Z, None, false)
  | KEY_RIGHT => Some ((page s + 1)%Z, None, false)
  | KEY_DOWN => previous_sub_page
  | KEY_UP => next_sub_page
  | KEY_BACKSPACE =>
      match last (history s) with
      | Some (p, sp) => Some (p, Some sp, true)
      | None => None
      end
  | char c =>
      if Ascii.eqb c "-" then previous_sub_page
      else if Ascii.eqb c "+" then next_sub_page
      else match digit_value c, current_input s with
           | Some d, [d1; d2] => Some (((d1 * 10 + d2) * 10 + d)%Z, None, false)
           | _, _ => None
           end
  | _ => None
  end.

(** The history as a call of [load] leaves it. *)
Definition history_after (no_history : bool) (s : Teletext) : list (Z * Z) :=
  if no_history then removelast (history s)
  else history s ++ [(page s, sub_page s)].

Definition is_print (ev : event) : Prop :=
  match ev with
  | print_clear | print_at _ _ _ | print_clock => True
  | _ => False
  end.

(** The attributes no method assigns after [__init__] has loaded the
    directory. *)
Definition same_settings (s s' : Teletext) : Prop :=
  width s' = width s /\ height s' = height s /\ app_url s' = app_url s /\
  pages_url s' = pages_url s /\ start_page s' = start_page s /\
  page_info s' = page_info s /\ min_page s' = min_page s /\
  max_page s' = max_page s.

(** How a call of [load] that reached the request ends, seen from the state
    [s'] it leaves: the exception of [urlopen], or the fate of the page
    shown. *)
Definition load_ending (w : World) (r : result unit) (s' : Teletext) : Prop :=
  match urlopen w (page_url s') with
  | Err e => r = Err e
  | Ok body =>
      soup s' = Some (BeautifulSoup w body) /\
      (renders (BeautifulSoup w body) -> r = Ok tt) /\
      (forall e, r = Err e ->
                 (e = AttributeError \/ e = ValueError) /\
                 ~ renders (BeautifulSoup w body))
  end.

(** A result of a method with the stored bounds of its state replaced. *)
Definition rebound (lo hi : Z) (x : result unit * Teletext * list event)
  : result unit * Teletext * list event :=
  (fst (fst x), with_bounds lo hi (snd (fst x)), snd x).

(** ** Sample surroundings *)

(** A page with a header and a body of one run. *)
Definition sample_page : BeautifulSoup_t :=
  {| html_body_div :=
       Some (Element (Some "div") "" None
               [Element (Some "pre") "100 NDR Text" None [];
                Element (Some "pre") "Nachrichten" None
                  [Element (Some "b") "Nachrichten" (Some ["f3"; "b4"]) []]]) |}.

(** A server that answers the directory address with [pages_js] and every
    other address with a page. *)
Definition online (pages_js : string) : World :=
  {| urlopen := fun url =>
       if String.eqb url PAGES_URL then Ok pages_js else Ok "<html>";
     BeautifulSoup := fun _ => sample_page |}.

(** No answer to any request. *)
Definition offline : World :=
  {| urlopen := fun _ => Err URLError;
     BeautifulSoup := fun _ => sample_page |}.

(** The object on page 100, sub page 1, with an empty history and the given
    directory. *)
Definition on_start (info : gmap Z Z) : Teletext :=
  with_page_info (Some info) fresh.

(** A directory of two pages, the second with three sub pages. *)
Definition two_pages : gmap Z Z := {[ 100%Z := 1%Z; 101%Z := 3%Z ]}.

(** ** Further notions *)

(** *** The frame printed for a page *)

(** The cells of one printed row: a cell per run, then the padding cell
    of line 144. *)
Definition row_cells (line : list element) : list (string * string) :=
  map (fun a => (formatter_name (resolve (default [] (attr_class a))), text a)) line
  ++ [("white_on_black", " ")].

(** What is printed for a header and a body: the clearing of the screen,
    the header on row 0, the wrapped lines on the rows from 1 on. *)
Definition frame (width : nat) (hdr txt : element) : list event :=
  print_clear
  :: print_at 0 0 [("white_on_black", text hdr)]
  :: imap (fun i line => print_at 0 (i + 1) (row_cells line))
          (wrap width (children txt)).

(** *** Where the object stands *)

(** The sub page is at least one; with a directory, the page is one of its
    keys or the start page, and the sub page is one or within the count of
    the page. *)
Definition well_placed (s : Teletext) : Prop :=
  (1 <= sub_page s)%Z /\
  forall info,
    page_info s = Some info ->
    (is_Some (info !! page s) \/ page s = start_page s) /\
    (sub_page s = 1%Z \/
     exists count, info !! page s = Some count /\ (sub_page s <= count)%Z).

(** A digit as [load_number] receives it. *)
Definition is_digit (d : Z) : Prop := (0 <= d <= 9)%Z.

(** *** Text *)

(** Whether a character occurs in a text. *)
Fixpoint occurs (c : N) (s : unicode) : bool :=
  match s with
  | [] => false
  | c' :: s' => (c' =? c)%N || occurs c s'
  end.

(** A text of ASCII decimal digits. *)
Definition numeral (s : unicode) : bool :=
  forallb (fun ch => (48 <=? ch)%N && (ch <=? 57)%N) s.

(** [sep.join(pieces)] *)
Fixpoint join (sep : N) (pieces : list unicode) : unicode :=
  match pieces with
  | [] => []
  | [piece] => piece
  | piece :: rest => piece ++ sep :: join sep rest
  end.

(** A number whose numeral [int] reads back: at most [INT_MAX_STR_DIGITS]
    characters. *)
Definition short (z : Z) : Prop :=
  (String.length (str z) <= INT_MAX_STR_DIGITS)%nat.

(** A directory entry and a listing written with decimal numerals. *)
Definition render_entry (kv : Z * Z) : unicode :=
  text_of (str (fst kv)) ++ ord ":" :: text_of (str (snd kv)).

Definition render_listing (pairs : list (Z * Z)) : unicode :=
  join (ord ",") (map render_entry pairs).

(** *** Turning the page *)

(** Where a request for page [p] without a sub page leads: to its first sub
    page when the directory lists it, to the first sub page of the start
    page otherwise. *)
Definition turned (info : gmap Z Z) (start p : Z) : Z * Z :=
  if decide (is_Some (info !! p)) then (p, 1%Z) else (start, 1%Z).

(** * Properties *)

(** ** Colour formatter *)

Section Colours.

Lemma colors_color_digit (c : color) : colors (color_digit c) = Ok (color_name c).
Proof. by destruct c. Qed.

Lemma selects_sound (kind : ascii) (tag : string) (c : color) :
  selects kind tag = Some c -> tag = tag_of kind c.
Proof.
  unfold selects. intros Hfind.
  apply List.find_some in Hfind as [_ Heq].
  by apply String.eqb_eq in Heq.
Qed.

Lemma tag_of_background (c : color) : tag_of "b" c ∈ background_classes.
Proof. destruct c; vm_compute; set_solver. Qed.

Lemma tag_of_foreground (c : color) : tag_of "f" c ∈ foreground_classes.
Proof. destruct c; vm_compute; set_solver. Qed.

(** Every class is a background tag, a foreground tag, or none of the
    sixteen. *)
Lemma class_cases (class_ : string) :
  (exists c, class_ = tag_of "b" c) \/
  (exists c, class_ = tag_of "f" c) \/
  ((class_ ∉ background_classes) /\ (class_ ∉ foreground_classes)).
Proof.
  destruct (decide (class_ ∈ background_classes)) as [Hb | Hb].
  { left. unfold background_classes in Hb.
    repeat (apply elem_of_cons in Hb as [-> | Hb];
            [by (eexists black + eexists red + eexists green + eexists yellow
                 + eexists blue + eexists magenta + eexists cyan + eexists white) |]).
    by apply elem_of_nil in Hb. }
  destruct (decide (class_ ∈ foreground_classes)) as [Hf | Hf]; [| by right; right].
  right; left. unfold foreground_classes in Hf.
  repeat (apply elem_of_cons in Hf as [-> | Hf];
          [by (eexists black + eexists red + eexists green + eexists yellow
               + eexists blue + eexists magenta + eexists cyan + eexists white) |]).
  by apply elem_of_nil in Hf.
Qed.

Lemma selects_unrecognized_b (class_ : string) :
  class_ ∉ background_classes -> selects "b" class_ = None.
Proof.
  intros Hn. destruct (selects "b" class_) as [c |] eqn:Hsel; [| done].
  apply selects_sound in Hsel as ->. destruct Hn. apply tag_of_background.
Qed.

Lemma selects_unrecognized_f (class_ : string) :
  class_ ∉ foreground_classes -> selects "f" class_ = None.
Proof.
  intros Hn. destruct (selects "f" class_) as [c |] eqn:Hsel; [| done].
  apply selects_sound in Hsel as ->. destruct Hn. apply tag_of_foreground.
Qed.

Lemma color_step_unrecognized (acc : ascii * ascii) (class_ : string) :
  class_ ∉ background_classes -> class_ ∉ foreground_classes ->
  color_step acc class_ = Ok acc.
Proof.
  intros Hb Hf. unfold color_step.
  by rewrite !bool_decide_eq_false_2.
Qed.

Lemma default_last_cons {A : Type} (d x : A) (l : list A) :
  default d (last (x :: l)) = default x (last l).
Proof.
  revert d x. induction l as [| y l IH]; intros d x; [done |].
  rewrite last_cons_cons. by rewrite !(IH _ y).
Qed.

(** The loop keeps in [fgc] and [bgc] the digit of the last foreground and
    of the last background tag met, and never raises. *)
Lemma color_loop_last (classes : list string) (cf cb : color) :
  color_loop (color_digit cf, color_digit cb) classes
  = Ok (color_digit (default cf (last_selected "f" classes)),
        color_digit (default cb (last_selected "b" classes))).
Proof.
  revert cf cb. induction classes as [| class_ rest IH]; intros cf cb; [done |].
  unfold last_selected in *. cbn [color_loop omap list_omap].
  destruct (class_cases class_) as [[c ->] | [[c ->] | [Hb Hf]]].
  - replace (color_step (color_digit cf, color_digit cb) (tag_of "b" c))
      with (Ok (color_digit cf, color_digit c)) by (by destruct c).
    replace (selects "f" (tag_of "b" c)) with (@None color) by (by destruct c).
    replace (selects "b" (tag_of "b" c)) with (Some c) by (by destruct c).
    cbn [rbind]. rewrite IH. by rewrite default_last_cons.
  - replace (color_step (color_digit cf, color_digit cb) (tag_of "f" c))
      with (Ok (color_digit c, color_digit cb)) by (by destruct c).
    replace (selects "b" (tag_of "f" c)) with (@None color) by (by destruct c).
    replace (selects "f" (tag_of "f" c)) with (Some c) by (by destruct c).
    cbn [rbind]. rewrite IH. by rewrite default_last_cons.
  - rewrite color_step_unrecognized by done.
    rewrite selects_unrecognized_b, selects_unrecognized_f by done.
    cbn [rbind]. apply IH.
Qed.

Lemma classes_to_color_formatter_resolve (classes : list string) :
  classes_to_color_formatter classes = Ok (formatter_name (resolve classes)).
Proof.
  unfold classes_to_color_formatter.
  change ("7"%char, "0"%char) with (color_digit white, color_digit black).
  rewrite color_loop_last. cbn [rbind fst snd].
  by rewrite !colors_color_digit.
Qed.

Lemma last_selected_snoc (kind : ascii) (tags : list string) (tag : string) :
  last_selected kind (tags ++ [tag])
  = match selects kind tag with
    | Some c => Some c
    | None => last_selected kind tags
    end.
Proof.
  unfold last_selected. rewrite omap_app. cbn [omap list_omap].
  destruct (selects kind tag) as [c |].
  - by rewrite last_snoc.
  - by rewrite app_nil_r.
Qed.

End Colours.

(** C7. Colour resolution on an ordered sequence of tags: the formatter the
    code returns is the one named by the last foreground tag and the last
    background tag of the sequence, white and black standing in for a kind
    that has no tag; scanning one more tag overwrites the colour of its kind
    when it is one of b0..b7 or f0..f7 and changes nothing otherwise;
    [f1, b0, f3] gives yellow on black and the empty sequence white on
    black. *)
Theorem C7_color_precedence :
  (forall tags, classes_to_color_formatter tags = Ok (formatter_name (resolve tags))) /\
  (forall tags c, resolve (tags ++ [tag_of "b" c]) = (fst (resolve tags), c)) /\
  (forall tags c, resolve (tags ++ [tag_of "f" c]) = (c, snd (resolve tags))) /\
  (forall tags tag,
      tag ∉ background_classes -> tag ∉ foreground_classes ->
      resolve (tags ++ [tag]) = resolve tags) /\
  resolve [] = (white, black) /\
  resolve ["f1"; "b0"; "f3"] = (yellow, black) /\
  classes_to_color_formatter ["f1"; "b0"; "f3"] = Ok "yellow_on_black" /\
  classes_to_color_formatter [] = Ok "white_on_black".
Proof.
  split; [apply classes_to_color_formatter_resolve |].
  split.
  { intros tags c. unfold resolve. rewrite !last_selected_snoc.
    by destruct c. }
  split.
  { intros tags c. unfold resolve. rewrite !last_selected_snoc.
    by destruct c. }
  split.
  { intros tags tag Hb Hf. unfold resolve. rewrite !last_selected_snoc.
    by rewrite selects_unrecognized_b, selects_unrecognized_f. }
  repeat split.
Qed.

Lemma C7_color_precedence_witness :
  ("blink" ∉ background_classes) /\ ("blink" ∉ foreground_classes) /\
  resolve (["f1"; "b2"] ++ ["blink"]) = resolve ["f1"; "b2"].
Proof.
  assert (Hb : "blink" ∉ background_classes)
    by (refine (bool_decide_unpack _ _); vm_compute; exact I).
  assert (Hf : "blink" ∉ foreground_classes)
    by (refine (bool_decide_unpack _ _); vm_compute; exact I).
  split; [exact Hb |]. split; [exact Hf |].
  exact (proj1 (proj2 (proj2 (proj2 C7_color_precedence))) ["f1"; "b2"] "blink" Hb Hf).
Defined.

(** ** Packing runs into lines *)

Section Wrapping.

Variable width : nat.

Lemma line_length_snoc (line : list element) (el : element) :
  line_length (line ++ [el]) = (line_length line + String.length (text el))%nat.
Proof. unfold line_length. by rewrite map_app, fold_left_app. Qed.

Lemma line_length_single (el : element) :
  line_length [el] = String.length (text el).
Proof. done. Qed.

Lemma wrap_from_nil (lines : list (list element)) (current_line : list element) :
  wrap_from width (lines, current_line) [] = lines ++ [current_line].
Proof. done. Qed.

Lemma wrap_from_cons (acc : list (list element) * list element)
      (el : element) (rest : list element) :
  wrap_from width acc (el :: rest) = wrap_from width (wrap_step width acc el) rest.
Proof. done. Qed.

Lemma wrap_wrap_from (txt_children : list element) :
  wrap width txt_children = wrap_from width ([], []) txt_children.
Proof. done. Qed.

(** Nothing is lost, repeated or reordered. *)
Lemma concat_wrap_from (txt_children : list element)
      (lines : list (list element)) (current_line : list element) :
  concat (wrap_from width (lines, current_line) txt_children)
  = concat lines ++ current_line ++ runs txt_children.
Proof.
  revert lines current_line.
  induction txt_children as [| el rest IH]; intros lines current_line.
  - rewrite wrap_from_nil, concat_app. cbn. by rewrite !app_nil_r.
  - rewrite wrap_from_cons. unfold wrap_step, runs.
    rewrite filter_cons.
    destruct (named "b" el) eqn:Hb.
    + rewrite decide_True by done.
      destruct (_ <? _)%nat; rewrite IH.
      * rewrite concat_app. cbn. rewrite app_nil_r. by rewrite <- !app_assoc.
      * by rewrite <- !app_assoc.
    + rewrite decide_False by done. apply IH.
Qed.

Lemma fits_wrap_from (txt_children : list element)
      (lines : list (list element)) (current_line : list element) :
  Forall (fits width) lines -> fits width current_line ->
  Forall (fits width) (wrap_from width (lines, current_line) txt_children).
Proof.
  revert lines current_line.
  induction txt_children as [| el rest IH]; intros lines current_line Hlines Hcur.
  - rewrite wrap_from_nil. apply Forall_app. by split; [| apply Forall_singleton].
  - rewrite wrap_from_cons. unfold wrap_step.
    destruct (named "b" el); [| by apply IH].
    destruct (_ <? _)%nat eqn:Hover.
    + apply IH.
      * apply Forall_app. by split; [| apply Forall_singleton].
      * destruct (decide (String.length (text el) <= width)%nat) as [Hle | Hgt].
        -- left. by rewrite line_length_single.
        -- right. exists el. split; [done |]. unfold over_width. lia.
    + apply IH; [done |]. left. rewrite line_length_snoc.
      apply Nat.ltb_ge in Hover. lia.
Qed.

(** An over-width run gets a line of its own. *)
Lemma over_width_alone (txt_children : list element)
      (lines : list (list element)) (current_line : list element) (r : element) :
  over_width width r ->
  [r] ∈ lines \/ current_line = [r] \/ r ∈ runs txt_children ->
  [r] ∈ wrap_from width (lines, current_line) txt_children.
Proof.
  intros Hover. revert lines current_line.
  induction txt_children as [| el rest IH]; intros lines current_line Hin.
  - rewrite wrap_from_nil. destruct Hin as [Hin | [-> | Hin]].
    + set_solver.
    + set_solver.
    + by apply elem_of_nil in Hin.
  - rewrite wrap_from_cons. unfold wrap_step.
    unfold runs in Hin. rewrite filter_cons in Hin.
    destruct (named "b" el) eqn:Hb.
    + rewrite decide_True in Hin by done.
      destruct (_ <? _)%nat eqn:Hlt.
      * apply IH. destruct Hin as [Hin | [-> | Hin]].
        -- left. set_solver.
        -- left. set_solver.
        -- apply elem_of_cons in Hin as [-> | Hin]; [by right; left | by right; right].
      * apply Nat.ltb_ge in Hlt.
        destruct Hin as [Hin | [-> | Hin]].
        -- apply IH. by left.
        -- rewrite line_length_single in Hlt. unfold over_width in Hover. lia.
        -- apply elem_of_cons in Hin as [-> | Hin].
           ++ unfold over_width in Hover. lia.
           ++ apply IH. by right; right.
    + rewrite decide_False in Hin by done. apply IH.
      destruct Hin as [Hin | [-> | Hin]]; [by left | by right; left | by right; right].
Qed.

Lemma greedy_snoc (lines : list (list element)) (line next : list element) :
  greedy width (lines ++ [line]) -> closed_for width line next ->
  greedy width ((lines ++ [line]) ++ [next]).
Proof.
  intros Hg Hc i l1 l2 H1 H2.
  destruct (decide (S i < length (lines ++ [line]))%nat) as [Hlt | Hge].
  - rewrite lookup_app_l in H1 by lia. rewrite lookup_app_l in H2 by done.
    by eapply Hg.
  - apply lookup_lt_Some in H2 as Hlen.
    rewrite !length_app in Hlen. rewrite length_app in Hge.
    cbn in Hlen, Hge.
    assert (i = length lines) as -> by lia.
    rewrite lookup_app_l in H1 by (rewrite length_app; cbn; lia).
    rewrite list_lookup_middle in H1 by done.
    replace (S (length lines)) with (length (lines ++ [line])) in H2
      by (rewrite length_app; cbn; lia).
    rewrite list_lookup_middle in H2 by done.
    by simplify_eq.
Qed.

Lemma greedy_extend (lines : list (list element)) (line : list element) (el : element) :
  greedy width (lines ++ [line]) -> (lines <> [] -> line <> []) ->
  greedy width (lines ++ [line ++ [el]]).
Proof.
  intros Hg Hne i l1 l2 H1 H2.
  apply lookup_lt_Some in H2 as Hlen. rewrite length_app in Hlen. cbn in Hlen.
  destruct (decide (S i = length lines)) as [Heq | Hneq].
  - rewrite lookup_app_l in H1 by lia.
    rewrite Heq in H2. rewrite list_lookup_middle in H2 by done.
    injection H2 as <-.
    assert (lines <> []) as Hl by (intros ->; cbn in Heq; lia).
    destruct (Hg i l1 line) as (r & rest & -> & Hw).
    + by rewrite lookup_app_l by lia.
    + rewrite Heq. by rewrite list_lookup_middle.
    + exists r, (rest ++ [el]). by split.
  - rewrite lookup_app_l in H1 by lia. rewrite lookup_app_l in H2 by lia.
    eapply Hg; rewrite lookup_app_l; try done; lia.
Qed.

Lemma greedy_wrap_from (txt_children : list element)
      (lines : list (list element)) (current_line : list element) :
  greedy width (lines ++ [current_line]) -> (lines <> [] -> current_line <> []) ->
  greedy width (wrap_from width (lines, current_line) txt_children).
Proof.
  revert lines current_line.
  induction txt_children as [| el rest IH]; intros lines current_line Hg Hne.
  - by rewrite wrap_from_nil.
  - rewrite wrap_from_cons. unfold wrap_step.
    destruct (named "b" el); [| by apply IH].
    destruct (_ <? _)%nat eqn:Hover.
    + apply IH; [| done].
      apply greedy_snoc; [done |].
      exists el, []. split; [done |]. by apply Nat.ltb_lt in Hover.
    + apply IH.
      * by apply greedy_extend.
      * intros _. by destruct current_line.
Qed.

Lemma greedy_single (line : list element) : greedy width [line].
Proof. intros i l1 l2 H1 H2. by destruct i. Qed.

(** The line being filled when the loop ends is the last one of the
    result. *)
Lemma last_wrap (txt_children : list element) :
  last (wrap width txt_children)
  = Some (snd (fold_left (wrap_step width) txt_children ([], []))).
Proof.
  unfold wrap. destruct (fold_left _ _ _) as [lines current_line].
  by rewrite last_snoc.
Qed.

Lemma wrap_no_runs (txt_children : list element) :
  runs txt_children = [] -> wrap width txt_children = [[]].
Proof.
  intros Hnone.
  assert (Hc : concat (wrap width txt_children) = []).
  { rewrite wrap_wrap_from, concat_wrap_from. by rewrite Hnone. }
  assert (Hg := greedy_wrap_from txt_children [] [] (greedy_single [])
                               (fun H => False_ind _ (H eq_refl))).
  rewrite <- wrap_wrap_from in Hg.
  destruct (wrap width txt_children) as [| l1 [| l2 rest]] eqn:Hw.
  - pose proof (last_wrap txt_children) as Hl. by rewrite Hw in Hl.
  - cbn in Hc. rewrite app_nil_r in Hc. by rewrite Hc.
  - destruct (Hg 0%nat l1 l2) as (r & tl & -> & _); [done | done |].
    cbn in Hc. by destruct l1.
Qed.

End Wrapping.

Lemma append_assoc (a b c : string) : (a +:+ b) +:+ c = a +:+ (b +:+ c).
Proof.
  induction a as [| ch a IH]; [done |].
  change (String ch ((a +:+ b) +:+ c) = String ch (a +:+ (b +:+ c))).
  by rewrite IH.
Qed.

Lemma texts_app (l1 l2 : list element) : texts (l1 ++ l2) = texts l1 +:+ texts l2.
Proof.
  induction l1 as [| r l1 IH]; [done |].
  unfold texts in *. cbn [foldr app]. by rewrite IH, append_assoc.
Qed.

Lemma lines_text_concat (lines : list (list element)) :
  lines_text lines = texts (concat lines).
Proof.
  induction lines as [| line lines IH]; [done |].
  unfold lines_text in *. cbn [foldr concat]. by rewrite texts_app, IH.
Qed.

(** C5. For every list of children of the body block and every width, the
    lines are made of whole runs: laid end to end they are exactly the runs
    of the input, in order, so the text of the lines is the text of the
    runs with nothing lost or repeated; and a run whose text alone exceeds
    the width is a line by itself. *)
Theorem C5_wrap_keeps_runs_whole (width : nat) (txt_children : list element) :
  concat (wrap width txt_children) = runs txt_children /\
  lines_text (wrap width txt_children) = texts (runs txt_children) /\
  (forall r, r ∈ runs txt_children -> over_width width r ->
             [r] ∈ wrap width txt_children).
Proof.
  assert (Hconcat : concat (wrap width txt_children) = runs txt_children)
    by (by rewrite wrap_wrap_from, concat_wrap_from).
  split; [done |]. split.
  - by rewrite lines_text_concat, Hconcat.
  - intros r Hin Hover. rewrite wrap_wrap_from.
    apply over_width_alone; [done |]. by right; right.
Qed.

Lemma C5_wrap_keeps_runs_whole_witness :
  let long := Element (Some "b") "0123456789" (Some ["f3"]) [] in
  let short := Element (Some "b") "ab" None [] in
  long ∈ runs [short; long; short] /\ over_width 4 long /\
  [long] ∈ wrap 4 [short; long; short].
Proof.
  intros long short.
  assert (Hin : long ∈ runs [short; long; short]) by (vm_compute; set_solver).
  assert (Hover : over_width 4 long) by (vm_compute; lia).
  split; [exact Hin |]. split; [exact Hover |].
  exact (proj2 (proj2 (C5_wrap_keeps_runs_whole 4 [short; long; short])) long Hin Hover).
Defined.

(** C6. For every list of children and every width, each line holds at most
    [width] characters unless it is a single over-width run; a line is
    closed only because the run opening the next line would have carried it
    past the width; the line being filled when the runs are exhausted is
    appended last, so that no children at all, or no runs among them, give
    exactly one empty line. *)
Theorem C6_wrap_width_bound (width : nat) (txt_children : list element) :
  Forall (fits width) (wrap width txt_children) /\
  greedy width (wrap width txt_children) /\
  last (wrap width txt_children)
  = Some (snd (fold_left (wrap_step width) txt_children ([], []))) /\
  wrap width [] = [[]] /\
  (runs txt_children = [] -> wrap width txt_children = [[]]).
Proof.
  split.
  { rewrite wrap_wrap_from. apply fits_wrap_from; [done |]. left. cbn. lia. }
  split.
  { rewrite wrap_wrap_from. apply greedy_wrap_from; [apply greedy_single | done]. }
  split; [apply last_wrap |].
  split; [done |].
  apply wrap_no_runs.
Qed.

Lemma C6_wrap_width_bound_witness :
  let bridge := Element None " " None [] in
  runs [bridge; bridge] = [] /\ wrap 40 [bridge; bridge] = [[]].
Proof.
  intros bridge.
  assert (Hnone : runs [bridge; bridge] = []) by reflexivity.
  split; [exact Hnone |].
  exact (proj2 (proj2 (proj2 (proj2 (C6_wrap_width_bound 40 [bridge; bridge])))) Hnone).
Defined.

(** Three short runs on a width of five, and an over-width run first. *)
Example wrap_three_runs :
  let b t := Element (Some "b") t None [] in
  wrap 5 [b "abc"; Element None "x" None []; b "de"; b "f"]
  = [[b "abc"; b "de"]; [b "f"]].
Proof. reflexivity. Qed.

Example wrap_over_width_first :
  let b t := Element (Some "b") t None [] in
  wrap 3 [b "abcdef"; b "g"] = [[]; [b "abcdef"]; [b "g"]].
Proof. reflexivity. Qed.

(** ** The methods, unfolded *)

Ltac unfold_monad :=
  unfold bind, ret, raise, lift, get, modify, emit, try_except in *.

Lemma map_result_total {A B : Type} (f : A -> result B) (g : A -> B) (l : list A) :
  (forall a, f a = Ok (g a)) -> map_result f l = Ok (map g l).
Proof.
  intros Hf. induction l as [| a l IH]; [done |].
  cbn. by rewrite Hf, IH.
Qed.

Lemma cell_total (a : element) :
  cell a = Ok (formatter_name (resolve (default [] (attr_class a))), text a).
Proof. unfold cell. by rewrite classes_to_color_formatter_resolve. Qed.

(** Printing the lines never raises and leaves the object alone. *)
Lemma print_lines_run (lines : list (list element)) (i : nat) :
  exists t, Forall is_print t /\ forall s, print_lines i lines s = (Ok tt, s, t).
Proof.
  revert i. induction lines as [| line rest IH]; intros i.
  - by exists [].
  - destruct (IH (S i)) as (t & Hprint & Ht).
    eexists. split; [| intros s; cbn [print_lines]; unfold_monad;
                       rewrite (map_result_total cell _ line cell_total);
                       rewrite classes_to_color_formatter_resolve, Ht; reflexivity].
    cbn. by repeat constructor.
Qed.

(** [display_page] reads [self.soup] and [self.width] only, assigns
    nothing, and fails exactly on a page that does not render. *)
Lemma display_page_run (s : Teletext) :
  exists r t,
    Forall is_print t /\
    (forall s', soup s' = soup s -> width s' = width s ->
                display_page s' = (r, s', t)) /\
    (forall parsed, soup s = Some parsed -> renders parsed -> r = Ok tt) /\
    (forall e, r = Err e ->
               (e = AttributeError \/ e = ValueError) /\
               forall parsed, soup s = Some parsed -> ~ renders parsed).
Proof.
  unfold display_page, renders. unfold_monad.
  destruct (soup s) as [parsed |] eqn:Hsoup.
  2:{ exists (Err AttributeError), [print_clear].
      split; [by repeat constructor |]. split; [| split].
      - intros s' -> _. done.
      - done.
      - intros e [= <-]. split; [by left | done]. }
  destruct (html_body_div parsed) as [ttx |] eqn:Hdiv.
  2:{ exists (Err AttributeError), [print_clear].
      split; [by repeat constructor |]. split; [| split].
      - intros s' -> _. by rewrite Hdiv.
      - intros ? [= <-] (? & ? & ? & ? & ?). congruence.
      - intros e [= <-]. split; [by left |].
        intros ? [= <-] (? & ? & ? & ? & ?). congruence. }
  destruct (filter (fun a => named "pre" a = true) (children ttx))
    as [| hdr [| txt [| more pres]]] eqn:Hpre.
  1,2,4: (exists (Err ValueError), [print_clear];
      split; [by repeat constructor |]; split; [| split];
      [ intros s' -> _; by rewrite Hdiv, Hpre
      | intros ? [= <-] (? & ? & ? & ? & ?); congruence
      | intros e [= <-]; split; [by right |];
        intros ? [= <-] (? & ? & ? & ? & ?); congruence ]).
  destruct (print_lines_run (wrap (width s) (children txt)) 0) as (t & Hprint & Ht).
  exists (Ok tt), ([print_clear] ++ [print_at 0 0 [("white_on_black", text hdr)]] ++ t).
  split; [by repeat constructor |]. split; [| split].
  - intros s' -> ->. rewrite Hdiv, Hpre, Ht. reflexivity.
  - done.
  - done.
Qed.

Lemma display_page_state (s : Teletext) (r : result unit) (s' : Teletext)
      (t : list event) :
  display_page s = (r, s', t) -> s' = s.
Proof.
  destruct (display_page_run s) as (r0 & t0 & _ & Hrun & _).
  rewrite (Hrun s eq_refl eq_refl). congruence.
Qed.

(** [load] in one piece: the history entry, the landing pair, the request
    and the display, with the exception that ends it if any. *)
Lemma load_unfold (w : World) (page_ : Z) (sub_page_ : option Z) (no_history : bool)
      (s : Teletext) :
  load w page_ sub_page_ no_history s =
  let s1 := if no_history then s
            else with_history (history s ++ [(page s, sub_page s)]) s in
  match page_info s with
  | None => (Err TypeError, s1, [call_load page_ sub_page_ no_history])
  | Some info =>
      let target := landing info (start_page s) page_ sub_page_ in
      let s2 := with_sub_page (snd target) (with_page (fst target) s1) in
      match urlopen w (page_url s2) with
      | Err e =>
          (Err e, s2, [call_load page_ sub_page_ no_history; request (page_url s2)])
      | Ok body =>
          let s3 := with_soup (Some (BeautifulSoup w body)) s2 in
          (fst (fst (display_page s3)), s3,
           [call_load page_ sub_page_ no_history; request (page_url s2)]
             ++ snd (display_page s3))
      end
  end.
Proof.
  unfold load, landing. unfold_monad.
  destruct no_history; cbn -[display_page page_url chosen_sub_page];
    (destruct (page_info s) as [info |]; [| done]);
    (destruct (info !! page_) as [count |];
     cbn -[display_page page_url chosen_sub_page]);
    (destruct (urlopen w _) as [body | e]; [| done]);
    match goal with
    | |- context [display_page ?s3] =>
        destruct (display_page s3) as [[r s4] t] eqn:Hd;
        apply display_page_state in Hd as ->; by destruct r
    end.
Qed.

Lemma load_calls_app (t1 t2 : list event) :
  load_calls (t1 ++ t2) = load_calls t1 ++ load_calls t2.
Proof. apply omap_app. Qed.

Lemma requests_app (t1 t2 : list event) :
  requests (t1 ++ t2) = requests t1 ++ requests t2.
Proof. apply omap_app. Qed.

Lemma prints_silent (t : list event) :
  Forall is_print t -> load_calls t = [] /\ requests t = [].
Proof.
  induction 1 as [| ev t Hev _ [IH1 IH2]]; [done |].
  by destruct ev.
Qed.

Lemma same_settings_refl (s : Teletext) : same_settings s s.
Proof. by repeat split. Qed.

Lemma same_settings_trans (s1 s2 s3 : Teletext) :
  same_settings s1 s2 -> same_settings s2 s3 -> same_settings s1 s3.
Proof. unfold same_settings. intros H12 H23. destruct_and!. repeat split; congruence. Qed.

(** What a call of [load] leaves behind. *)
Lemma load_result (w : World) (page_ : Z) (sub_page_ : option Z) (no_history : bool)
      (s : Teletext) (r : result unit) (s' : Teletext) (t : list event) :
  load w page_ sub_page_ no_history s = (r, s', t) ->
  same_settings s s' /\
  current_input s' = current_input s /\
  history s' = (if no_history then history s
                else history s ++ [(page s, sub_page s)]) /\
  load_calls t = [(page_, sub_page_, no_history)] /\
  match page_info s with
  | None =>
      r = Err TypeError /\ page s' = page s /\ sub_page s' = sub_page s /\
      requests t = []
  | Some info =>
      (page s', sub_page s') = landing info (start_page s) page_ sub_page_ /\
      requests t = [page_url s'] /\
      load_ending w r s'
  end.
Proof.
  rewrite load_unfold. unfold load_ending. cbn zeta.
  destruct (page_info s) as [info |] eqn:Hinfo.
  2:{ intros [= <- <- <-]. destruct no_history; by repeat split. }
  match goal with
  | |- context [urlopen w (page_url ?s2)] => set (st := s2)
  end.
  destruct (urlopen w (page_url st)) as [body | e] eqn:Hurl.
  2:{ intros [= <- <- <-]. rewrite Hurl.
      destruct no_history; repeat split; try done;
        by destruct (landing _ _ _ _). }
  set (s3 := with_soup _ st).
  destruct (display_page_run s3) as (r0 & t0 & Hprint & Hrun & Hok & Herr).
  rewrite (Hrun s3 eq_refl eq_refl). cbn [fst snd].
  apply prints_silent in Hprint as [Hcalls Hreqs].
  intros [= <- <- <-].
  change (page_url s3) with (page_url st). rewrite Hurl.
  split; [by destruct no_history; repeat split |].
  split; [by destruct no_history |].
  split; [by destruct no_history |].
  split; [by unfold load_calls in *; cbn; rewrite Hcalls |].
  split; [by destruct no_history; destruct (landing _ _ _ _) |].
  split; [by unfold requests in *; cbn; rewrite Hreqs |].
  split; [done |]. split.
  - intros Hrend. by apply (Hok _ eq_refl).
  - intros e He. destruct (Herr e He) as [Hkind Hnot]. split; [done |].
    by apply Hnot.
Qed.

Ltac step_load :=
  match goal with
  | |- context [load ?w ?p ?sp ?nh ?s] =>
      let Hload := fresh "Hload" in
      destruct (load w p sp nh s) as [[? ?] ?] eqn:Hload;
      apply load_result in Hload;
      cbn [page sub_page history current_input page_info start_page
           with_history with_current_input] in Hload;
      destruct Hload as (Hsame & Hinput & Hhist & Hcalls & Hland)
  end.

Ltac settings :=
  match goal with
  | H : same_settings _ _ |- same_settings _ _ => exact H
  end.

Ltac finish_load :=
  match goal with
  | Hland : match page_info ?s with _ => _ end |- _ =>
      destruct (page_info s) as [info |] eqn:Hinfo;
      [ destruct Hland as (Hland & Hreqs & Hend)
      | destruct Hland as (-> & Hp & Hsp & Hreqs) ]
  end.

Ltac solve_load :=
  step_load; intros [= <- <- <-]; repeat (split; [first [settings | done] |]);
  finish_load; by eauto.

Lemma page_info_getitem_err (s : Teletext) (e : exn) :
  page_info_getitem s = Err e -> e = TypeError \/ e = KeyError.
Proof.
  unfold page_info_getitem. repeat case_match; intros [= <-]; auto.
Qed.

(** What a key does, through the call of [load] it leads to. *)
Lemma dispatch_result (w : World) (key : keypress) (s : Teletext)
      (r : result unit) (s' : Teletext) (t : list event) :
  dispatch w key s = (r, s', t) ->
  same_settings s s' /\
  load_calls t = option_list (attempt key s) /\
  match attempt key s with
  | None =>
      nav s' = nav s /\ soup s' = soup s /\ requests t = [] /\
      (forall e, r = Err e -> e = SystemExit \/ e = TypeError \/ e = KeyError)
  | Some (p, sp, nh) =>
      history s' = history_after nh s /\
      match page_info s with
      | None => r = Err TypeError /\ page s' = page s /\ sub_page s' = sub_page s
      | Some info =>
          (page s', sub_page s') = landing info (start_page s) p sp /\
          requests t = [page_url s'] /\
          (load_ending w r s' \/
           key = KEY_BACKSPACE /\ urlopen w (page_url s') = Err IndexError /\ r = Ok tt)
      end
  end.
Proof.
  destruct key; cbn [dispatch attempt].
  - intros [= <- <- <-]. by repeat split.
  - intros [= <- <- <-]. repeat (split; [done |]). intros e [= <-]. by left.
  - unfold go_back_in_history, history_pop. unfold_monad.
    destruct (last (history s)) as [[p sp] |] eqn:Hlast; cbn -[load].
    2:{ intros [= <- <- <-]. by repeat split. }
    step_load. finish_load.
    2:{ cbn. intros [= <- <- <-]. split; [settings | by repeat split]. }
    destruct r0 as [[] | e].
    { intros [= <- <- <-]. repeat (split; [first [settings | by eauto] |]). by eauto. }
    destruct (decide (e = IndexError)) as [-> | Hne].
    + rewrite app_nil_r. intros [= <- <- <-]. repeat (split; [first [settings | by eauto] |]). right.
      unfold load_ending in Hend.
      destruct (urlopen w (page_url t0)) as [body | e]; [| by simplify_eq].
      destruct Hend as (_ & _ & Herr).
      destruct (Herr IndexError eq_refl) as [[? | ?] _]; done.
    + destruct e; try done; intros [= <- <- <-];
        repeat (split; [first [settings | by eauto] |]); by eauto.
  - unfold load_previous. unfold_monad. solve_load.
  - unfold load_next. unfold_monad. solve_load.
  - unfold load_previous_sub_page. unfold_monad.
    destruct (1 <? sub_page s)%Z; solve_load.
  - unfold load_next_sub_page. unfold_monad.
    destruct (page_info_getitem s) as [count | e] eqn:Hget.
    + destruct (sub_page s <? count)%Z; solve_load.
    + intros [= <- <- <-]. repeat (split; [done |]).
      intros e' [= <-]. by apply page_info_getitem_err in Hget as [-> | ->]; auto.
  - intros [= <- <- <-]. by repeat split.
  - destruct (Ascii.eqb c "-").
    { unfold load_previous_sub_page. unfold_monad.
      destruct (1 <? sub_page s)%Z; solve_load. }
    destruct (Ascii.eqb c "+").
    { unfold load_next_sub_page. unfold_monad.
      destruct (page_info_getitem s) as [count | e] eqn:Hget.
      - destruct (sub_page s <? count)%Z; solve_load.
      - intros [= <- <- <-]. repeat (split; [done |]).
        intros e' [= <-]. by apply page_info_getitem_err in Hget as [-> | ->]; auto. }
    destruct (digit_value c) as [d |]; [| intros [= <- <- <-]; by repeat split].
    unfold load_number. unfold_monad. cbn -[load length].
    destruct (current_input s) as [| d1 [| d2 [| d3 rest]]] eqn:Hci;
      cbn -[load].
    1,2: intros [= <- <- <-]; by repeat split.
    2:{ rewrite length_app, Nat.add_1_r. cbn.
        intros [= <- <- <-]. by repeat split. }
    step_load. finish_load.
    2:{ cbn. intros [= <- <- <-]. split; [settings | by repeat split]. }
    destruct r0 as [[] | e]; cbn; rewrite ?app_nil_r; intros [= <- <- <-];
      (split; [settings |]); repeat (split; [by eauto |]); left; exact Hend.
Qed.

Lemma handle_events_dispatch (w : World) (key : keypress) (s : Teletext)
      (r : result unit) (s' : Teletext) (t : list event) :
  handle_events w key s = (r, s', t) ->
  exists t0,
    dispatch w key s = (r, s', t0) /\
    load_calls t = load_calls t0 /\ requests t = requests t0.
Proof.
  assert (Hgen : (dispatch w key >>> display_clock) s = (r, s', t) ->
                 exists t0, dispatch w key s = (r, s', t0) /\
                            load_calls t = load_calls t0 /\ requests t = requests t0).
  { unfold display_clock. unfold_monad.
    destruct (dispatch w key s) as [[[[] | e] s0] t0]; intros [= <- <- <-].
    - exists t0. rewrite load_calls_app, requests_app. cbn.
      by rewrite !app_nil_r.
    - by exists t0. }
  destruct key; exact Hgen.
Qed.

(** What a key does, seen from [handle_events]. *)
Lemma handle_events_result (w : World) (key : keypress) (s : Teletext)
      (r : result unit) (s' : Teletext) (t : list event) :
  handle_events w key s = (r, s', t) ->
  same_settings s s' /\
  load_calls t = option_list (attempt key s) /\
  match attempt key s with
  | None =>
      nav s' = nav s /\ soup s' = soup s /\ requests t = [] /\
      (forall e, r = Err e -> e = SystemExit \/ e = TypeError \/ e = KeyError)
  | Some (p, sp, nh) =>
      history s' = history_after nh s /\
      match page_info s with
      | None => r = Err TypeError /\ page s' = page s /\ sub_page s' = sub_page s
      | Some info =>
          (page s', sub_page s') = landing info (start_page s) p sp /\
          requests t = [page_url s'] /\
          (load_ending w r s' \/
           key = KEY_BACKSPACE /\ urlopen w (page_url s') = Err IndexError /\ r = Ok tt)
      end
  end.
Proof.
  intros (t0 & Hd & -> & ->)%handle_events_dispatch.
  by apply dispatch_result in Hd.
Qed.

(** ** Failure in the middle of a navigation *)

(** C1, as the code has it.  When a key ends in the exception of a failed
    retrieval or of a failed reading of the page, the key had led to a call
    of [load] with a directory present, and nothing is undone: the page and
    sub page are those the call landed on, and the history is the one the
    call left, with the entry pushed for the attempt (with the entry popped
    still popped for a step back). *)
Theorem C1_failure_keeps_attempt (w : World) (key : keypress) (s : Teletext)
        (e : exn) (s' : Teletext) (t : list event) :
  handle_events w key s = (Err e, s', t) ->
  fetch_or_parse_failure e ->
  exists p sp nh info,
    attempt key s = Some (p, sp, nh) /\
    page_info s = Some info /\
    (page s', sub_page s') = landing info (start_page s) p sp /\
    history s' = history_after nh s /\
    (key <> KEY_BACKSPACE -> history s' = history s ++ [(page s, sub_page s)]).
Proof.
  intros Hrun Hkind.
  pose proof (handle_events_dispatch _ _ _ _ _ _ Hrun) as (t0 & Hd & _ & _).
  apply handle_events_result in Hrun as (_ & _ & Hnav).
  destruct (attempt key s) as [[[p sp] nh] |] eqn:Hatt.
  - destruct Hnav as [Hhist Hnav].
    destruct (page_info s) as [info |] eqn:Hinfo.
    + destruct Hnav as (Hland & _ & _).
      exists p, sp, nh, info. repeat (split; [done |]).
      intros Hkey. rewrite Hhist.
      destruct nh; [| done].
      destruct key; cbn in Hatt; try done;
        repeat (case_match; simplify_eq); done.
    + destruct Hnav as ([= ->] & _).
      destruct Hkind as [? | [? | ?]]; done.
  - destruct Hnav as (_ & _ & _ & Herr).
    destruct (Herr e eq_refl) as [-> | [-> | ->]];
      destruct Hkind as [? | [? | ?]]; done.
Qed.

Lemma C1_failure_keeps_attempt_witness :
  let s := on_start two_pages in
  let s' := snd (fst (handle_events offline KEY_RIGHT s)) in
  exists p sp nh info,
    attempt KEY_RIGHT s = Some (p, sp, nh) /\
    page_info s = Some info /\
    (page s', sub_page s') = landing info (start_page s) p sp /\
    history s' = history_after nh s /\
    (KEY_RIGHT <> KEY_BACKSPACE -> history s' = history s ++ [(page s, sub_page s)]).
Proof.
  intros s s'.
  apply (C1_failure_keeps_attempt offline KEY_RIGHT s URLError s'
           (snd (handle_events offline KEY_RIGHT s))).
  - vm_compute. reflexivity.
  - left. reflexivity.
Defined.

(** The claim of a rollback fails on a next-page key pressed on (100, 1)
    with an empty history while the server does not answer: the object is
    left on (101, 1) with (100, 1) in its history. *)
Lemma C1_rollback_counterexample :
  fst (fst (handle_events offline KEY_RIGHT (on_start two_pages))) = Err URLError /\
  fetch_or_parse_failure URLError /\
  nav (on_start two_pages) = (100%Z, 1%Z, []) /\
  nav (snd (fst (handle_events offline KEY_RIGHT (on_start two_pages))))
  = (101%Z, 1%Z, [(100%Z, 1%Z)]) /\
  nav (snd (fst (handle_events offline KEY_RIGHT (on_start two_pages))))
  <> nav (on_start two_pages).
Proof.
  split; [by vm_compute |]. split; [by left |]. split; [by vm_compute |].
  split; [by vm_compute |]. by vm_compute.
Qed.

(** ** The directory that could not be loaded *)

Lemma get_page_info_run (w : World) (s : Teletext) :
  get_page_info w s =
  match rbind (urlopen w (pages_url s)) parse_page_info with
  | Ok info => (Ok tt, with_page_info (Some info) s, [request (pages_url s)])
  | Err e =>
      if is_Exception e
      then (Ok tt, s, [request (pages_url s); stderr_write e])
      else (Err e, s, [request (pages_url s)])
  end.
Proof.
  unfold get_page_info. unfold_monad.
  destruct (urlopen w (pages_url s)) as [body | e]; cbn.
  - destruct (parse_page_info body) as [info | e]; cbn; [done |].
    by destruct (is_Exception e).
  - by destruct (is_Exception e).
Qed.

(** C2, at the failing start.  When the directory cannot be retrieved or
    parsed, [get_page_info] reports the exception and returns, leaving
    [page_info] at [None]; the call [load(start_page)] that follows in
    [__init__] then raises [TypeError] at [page in self.page_info], so the
    program ends there whatever keys were to come; and no call of [load] on
    an object without directory lands anywhere. *)
Theorem C2_missing_directory_raises (w : World) (inputs : list (World * keypress))
        (e : exn) :
  rbind (urlopen w PAGES_URL) parse_page_info = Err e ->
  is_Exception e = true ->
  get_page_info w fresh = (Ok tt, fresh, [request PAGES_URL; stderr_write e]) /\
  main w inputs
  = (Err TypeError, with_history [(START_PAGE, 1%Z)] fresh,
     [request PAGES_URL; stderr_write e; call_load START_PAGE None false]) /\
  (forall w' page_ sub_page_ no_history s,
      page_info s = None ->
      fst (fst (load w' page_ sub_page_ no_history s)) = Err TypeError).
Proof.
  intros Hfail Hexc.
  assert (Hget : get_page_info w fresh
                 = (Ok tt, fresh, [request PAGES_URL; stderr_write e])).
  { rewrite get_page_info_run. change (pages_url fresh) with PAGES_URL.
    by rewrite Hfail, Hexc. }
  split; [done |]. split.
  - unfold main, init. unfold bind at 1 2. rewrite Hget.
    unfold bind at 1. unfold get at 1. unfold bind at 1.
    rewrite load_unfold. reflexivity.
  - intros w' page_ sub_page_ no_history s Hnone.
    rewrite load_unfold. cbn zeta. by rewrite Hnone.
Qed.

Lemma C2_missing_directory_raises_witness :
  main offline [(offline, KEY_RIGHT)]
  = (Err TypeError, with_history [(START_PAGE, 1%Z)] fresh,
     [request PAGES_URL; stderr_write URLError; call_load START_PAGE None false]).
Proof.
  apply (C2_missing_directory_raises offline [(offline, KEY_RIGHT)] URLError);
    reflexivity.
Defined.

(** ** Loading the directory *)

Section Directory.

Implicit Types (acc : gmap Z Z) (entries : list unicode) (pairs : list (Z * Z)).

(** The two integers of a well-formed entry are what the conversion of its
    fields yields, and no other entry converts to a list of two. *)
Lemma entry_pair_fields (a : unicode) :
  match entry_pair a with
  | Some (k, v) => map_result int (split (ord ":") a) = Ok [k; v]
  | None => forall k v, map_result int (split (ord ":") a) <> Ok [k; v]
  end.
Proof.
  unfold entry_pair.
  destruct (split (ord ":") a) as [| x [| y [| z rest]]]; cbn; try done.
  - intros k v. by destruct (int x).
  - destruct (int x), (int y); cbn; try done; by intros ? ? [= ].
  - intros k v. destruct (int x), (int y), (int z); cbn; try done.
    by destruct (map_result int rest).
Qed.

Lemma dict_of_entries_pairs acc entries pairs :
  entry_pair <$> entries = Some <$> pairs ->
  dict_of_entries acc entries
  = Ok (foldl (fun m kv => <[kv.1 := kv.2]> m) acc pairs).
Proof.
  revert acc pairs. induction entries as [| a entries IH]; intros acc pairs Heq.
  - by destruct pairs.
  - destruct pairs as [| [k v] pairs]; [done |].
    injection Heq as Ha Hrest.
    pose proof (entry_pair_fields a) as Hfields. rewrite Ha in Hfields.
    cbn [dict_of_entries]. rewrite Hfields. cbn [rbind].
    by rewrite (IH _ pairs).
Qed.

Lemma dict_of_entries_malformed acc entries (a : unicode) :
  a ∈ entries -> entry_pair a = None ->
  exists e, dict_of_entries acc entries = Err e.
Proof.
  intros Hin Hbad. revert acc.
  induction entries as [| b entries IH]; intros acc; [by apply elem_of_nil in Hin |].
  cbn [dict_of_entries].
  destruct (map_result int (split (ord ":") b)) as [item | e] eqn:Hitem; [| by exists e].
  cbn [rbind].
  destruct item as [| k [| v [| more item]]]; try by exists ValueError.
  apply elem_of_cons in Hin as [-> | Hin].
  - pose proof (entry_pair_fields b) as Hfields. rewrite Hbad in Hfields.
    by destruct (Hfields k v).
  - by apply IH.
Qed.

Lemma foldl_insert_last_wins pairs :
  foldl (fun m kv => <[kv.1 := kv.2]> m) ∅ pairs = last_wins pairs.
Proof.
  unfold last_wins.
  induction pairs as [| [k v] pairs IH] using rev_ind; [done |].
  rewrite foldl_app, reverse_app. cbn. by rewrite IH.
Qed.

Lemma last_wins_elem_of pairs (k v : Z) :
  last_wins pairs !! k = Some v -> (k, v) ∈ pairs.
Proof.
  unfold last_wins. intros Hlook%elem_of_list_to_map_2.
  by apply elem_of_reverse.
Qed.

Lemma last_wins_distinct pairs (k v : Z) :
  NoDup pairs.*1 -> last_wins pairs !! k = Some v <-> (k, v) ∈ pairs.
Proof.
  intros Hnodup. unfold last_wins.
  rewrite <- elem_of_list_to_map by (by rewrite fmap_reverse, reverse_Permutation).
  by rewrite elem_of_reverse.
Qed.

Lemma int_err (s : unicode) (e : exn) : int s = Err e -> e = ValueError.
Proof. unfold int. repeat case_match; by intros [= <-]. Qed.

Lemma map_result_int_err (fields : list unicode) (e : exn) :
  map_result int fields = Err e -> e = ValueError.
Proof.
  induction fields as [| f fields IH]; [done |]. cbn.
  destruct (int f) eqn:Hf; cbn.
  - destruct (map_result int fields); cbn; [done |].
    intros [= <-]. by apply IH.
  - intros [= <-]. by eapply int_err.
Qed.

Lemma dict_of_entries_err acc entries (e : exn) :
  dict_of_entries acc entries = Err e -> e = ValueError.
Proof.
  revert acc. induction entries as [| a entries IH]; intros acc; [done |].
  cbn [dict_of_entries].
  destruct (map_result int (split (ord ":") a)) as [item | e'] eqn:Hitem; cbn [rbind].
  - destruct item as [| k [| v [| more item]]]; try by intros [= <-].
    apply IH.
  - intros [= <-]. by eapply map_result_int_err.
Qed.

Lemma decode_err (bytes : string) (e : exn) :
  decode bytes = Err e -> e = UnicodeDecodeError.
Proof.
  remember (String.length bytes) as n eqn:Hn. revert bytes Hn.
  induction n as [n IH] using lt_wf_ind. intros bytes ->.
  assert (Hrec : forall rest (f : unicode -> unicode),
             (String.length rest < String.length bytes)%nat ->
             rbind (decode rest) (fun t => Ok (f t)) = Err e ->
             e = UnicodeDecodeError).
  { intros rest f Hlt. destruct (decode rest) as [t | e'] eqn:Hrest; [done |].
    intros [= ->]. by eapply IH. }
  destruct bytes as [| c0 rest]; [done |]. cbn [decode].
  repeat case_match; subst; try (by intros [= <-]);
    apply Hrec; cbn [String.length]; lia.
Qed.

Lemma parse_page_info_err (body : string) (e : exn) :
  parse_page_info body = Err e ->
  e = UnicodeDecodeError \/ e = IndexError \/ e = ValueError.
Proof.
  unfold parse_page_info, data_string, index.
  destruct (decode body) as [document |] eqn:Hdecode; cbn [rbind];
    [| intros [= <-]; left; by eapply decode_err].
  destruct (split (ord "{") document !! 1%nat) as [inner |]; cbn [rbind];
    [| intros [= <-]; by right; left].
  destruct (split (ord "}") inner !! 0%nat) as [ds |]; cbn [rbind];
    [| intros [= <-]; by right; left].
  intros He. right; right. by eapply dict_of_entries_err.
Qed.

End Directory.

(** C3, as the code has it.  The load is all or nothing: when the bytes are
    not UTF-8, when the text has no braced listing, or when one entry is
    not two integer fields around a colon, the parse fails as a whole and
    [page_info] keeps the value it had; when every entry is well formed the
    parse yields the mapping of the pairs read in order, a key met again
    taking its last value, and holds nothing but pairs of the listing; with
    keys all different the mapping holds exactly the pairs of the
    listing. *)
Theorem C3_directory_load (body : string) :
  (forall e, decode body = Err e -> parse_page_info body = Err e) /\
  (forall document, decode body = Ok document ->
     (forall e, data_string document = Err e -> parse_page_info body = Err e) /\
     (forall ds, data_string document = Ok ds ->
        (forall a, a ∈ split (ord ",") ds -> entry_pair a = None ->
                   exists e, parse_page_info body = Err e) /\
        (forall pairs, entry_pair <$> split (ord ",") ds = Some <$> pairs ->
           parse_page_info body = Ok (last_wins pairs) /\
           (forall k v, last_wins pairs !! k = Some v -> (k, v) ∈ pairs) /\
           (NoDup pairs.*1 ->
            forall k v, last_wins pairs !! k = Some v <-> (k, v) ∈ pairs)))) /\
  (forall w s, urlopen w (pages_url s) = Ok body ->
     fst (fst (get_page_info w s)) = Ok tt /\
     page_info (snd (fst (get_page_info w s)))
     = match parse_page_info body with
       | Ok info => Some info
       | Err _ => page_info s
       end).
Proof.
  split; [| split].
  - intros e He. unfold parse_page_info. by rewrite He.
  - intros document Hdoc. unfold parse_page_info. rewrite Hdoc. cbn [rbind].
    split; [intros e He; by rewrite He |].
    intros ds Hds. rewrite Hds. cbn [rbind]. split.
    + intros a Hin Hbad. by eapply dict_of_entries_malformed.
    + intros pairs Hpairs. split; [| split].
      * rewrite (dict_of_entries_pairs _ _ pairs Hpairs).
        by rewrite foldl_insert_last_wins.
      * apply last_wins_elem_of.
      * intros Hnodup k v. by apply last_wins_distinct.
  - intros w s Hurl. rewrite get_page_info_run, Hurl. cbn [rbind].
    destruct (parse_page_info body) as [info | e] eqn:Hparse; [done |].
    by destruct (parse_page_info_err _ _ Hparse) as [-> | [-> | ->]].
Qed.

Lemma C3_directory_load_witness :
  parse_page_info "var pages = { 100:1, 101 :3,200:12 };"
  = Ok (last_wins [(100, 1); (101, 3); (200, 12)]%Z).
Proof.
  apply (proj2 (proj1 (proj2 (C3_directory_load
                                "var pages = { 100:1, 101 :3,200:12 };"))
                  (text_of "var pages = { 100:1, 101 :3,200:12 };") eq_refl)
           (text_of " 100:1, 101 :3,200:12 "));
    reflexivity.
Defined.

(** A listing with the key 100 twice loads, and gives the key its last
    value; the claim has the whole load fail. *)
Lemma C3_duplicate_key_counterexample :
  decode "{100:1,100:2}" = Ok (text_of "{100:1,100:2}") /\
  data_string (text_of "{100:1,100:2}") = Ok (text_of "100:1,100:2") /\
  entry_pair <$> split (ord ",") (text_of "100:1,100:2")
  = [Some (100, 1); Some (100, 2)]%Z /\
  ~ NoDup [(100, 1); (100, 2)]%Z.*1 /\
  parse_page_info "{100:1,100:2}" = Ok {[ 100%Z := 2%Z ]} /\
  get_page_info (online "{100:1,100:2}") fresh
  = (Ok tt, with_page_info (Some {[ 100%Z := 2%Z ]}) fresh, [request PAGES_URL]).
Proof.
  split; [by vm_compute |]. split; [by vm_compute |]. split; [by vm_compute |].
  split.
  - cbn. intros Hnodup. apply NoDup_cons in Hnodup as [Hnotin _].
    apply Hnotin. by left.
  - split; by vm_compute.
Qed.

(** ** The start page and the settings *)

Lemma landing_unknown (info : gmap Z Z) (start page_ : Z) (sub_page_ : option Z) :
  info !! page_ = None -> landing info start page_ sub_page_ = (start, 1%Z).
Proof. unfold landing. by intros ->. Qed.

Lemma handle_events_settings (w : World) (key : keypress) (s : Teletext)
      (r : result unit) (s' : Teletext) (t : list event) :
  handle_events w key s = (r, s', t) -> same_settings s s'.
Proof. by intros (Hsame & _)%handle_events_result. Qed.

(** [__init__] keeps the configured start page. *)
Lemma init_start_page (w : World) (r : result unit) (s : Teletext) (t : list event) :
  init w fresh = (r, s, t) -> start_page s = START_PAGE.
Proof.
  unfold init. unfold bind at 1. rewrite get_page_info_run.
  change (pages_url fresh) with PAGES_URL.
  assert (Hload : forall s0 r s t,
             start_page s0 = START_PAGE ->
             (s1 <-- get; load w (start_page s1) None false >>> display_clock) s0
             = (r, s, t) ->
             start_page s = START_PAGE).
  { clear. intros s0 r s t Hstart. unfold display_clock. unfold_monad.
    destruct (load w (start_page s0) None false s0) as [[r1 s1] t1] eqn:Hl.
    apply load_result in Hl as (Hsame & _).
    destruct Hsame as (_ & _ & _ & _ & Hst & _).
    intros Heq.
    assert (s = s1) as -> by (destruct r1 as [[] |]; cbn in Heq; congruence).
    congruence. }
  destruct (rbind (urlopen w PAGES_URL) parse_page_info) as [info | e].
  - match goal with
    | |- context [bind ?m ?k ?s0] =>
        destruct (bind m k s0) as [[r1 s1] t1] eqn:Hrest
    end.
    intros [= <- <- <-]. eapply Hload; [| exact Hrest]. reflexivity.
  - destruct (is_Exception e).
    + match goal with
      | |- context [bind ?m ?k ?s0] =>
          destruct (bind m k s0) as [[r1 s1] t1] eqn:Hrest
      end.
      intros [= <- <- <-]. eapply Hload; [| exact Hrest]. reflexivity.
    + by intros [= <- <- <-].
Qed.

(** Every state of a running program has the configured start page. *)
Lemma running_start_page (s : Teletext) : running s -> start_page s = START_PAGE.
Proof.
  induction 1 as [w s t Hinit | w key s s' t _ IH Hkey].
  - by eapply init_start_page.
  - apply handle_events_settings in Hkey.
    destruct Hkey as (_ & _ & _ & _ & Hst & _). congruence.
Qed.

Lemma reachable_after_init (w : World) : reachable (snd (fst (init w fresh))).
Proof.
  apply (reachable_init w (fst (fst (init w fresh))) _ (snd (init w fresh))).
  by destruct (init w fresh) as [[r s] t].
Qed.


(** ** Digits *)

Lemma digit_not_sign (c : ascii) (d : Z) :
  digit_value c = Some d -> Ascii.eqb c "-" = false /\ Ascii.eqb c "+" = false.
Proof.
  intros Hd. split.
  - destruct (Ascii.eqb_spec c "-") as [-> |]; [by vm_compute in Hd | done].
  - destruct (Ascii.eqb_spec c "+") as [-> |]; [by vm_compute in Hd | done].
Qed.

Lemma handle_digit (w : World) (c : ascii) (d : Z) (s : Teletext) :
  digit_value c = Some d ->
  handle_events w (char c) s = (load_number w d >>> display_clock) s.
Proof.
  intros Hd. destruct (digit_not_sign c d Hd) as [Hminus Hplus].
  unfold handle_events, dispatch. by rewrite Hminus, Hplus, Hd.
Qed.

(** A digit that is not the third one is only stored. *)
Lemma digit_stored (w : World) (c : ascii) (d : Z) (s : Teletext) :
  digit_value c = Some d -> length (current_input s) <> 2%nat ->
  handle_events w (char c) s
  = (Ok tt, with_current_input (current_input s ++ [d]) s, [print_clock]).
Proof.
  intros Hd Hlen. rewrite (handle_digit w c d s Hd).
  unfold load_number, display_clock. unfold_monad. cbn -[load length].
  rewrite length_app. cbn [length].
  destruct (Nat.eqb_spec (length (current_input s) + 1) 3) as [Heq | _]; [lia |].
  done.
Qed.

(** The third digit calls [load] once with the number and, when the call
    returns, empties the input. *)
Lemma digit_third (w : World) (c : ascii) (d d1 d2 : Z) (s : Teletext)
      (r : result unit) (s' : Teletext) (t : list event) :
  digit_value c = Some d -> current_input s = [d1; d2] ->
  handle_events w (char c) s = (r, s', t) ->
  load_calls t = [(((d1 * 10 + d2) * 10 + d)%Z, None, false)] /\
  (r = Ok tt -> current_input s' = []) /\
  history s' = history s ++ [(page s, sub_page s)] /\
  (forall info,
      page_info s = Some info ->
      (page s', sub_page s')
      = landing info (start_page s) ((d1 * 10 + d2) * 10 + d) None /\
      (serves w -> r = Ok tt)).
Proof.
  intros Hd Hci. rewrite (handle_digit w c d s Hd).
  unfold load_number, display_clock. unfold_monad. cbn -[load length].
  rewrite Hci. cbn -[load].
  step_load.
  destruct r0 as [[] | e]; cbn; intros [= <- <- <-].
  - rewrite app_nil_r, load_calls_app, Hcalls. split; [done |]. split; [done |].
    split; [done |]. intros info Hinfo. rewrite Hinfo in Hland.
    by destruct Hland as (Hland & _).
  - split; [done |]. split; [done |]. split; [done |].
    intros info Hinfo. rewrite Hinfo in Hland.
    destruct Hland as (Hland & _ & Hend). split; [done |].
    intros Hserves. unfold load_ending in Hend.
    destruct (Hserves (page_url t0)) as (body & Hurl & Hrend).
    rewrite Hurl in Hend. destruct Hend as (_ & Hok & _). by apply Hok.
Qed.

Lemma digit_third_raised (w : World) (c : ascii) (d d1 d2 : Z) (s : Teletext)
      (e : exn) (s' : Teletext) (t : list event) :
  digit_value c = Some d -> current_input s = [d1; d2] ->
  handle_events w (char c) s = (Err e, s', t) ->
  current_input s' = [d1; d2; d].
Proof.
  intros Hd Hci. rewrite (handle_digit w c d s Hd).
  unfold load_number, display_clock. unfold_monad. cbn -[load length].
  rewrite Hci. cbn -[load].
  step_load.
  match goal with
  | |- context [match ?r1 with Ok _ => _ | Err _ => _ end] =>
      destruct r1 as [[] | e0]; cbn; by intros [= <- <- <-]
  end.
Qed.

(** C8, as the code has it.  From an empty input, the keys 1, 0, 0 make one
    call of [load], for the page 100 = (1 * 10 + 0) * 10 + 0; the input is
    emptied after that call has returned (as it does with a directory
    loaded and a server that answers), and when the call raises the three
    digits stay in the input; the keys 1, 0 alone leave the two digits in
    the input and call nothing. *)
Theorem C8_digit_accumulation (w1 w2 w3 : World) (s : Teletext) :
  current_input s = [] ->
  (forall r s' t,
      exec_ [(w1, char "1"); (w2, char "0")] s = (r, s', t) ->
      r = Ok tt /\ current_input s' = [1; 0]%Z /\
      length (current_input s') = 2%nat /\
      load_calls t = [] /\ requests t = [] /\ nav s' = nav s) /\
  (forall r s' t,
      exec_ [(w1, char "1"); (w2, char "0"); (w3, char "0")] s = (r, s', t) ->
      load_calls t = [(100%Z, None, false)] /\
      (r = Ok tt -> current_input s' = []) /\
      (forall e, r = Err e -> current_input s' = [1; 0; 0]%Z) /\
      (forall info,
          page_info s = Some info ->
          (page s', sub_page s') = landing info (start_page s) 100 None /\
          (serves w3 -> r = Ok tt /\ current_input s' = []))).
Proof.
  intros Hempty.
  assert (H1 : handle_events w1 (char "1") s
               = (Ok tt, with_current_input [1%Z] s, [print_clock])).
  { rewrite (digit_stored w1 "1" 1 s eq_refl) by (by rewrite Hempty).
    by rewrite Hempty. }
  assert (H2 : handle_events w2 (char "0") (with_current_input [1%Z] s)
               = (Ok tt, with_current_input [1; 0]%Z s, [print_clock])).
  { by rewrite (digit_stored w2 "0" 0 _ eq_refl). }
  split.
  - intros r s' t. cbn [exec_]. unfold bind at 1. rewrite H1.
    unfold bind at 1. rewrite H2. cbn. intros [= <- <- <-]. by repeat split.
  - intros r s' t. cbn [exec_]. unfold bind at 1. rewrite H1.
    unfold bind at 1. rewrite H2. unfold bind at 1. unfold ret.
    destruct (handle_events w3 (char "0") (with_current_input [1; 0]%Z s))
      as [[r3 s3] t3] eqn:H3.
    pose proof H3 as H3'.
    apply (digit_third w3 "0" 0 1 0 (with_current_input [1; 0]%Z s) _ _ _
             eq_refl eq_refl) in H3
      as (Hcalls & Hclear & _ & Hinfo).
    destruct r3 as [[] | e]; intros [= <- <- <-].
    + rewrite app_nil_r.
      split; [exact Hcalls |]. split; [by auto |]. split; [done |].
      intros info Hi. destruct (Hinfo info Hi) as [Hland _].
      split; [done |]. by auto.
    + split; [exact Hcalls |]. split; [done |]. split.
      { intros e' _.
        by apply (digit_third_raised w3 "0" 0 1 0 (with_current_input [1; 0]%Z s)
                    _ _ _ eq_refl eq_refl) in H3'. }
      intros info Hi. destruct (Hinfo info Hi) as [Hland Hok].
      split; [done |]. intros Hserves. by specialize (Hok Hserves).
Qed.

Lemma C8_digit_accumulation_witness :
  current_input (on_start two_pages) = [] /\
  load_calls (snd (exec_ [(online "", char "1"); (online "", char "0");
                          (online "", char "0")] (on_start two_pages)))
  = [(100%Z, None, false)].
Proof.
  split; [reflexivity |].
  destruct (exec_ [(online "", char "1"); (online "", char "0");
                   (online "", char "0")] (on_start two_pages))
    as [[r s'] t] eqn:Hrun.
  exact (proj1 (proj2 (C8_digit_accumulation (online "") (online "") (online "")
                         (on_start two_pages) eq_refl) r s' t Hrun)).
Defined.

(** With the server down at the third digit the call of [load] raises and
    the three digits stay in the input; the claim has it empty. *)
Lemma C8_failed_load_counterexample :
  current_input (on_start two_pages) = [] /\
  fst (fst (exec_ [(online "", char "1"); (online "", char "0");
                   (offline, char "0")] (on_start two_pages)))
  = Err URLError /\
  load_calls (snd (exec_ [(online "", char "1"); (online "", char "0");
                          (offline, char "0")] (on_start two_pages)))
  = [(100%Z, None, false)] /\
  current_input (snd (fst (exec_ [(online "", char "1"); (online "", char "0");
                                  (offline, char "0")] (on_start two_pages))))
  = [1; 0; 0]%Z /\
  current_input (snd (fst (exec_ [(online "", char "1"); (online "", char "0");
                                  (offline, char "0")] (on_start two_pages))))
  <> [].
Proof. repeat split; by vm_compute. Qed.

(** ** Going back *)

(** With a directory loaded and a server that answers, a key that leads to
    a call of [load] returns. *)
Lemma key_served (w : World) (key : keypress) (s : Teletext) (info : gmap Z Z)
      (r : result unit) (s' : Teletext) (t : list event) :
  handle_events w key s = (r, s', t) ->
  is_Some (attempt key s) -> page_info s = Some info -> serves w ->
  r = Ok tt.
Proof.
  intros (_ & _ & Hnav)%handle_events_result [[[p sp] nh] Hatt] Hinfo Hserves.
  rewrite Hatt, Hinfo in Hnav. destruct Hnav as (_ & _ & _ & Hend).
  destruct (Hserves (page_url s')) as (body & Hurl & Hrend).
  destruct Hend as [Hend | (_ & Hfail & _)]; [| congruence].
  unfold load_ending in Hend. rewrite Hurl in Hend.
  destruct Hend as (_ & Hok & _). by apply Hok.
Qed.

Lemma landing_back_to_start (info : gmap Z Z) :
  landing info START_PAGE 100 (Some 1%Z) = (100%Z, 1%Z).
Proof.
  unfold landing, chosen_sub_page. destruct (info !! 100%Z) as [count |]; [| done].
  by destruct (negb (1 =? 0)%Z && ((1 <=? 1)%Z && (1 <=? count)%Z)).
Qed.

(** C9. From page 100, sub page 1 and an empty history, with the directory
    loaded and the server answering: the key to the next page, which calls
    [load(101)], followed by backspace returns, calls [load(100, 1)] without
    a history entry, and leaves the object on page 100, sub page 1, with an
    empty history.  And backspace on an empty history returns at once with
    the object as it was and nothing requested. *)
Theorem C9_history_round_trip :
  (forall (w1 w2 : World) (s : Teletext) (info : gmap Z Z)
          (r : result unit) (s' : Teletext) (t : list event),
      page s = 100%Z -> sub_page s = 1%Z -> history s = [] ->
      page_info s = Some info -> start_page s = START_PAGE ->
      serves w1 -> serves w2 ->
      exec_ [(w1, KEY_RIGHT); (w2, KEY_BACKSPACE)] s = (r, s', t) ->
      r = Ok tt /\ nav s' = (100%Z, 1%Z, []) /\
      load_calls t = [(101%Z, None, false); (100%Z, Some 1%Z, true)]) /\
  (forall (w : World) (s : Teletext),
      history s = [] ->
      go_back_in_history w s = (Ok tt, s, []) /\
      handle_events w KEY_BACKSPACE s = (Ok tt, s, [print_clock])).
Proof.
  split.
  - intros w1 w2 s info r s' t Hpage Hsub Hhist Hinfo Hstart Hs1 Hs2.
    cbn [exec_]. unfold bind at 1.
    destruct (handle_events w1 KEY_RIGHT s) as [[r1 s1] t1] eqn:H1.
    pose proof (key_served _ _ _ info _ _ _ H1 ltac:(by eexists) Hinfo Hs1) as ->.
    apply handle_events_result in H1 as (Hsame1 & Hcalls1 & Hnav1).
    cbn [attempt] in Hcalls1, Hnav1. rewrite Hinfo in Hnav1.
    destruct Hnav1 as (Hhist1 & Hland1 & _).
    unfold history_after in Hhist1. rewrite Hhist, Hpage, Hsub in Hhist1.
    cbn in Hhist1, Hcalls1. rewrite Hpage in Hcalls1.
    destruct Hsame1 as (_ & _ & _ & _ & Hst1 & Hinfo1 & _).
    unfold bind at 1.
    destruct (handle_events w2 KEY_BACKSPACE s1) as [[r2 s2] t2] eqn:H2.
    assert (Hatt2 : attempt KEY_BACKSPACE s1 = Some (100%Z, Some 1%Z, true))
      by (cbn; by rewrite Hhist1).
    pose proof (key_served _ _ _ info _ _ _ H2 ltac:(by eexists)
                  ltac:(congruence) Hs2) as ->.
    apply handle_events_result in H2 as (_ & Hcalls2 & Hnav2).
    rewrite Hatt2 in Hcalls2, Hnav2. rewrite Hinfo1, Hinfo in Hnav2.
    destruct Hnav2 as (Hhist2 & Hland2 & _).
    unfold history_after in Hhist2. rewrite Hhist1 in Hhist2. cbn in Hhist2.
    rewrite Hst1, Hstart, landing_back_to_start in Hland2.
    injection Hland2 as Hp2 Hsp2.
    unfold ret. intros [= <- <- <-].
    split; [done |]. split.
    + unfold nav. by rewrite Hp2, Hsp2, Hhist2.
    + rewrite app_nil_r, load_calls_app, Hcalls1, Hcalls2. done.
  - intros w s Hhist.
    assert (Hback : go_back_in_history w s = (Ok tt, s, [])).
    { unfold go_back_in_history, history_pop. unfold_monad. by rewrite Hhist. }
    split; [done |].
    unfold handle_events, dispatch, display_clock. unfold bind, emit.
    by rewrite Hback.
Qed.

Lemma sample_page_renders : renders sample_page.
Proof. unfold renders, sample_page. by eexists _, _, _. Qed.

Lemma serves_online (pages_js : string) : serves (online pages_js).
Proof.
  intros url. unfold online. cbn.
  destruct (String.eqb url PAGES_URL); eexists; (split; [done |]);
    apply sample_page_renders.
Qed.

Lemma C9_history_round_trip_witness :
  page (on_start two_pages) = 100%Z /\ sub_page (on_start two_pages) = 1%Z /\
  history (on_start two_pages) = [] /\
  nav (snd (fst (exec_ [(online "", KEY_RIGHT); (online "", KEY_BACKSPACE)]
                       (on_start two_pages))))
  = (100%Z, 1%Z, []).
Proof.
  repeat (split; [reflexivity |]).
  destruct (exec_ [(online "", KEY_RIGHT); (online "", KEY_BACKSPACE)]
                  (on_start two_pages)) as [[r s'] t] eqn:Hrun.
  exact (proj1 (proj2 (proj1 C9_history_round_trip (online "") (online "")
                         (on_start two_pages) two_pages r s' t
                         eq_refl eq_refl eq_refl eq_refl eq_refl
                         (serves_online "") (serves_online "") Hrun))).
Defined.

(** ** The stored page bounds *)

Ltac norm_state :=
  cbn [fst snd width height app_url pages_url start_page page sub_page
       current_input page_info min_page max_page soup history
       with_page with_sub_page with_current_input with_page_info with_soup
       with_history with_bounds] in *.

Section Bounds.

Variables lo hi : Z.

(** A result with the bounds of its state replaced. *)
Lemma load_bounds (w : World) (page_ : Z) (sub_page_ : option Z)
      (no_history : bool) (s : Teletext) :
  load w page_ sub_page_ no_history (with_bounds lo hi s)
  = rebound lo hi (load w page_ sub_page_ no_history s).
Proof.
  rewrite !load_unfold. unfold rebound, page_url.
  destruct no_history; norm_state;
    (destruct (page_info s) as [info |]; [| done]);
    match goal with
    | |- context [urlopen w ?url] => destruct (urlopen w url) as [body | e]
    end; try done;
    match goal with
    | |- context [display_page ?a] =>
        destruct (display_page_run a) as (r0 & t0 & _ & Hrun & _)
    end;
    repeat match goal with
      | |- context [display_page ?a] => rewrite (Hrun a eq_refl eq_refl)
      end;
    reflexivity.
Qed.

Ltac by_load_bounds :=
  repeat match goal with
    | |- context [load ?w ?p ?sp ?nh (?f (with_bounds ?lo ?hi ?s))] =>
        change (f (with_bounds lo hi s)) with (with_bounds lo hi (f s))
    end;
  rewrite load_bounds; unfold rebound;
  match goal with
  | |- context [load ?w ?p ?sp ?nh ?s] =>
      destruct (load w p sp nh s) as [[[[] | []] ?] ?]
  end;
  reflexivity.

Lemma dispatch_bounds (w : World) (key : keypress) (s : Teletext) :
  dispatch w key (with_bounds lo hi s) = rebound lo hi (dispatch w key s).
Proof.
  assert (Hprev : load_previous_sub_page w (with_bounds lo hi s)
                  = rebound lo hi (load_previous_sub_page w s)).
  { unfold load_previous_sub_page. unfold_monad. norm_state.
    destruct (1 <? sub_page s)%Z; by_load_bounds. }
  assert (Hnext : load_next_sub_page w (with_bounds lo hi s)
                  = rebound lo hi (load_next_sub_page w s)).
  { unfold load_next_sub_page. unfold_monad.
    change (page_info_getitem (with_bounds lo hi s)) with (page_info_getitem s).
    norm_state.
    destruct (page_info_getitem s) as [count | e]; [| done].
    destruct (sub_page s <? count)%Z; by_load_bounds. }
  destruct key; cbn [dispatch]; try reflexivity; try done.
  - unfold go_back_in_history, history_pop. unfold_monad. norm_state.
    destruct (last (history s)) as [[p sp] |]; [| done].
    cbn -[load]. by_load_bounds.
  - unfold load_previous. unfold_monad. norm_state. by_load_bounds.
  - unfold load_next. unfold_monad. norm_state. by_load_bounds.
  - destruct (Ascii.eqb c "-"); [done |].
    destruct (Ascii.eqb c "+"); [done |].
    destruct (digit_value c) as [d |]; [| done].
    unfold load_number. unfold_monad. cbn -[load length]. norm_state.
    destruct (length (current_input s ++ [d]) =? 3)%nat; [| done].
    destruct (reduce _ _) as [target | e]; [| done].
    cbn -[load]. by_load_bounds.
Qed.

Lemma handle_events_bounds (w : World) (key : keypress) (s : Teletext) :
  handle_events w key (with_bounds lo hi s) = rebound lo hi (handle_events w key s).
Proof.
  assert (Hgen : (dispatch w key >>> display_clock) (with_bounds lo hi s)
                 = rebound lo hi ((dispatch w key >>> display_clock) s)).
  { unfold bind. rewrite dispatch_bounds. unfold rebound, display_clock, emit.
    by destruct (dispatch w key s) as [[[[] | e] s1] t1]. }
  destruct key; exact Hgen.
Qed.

End Bounds.

(** C10. No key handler reads the stored bounds: with [min_page] and
    [max_page] replaced by any two integers, every key has the same outcome,
    the same trace and the same resulting attributes, the bounds themselves
    staying as they were put.  The third digit of any number, inside or
    outside 100..899, calls [load] with that number, and the page the object
    lands on depends only on whether the number is a key of the directory:
    the number itself if it is, the start page if it is not. *)
Theorem C10_bounds_never_consulted :
  (forall lo hi w key s,
      handle_events w key (with_bounds lo hi s)
      = rebound lo hi (handle_events w key s)) /\
  (forall w c d d1 d2 s info r s' t,
      digit_value c = Some d -> current_input s = [d1; d2] ->
      page_info s = Some info ->
      handle_events w (char c) s = (r, s', t) ->
      load_calls t = [(((d1 * 10 + d2) * 10 + d)%Z, None, false)] /\
      (page s', sub_page s')
      = if decide (is_Some (info !! ((d1 * 10 + d2) * 10 + d)%Z))
        then (((d1 * 10 + d2) * 10 + d)%Z, 1%Z)
        else (start_page s, 1%Z)) /\
  min_page fresh = 100%Z /\ max_page fresh = 899%Z.
Proof.
  split; [| split; [| done]].
  - intros lo hi w key s. apply handle_events_bounds.
  - intros w c d d1 d2 s info r s' t Hd Hci Hinfo Hrun.
    apply (digit_third w c d d1 d2 s r s' t Hd Hci) in Hrun
      as (Hcalls & _ & _ & Hland).
    split; [done |].
    destruct (Hland info Hinfo) as [-> _].
    unfold landing, chosen_sub_page.
    destruct (info !! ((d1 * 10 + d2) * 10 + d)%Z) as [count |] eqn:Hlook.
    + by rewrite decide_True by (by eexists).
    + by rewrite decide_False by (by intros [? ?]).
Qed.

Lemma C10_bounds_never_consulted_witness :
  let s := with_current_input [0; 5]%Z (on_start two_pages) in
  digit_value "0" = Some 0%Z /\ current_input s = [0; 5]%Z /\
  page_info s = Some two_pages /\
  load_calls (snd (handle_events (online "") (char "0") s))
  = [(50%Z, None, false)] /\
  (page (snd (fst (handle_events (online "") (char "0") s))),
   sub_page (snd (fst (handle_events (online "") (char "0") s))))
  = (100%Z, 1%Z).
Proof.
  intros s. split; [reflexivity |]. split; [reflexivity |].
  split; [reflexivity |].
  destruct (handle_events (online "") (char "0") s) as [[r s'] t] eqn:Hrun.
  exact (proj1 (proj2 C10_bounds_never_consulted) (online "") "0"%char 0%Z 0%Z 5%Z
           s two_pages r s' t eq_refl eq_refl eq_refl Hrun).
Defined.

(** Page numbers outside 100..899 are looked up like any other. *)
Example number_999_is_loaded :
  let s := with_current_input [9; 9]%Z (on_start {[ 999%Z := 2%Z ]}) in
  nav (snd (fst (handle_events (online "") (char "9") s)))
  = (999%Z, 1%Z, [(100%Z, 1%Z)]).
Proof. by vm_compute. Qed.

(** ** The runtime functions on sample inputs *)

Example split_commas :
  split (ord ",") (text_of "100:1,,101:3")
  = [text_of "100:1"; []; text_of "101:3"].
Proof. reflexivity. Qed.

Example split_without_separator :
  split (ord "{") (text_of "pages") = [text_of "pages"].
Proof. reflexivity. Qed.

Example int_plain : int (text_of "100") = Ok 100%Z.
Proof. reflexivity. Qed.

Example int_spaces_and_sign : int (text_of "  -7 ") = Ok (-7)%Z.
Proof. reflexivity. Qed.

Example int_underscore : int (text_of "1_0") = Ok 10%Z.
Proof. reflexivity. Qed.

Example int_empty : int [] = Err ValueError.
Proof. reflexivity. Qed.

Example int_double_underscore : int (text_of "1__0") = Err ValueError.
Proof. reflexivity. Qed.

Example int_inner_space : int (text_of "1 2") = Err ValueError.
Proof. reflexivity. Qed.

(** The separators U+001C to U+001F are no blanks for [int]; the no-break
    space and the next-line character are; digits of other scripts count. *)
Example int_file_separator : int (28 :: text_of "100")%N = Err ValueError.
Proof. reflexivity. Qed.

Example int_no_break_space : int (160 :: text_of "100" ++ [133])%N = Ok 100%Z.
Proof. reflexivity. Qed.

Example int_fullwidth_digits : int [65297; 65296; 1632]%N = Ok 100%Z.
Proof. reflexivity. Qed.

(** Numerals of 4300 digits are converted, longer ones are not. *)
Example int_digit_limit :
  int (repeat (ord "0") 4299 ++ [ord "7"]) = Ok 7%Z /\
  int (repeat (ord "0") 4300 ++ [ord "7"]) = Err ValueError.
Proof. split; by vm_compute. Qed.

(** A lone continuation byte, an overlong form and a surrogate are refused
    by [decode]; the two bytes of U+00A0 are one character. *)
Example decode_samples :
  decode (String (ascii_of_nat 160) "") = Err UnicodeDecodeError /\
  decode (String (ascii_of_nat 192) (String (ascii_of_nat 128) ""))
  = Err UnicodeDecodeError /\
  decode (String (ascii_of_nat 237)
            (String (ascii_of_nat 160) (String (ascii_of_nat 128) "")))
  = Err UnicodeDecodeError /\
  decode (String (ascii_of_nat 194) (String (ascii_of_nat 160) "1"))
  = Ok [160; 49]%N.
Proof. repeat split. Qed.

Example pad02_one_digit : pad02 1 = "01".
Proof. reflexivity. Qed.

Example page_url_start : page_url fresh = "https://www.ndr.de/public/teletext/100_01.htm".
Proof. reflexivity. Qed.

(** An entry with a third field, a field that is no integer, an empty
    listing and a document without braces all fail as a whole. *)
Example parse_three_fields : parse_page_info "{100:1:2}" = Err ValueError.
Proof. reflexivity. Qed.

Example parse_bad_value : parse_page_info "{100:1,101:x}" = Err ValueError.
Proof. reflexivity. Qed.

Example parse_empty_listing : parse_page_info "{}" = Err ValueError.
Proof. reflexivity. Qed.

Example parse_no_braces : parse_page_info "100:1" = Err IndexError.
Proof. reflexivity. Qed.

Example parse_not_utf8 :
  parse_page_info (String (ascii_of_nat 255) "{100:1}") = Err UnicodeDecodeError.
Proof. reflexivity. Qed.

(** The start of the program against a server that answers. *)
Example main_starts :
  fst (fst (main (online "{100:1,101:3}") [])) = Ok tt /\
  nav (snd (fst (main (online "{100:1,101:3}") []))) = (100%Z, 1%Z, [(100%Z, 1%Z)]).
Proof. split; by vm_compute. Qed.

(** * Further properties of the methods *)

(** ** What [display_page] prints *)

Lemma print_lines_rows (lines : list (list element)) (i : nat) (s : Teletext) :
  print_lines i lines s
  = (Ok tt, s, imap (fun j line => print_at 0 (i + j + 1) (row_cells line)) lines).
Proof.
  revert i. induction lines as [| line rest IH]; intros i; [done |].
  cbn [print_lines]. unfold_monad.
  rewrite (map_result_total cell _ line cell_total).
  rewrite classes_to_color_formatter_resolve, IH.
  cbn [imap]. unfold row_cells.
  replace (0 + i + 1)%nat with (i + 0 + 1)%nat by lia.
  do 2 f_equal. cbn. f_equal.
  apply imap_ext. intros j line' _. cbn. do 2 f_equal. lia.
Qed.

Lemma display_page_frame (s : Teletext) (parsed : BeautifulSoup_t)
      (ttx hdr txt : element) :
  soup s = Some parsed -> html_body_div parsed = Some ttx ->
  filter (fun a => named "pre" a = true) (children ttx) = [hdr; txt] ->
  display_page s = (Ok tt, s, frame (width s) hdr txt).
Proof.
  intros Hsoup Hdiv Hpre. unfold display_page. unfold_monad.
  rewrite Hsoup, Hdiv, Hpre, print_lines_rows. reflexivity.
Qed.

(** X1. For a page with the [div] and its two [pre] blocks, [display_page]
    returns, leaves the object as it is and prints exactly: the clearing of
    the screen, the header text in white on black on row 0, and one row per
    wrapped line from row 1 on, each made of a cell per run (its formatter
    and its whole text) followed by the padding cell; so two prints more
    than there are lines. *)
Theorem X1_display_page_frame (s : Teletext) (parsed : BeautifulSoup_t)
        (ttx hdr txt : element) :
  soup s = Some parsed -> html_body_div parsed = Some ttx ->
  filter (fun a => named "pre" a = true) (children ttx) = [hdr; txt] ->
  display_page s = (Ok tt, s, frame (width s) hdr txt) /\
  length (frame (width s) hdr txt)
  = (2 + length (wrap (width s) (children txt)))%nat /\
  (forall i line,
      wrap (width s) (children txt) !! i = Some line ->
      frame (width s) hdr txt !! (2 + i)%nat
      = Some (print_at 0 (i + 1) (row_cells line))).
Proof.
  intros Hsoup Hdiv Hpre.
  split; [by eapply display_page_frame |]. split.
  - unfold frame. cbn [length]. by rewrite length_imap.
  - intros i line Hline. unfold frame.
    change (imap (fun j line' => print_at 0 (j + 1) (row_cells line'))
                 (wrap (width s) (children txt)) !! i
            = Some (print_at 0 (i + 1) (row_cells line))).
    by rewrite list_lookup_imap, Hline.
Qed.

Lemma X1_display_page_frame_witness :
  display_page (with_soup (Some sample_page) fresh)
  = (Ok tt, with_soup (Some sample_page) fresh,
     [print_clear;
      print_at 0 0 [("white_on_black", "100 NDR Text")];
      print_at 0 1 [("yellow_on_blue", "Nachrichten"); ("white_on_black", " ")]]).
Proof.
  apply (X1_display_page_frame (with_soup (Some sample_page) fresh) sample_page
           (Element (Some "div") "" None
              [Element (Some "pre") "100 NDR Text" None [];
               Element (Some "pre") "Nachrichten" None
                 [Element (Some "b") "Nachrichten" (Some ["f3"; "b4"]) []]])
           (Element (Some "pre") "100 NDR Text" None [])
           (Element (Some "pre") "Nachrichten" None
              [Element (Some "b") "Nachrichten" (Some ["f3"; "b4"]) []]));
    reflexivity.
Defined.

(** X2. A page that cannot be read is noticed only after the screen has
    been cleared: without a parsed page or without the path
    [html.body.div], [display_page] raises [AttributeError], and with a
    number of [pre] blocks other than two it raises [ValueError]; in each
    case the clearing is all that was printed and no attribute changed. *)
Theorem X2_display_page_failure (s : Teletext) :
  (soup s = None -> display_page s = (Err AttributeError, s, [print_clear])) /\
  (forall parsed,
      soup s = Some parsed -> html_body_div parsed = None ->
      display_page s = (Err AttributeError, s, [print_clear])) /\
  (forall parsed ttx,
      soup s = Some parsed -> html_body_div parsed = Some ttx ->
      length (filter (fun a => named "pre" a = true) (children ttx)) <> 2%nat ->
      display_page s = (Err ValueError, s, [print_clear])).
Proof.
  unfold display_page. unfold_monad. split; [| split].
  - by intros ->.
  - by intros parsed -> ->.
  - intros parsed ttx -> -> Hlen.
    by destruct (filter (fun a => named "pre" a = true) (children ttx))
      as [| hdr [| txt [| more pres]]].
Qed.

Lemma X2_display_page_failure_witness :
  display_page (with_soup (Some {| html_body_div := None |}) fresh)
  = (Err AttributeError, with_soup (Some {| html_body_div := None |}) fresh,
     [print_clear]).
Proof.
  apply (proj1 (proj2 (X2_display_page_failure
                         (with_soup (Some {| html_body_div := None |}) fresh)))
           {| html_body_div := None |});
    reflexivity.
Defined.

(** ** Empty lines of the wrapping *)

Section EmptyLines.

Variable width : nat.

Lemma head_wrap_from_lines (txt_children : list element)
      (lines : list (list element)) (current_line : list element) :
  lines <> [] ->
  head (wrap_from width (lines, current_line) txt_children) = head lines.
Proof.
  revert lines current_line.
  induction txt_children as [| el rest IH]; intros lines current_line Hne.
  - rewrite wrap_from_nil. by destruct lines.
  - rewrite wrap_from_cons. unfold wrap_step.
    destruct (named "b" el); [| by apply IH].
    destruct (_ <? _)%nat; [| by apply IH].
    rewrite IH by (by destruct lines). by destruct lines.
Qed.

Lemma head_wrap_from_current (txt_children : list element)
      (current_line : list element) :
  current_line <> [] ->
  exists line,
    head (wrap_from width ([], current_line) txt_children) = Some line /\
    line <> [].
Proof.
  revert current_line.
  induction txt_children as [| el rest IH]; intros current_line Hne.
  - rewrite wrap_from_nil. by exists current_line.
  - rewrite wrap_from_cons. unfold wrap_step.
    destruct (named "b" el); [| by apply IH].
    destruct (_ <? _)%nat.
    + rewrite head_wrap_from_lines by done. by exists current_line.
    + apply IH. by destruct current_line.
Qed.

Lemma head_wrap (txt_children : list element) :
  head (wrap width txt_children) = Some [] <->
  match runs txt_children with
  | [] => True
  | r :: _ => over_width width r
  end.
Proof.
  rewrite wrap_wrap_from.
  induction txt_children as [| el rest IH]; [done |].
  rewrite wrap_from_cons. unfold wrap_step, runs. rewrite filter_cons.
  destruct (named "b" el) eqn:Hb.
  - rewrite decide_True by done. cbn [line_length map fold_left Nat.add].
    unfold over_width.
    destruct (_ <? _)%nat eqn:Hover.
    + rewrite head_wrap_from_lines by done. apply Nat.ltb_lt in Hover. done.
    + apply Nat.ltb_ge in Hover. rewrite app_nil_l.
      destruct (head_wrap_from_current rest [el]) as (line & -> & Hne); [done |].
      split; [intros [= Hnil]; done | lia].
  - rewrite decide_False by done. apply IH.
Qed.

End EmptyLines.

(** X3. The wrapping always gives at least one line, and an empty line can
    only be the first one: every later line holds a run, and the first line
    is empty exactly when the block has no run at all or when its first run
    is alone longer than the width (the loop then closes the line it had
    not started to fill). *)
Theorem X3_wrap_empty_lines (width : nat) (txt_children : list element) :
  wrap width txt_children <> [] /\
  (forall i line, wrap width txt_children !! S i = Some line -> line <> []) /\
  (head (wrap width txt_children) = Some [] <->
   match runs txt_children with
   | [] => True
   | r :: _ => over_width width r
   end).
Proof.
  split; [| split].
  - pose proof (last_wrap width txt_children) as Hlast.
    intros Hnil. by rewrite Hnil in Hlast.
  - intros i line Hline.
    destruct (lookup_lt_is_Some_2 (wrap width txt_children) i) as [prev Hprev].
    { apply lookup_lt_Some in Hline. lia. }
    assert (Hg := greedy_wrap_from width txt_children [] [] (greedy_single width [])
                                   (fun H => False_ind _ (H eq_refl))).
    rewrite <- wrap_wrap_from in Hg.
    by destruct (Hg i prev line Hprev Hline) as (r & tl & -> & _).
  - apply head_wrap.
Qed.

(** ** The start and the states it leads to *)

Lemma landing_start_page (info : gmap Z Z) (start : Z) :
  landing info start start None = (start, 1%Z).
Proof. unfold landing. by destruct (info !! start). Qed.

(** What [__init__] leaves, by the outcome of the loading of the
    directory. *)
Lemma init_run (w : World) (r : result unit) (s : Teletext) (t : list event) :
  init w fresh = (r, s, t) ->
  app_url s = APP_URL /\ start_page s = START_PAGE /\ current_input s = [] /\
  page s = START_PAGE /\ sub_page s = 1%Z /\
  match rbind (urlopen w PAGES_URL) parse_page_info with
  | Ok info =>
      page_info s = Some info /\ history s = [(START_PAGE, 1%Z)] /\
      requests t = [PAGES_URL; page_url s] /\ load_ending w r s
  | Err e =>
      page_info s = None /\ r = Err (if is_Exception e then TypeError else e)
  end.
Proof.
  unfold init. unfold bind at 1. rewrite get_page_info_run.
  change (pages_url fresh) with PAGES_URL.
  assert (Hload : forall s0 r s t,
             app_url s0 = APP_URL ->
             start_page s0 = START_PAGE -> current_input s0 = [] ->
             page s0 = START_PAGE -> sub_page s0 = 1%Z -> history s0 = [] ->
             (s1 <-- get; load w (start_page s1) None false >>> display_clock) s0
             = (r, s, t) ->
             app_url s = APP_URL /\
             start_page s = START_PAGE /\ current_input s = [] /\
             page_info s = page_info s0 /\
             match page_info s0 with
             | Some info =>
                 page s = START_PAGE /\ sub_page s = 1%Z /\
                 history s = [(START_PAGE, 1%Z)] /\
                 requests t = [page_url s] /\ load_ending w r s
             | None =>
                 page s = START_PAGE /\ sub_page s = 1%Z /\ r = Err TypeError
             end).
  { clear. intros s0 r s t Happ Hstart Hci Hpage Hsub Hhist.
    unfold display_clock. unfold_monad.
    destruct (load w (start_page s0) None false s0) as [[r1 s1] t1] eqn:Hl.
    apply load_result in Hl as (Hsame & Hinput & Hhist1 & _ & Hland).
    destruct Hsame as (_ & _ & Hau & _ & Hst & Hinfo & _).
    rewrite Hhist, Hpage, Hsub in Hhist1. cbn [app] in Hhist1.
    intros Heq.
    assert (s = s1) as -> by (destruct r1 as [[] |]; cbn in Heq; congruence).
    split; [congruence |].
    split; [congruence |]. split; [congruence |]. split; [done |].
    destruct (page_info s0) as [info |].
    - destruct Hland as (Hland & Hreqs & Hend).
      rewrite landing_start_page, Hstart in Hland. injection Hland as Hp Hs.
      repeat (split; [done |]).
      destruct r1 as [[] | e]; cbn in Heq; injection Heq as <- <-.
      + rewrite requests_app, Hreqs. by split.
      + by split.
    - destruct Hland as (-> & Hp & Hs & _). cbn in Heq. injection Heq as <- _.
      repeat split; congruence. }
  destruct (rbind (urlopen w PAGES_URL) parse_page_info) as [info | e].
  - match goal with
    | |- context [bind ?m ?k ?s0] =>
        destruct (bind m k s0) as [[r1 s1] t1] eqn:Hrest
    end.
    intros [= <- <- <-].
    apply Hload in Hrest as (Hau & Hst & Hci & Hinfo & Hp & Hs & Hhist & Hreqs & Hend);
      try reflexivity.
    repeat (split; [done |]). split; [| done].
    change (requests ([request PAGES_URL] ++ t1) = [PAGES_URL; page_url s1]).
    by rewrite requests_app, Hreqs.
  - destruct (is_Exception e).
    + match goal with
      | |- context [bind ?m ?k ?s0] =>
          destruct (bind m k s0) as [[r1 s1] t1] eqn:Hrest
      end.
      intros [= <- <- <-].
      apply Hload in Hrest as (Hau & Hst & Hci & Hinfo & Hp & Hs & Hr);
        try reflexivity.
      by repeat split.
    + intros [= <- <- <-]. by repeat split.
Qed.

Lemma landing_well_placed (info : gmap Z Z) (start page_ : Z) (sub_page_ : option Z) :
  (1 <= snd (landing info start page_ sub_page_))%Z /\
  (is_Some (info !! fst (landing info start page_ sub_page_)) \/
   fst (landing info start page_ sub_page_) = start) /\
  (snd (landing info start page_ sub_page_) = 1%Z \/
   exists count,
     info !! fst (landing info start page_ sub_page_) = Some count /\
     (snd (landing info start page_ sub_page_) <= count)%Z).
Proof.
  unfold landing. destruct (info !! page_) as [count |] eqn:Hcount; cbn [fst snd].
  2:{ split; [lia |]. split; [by right | by left]. }
  split; [| split; [left; by eexists |]].
  - unfold chosen_sub_page. destruct sub_page_ as [sp |]; [| lia].
    destruct (negb (sp =? 0)%Z && ((1 <=? sp)%Z && (sp <=? count)%Z)) eqn:Hc; lia.
  - unfold chosen_sub_page. destruct sub_page_ as [sp |]; [| by left].
    destruct (negb (sp =? 0)%Z && ((1 <=? sp)%Z && (sp <=? count)%Z)) eqn:Hc;
      [| by left].
    right. exists count. split; [done |]. lia.
Qed.

Lemma handle_events_well_placed (w : World) (key : keypress) (s : Teletext)
      (r : result unit) (s' : Teletext) (t : list event) :
  handle_events w key s = (r, s', t) -> well_placed s -> well_placed s'.
Proof.
  intros (Hsame & _ & Hnav)%handle_events_result [Hsub Hplace].
  destruct Hsame as (_ & _ & _ & _ & Hst & Hinfo & _).
  assert (Hkeep : page s' = page s -> sub_page s' = sub_page s -> well_placed s').
  { intros Hp Hs. split; [by rewrite Hs |].
    intros info Hinfo'. rewrite Hp, Hs, Hst. apply Hplace. congruence. }
  destruct (attempt key s) as [[[p sp] nh] |].
  2:{ destruct Hnav as (Hnav & _). injection Hnav as Hp Hs _. by apply Hkeep. }
  destruct Hnav as [_ Hnav].
  destruct (page_info s) as [info |] eqn:Hi.
  2:{ destruct Hnav as (_ & Hp & Hs). by apply Hkeep. }
  destruct Hnav as (Hland & _).
  pose proof (landing_well_placed info (start_page s) p sp) as Hw.
  rewrite <- Hland in Hw. cbn [fst snd] in Hw.
  destruct Hw as (H1 & H2 & H3).
  split; [done |]. intros info' Hinfo'.
  assert (info' = info) as -> by congruence.
  rewrite Hst. by split.
Qed.

Lemma init_well_placed (w : World) (r : result unit) (s : Teletext) (t : list event) :
  init w fresh = (r, s, t) -> well_placed s.
Proof.
  intros (_ & Hst & _ & Hp & Hs & _)%init_run.
  split; [rewrite Hs; lia |].
  intros info _. split; [right; congruence | by left].
Qed.

Lemma running_well_placed (s : Teletext) : running s -> well_placed s.
Proof.
  induction 1 as [w s t Hinit | w key s s' t _ IH Hkey].
  - by eapply init_well_placed.
  - by eapply handle_events_well_placed.
Qed.

Lemma running_page_info (s : Teletext) : running s -> is_Some (page_info s).
Proof.
  induction 1 as [w s t Hinit | w key s s' t _ IH Hkey].
  - apply init_run in Hinit as (_ & _ & _ & _ & _ & Hcase).
    destruct (rbind (urlopen w PAGES_URL) parse_page_info) as [info | e].
    + destruct Hcase as (-> & _). by eexists.
    + destruct Hcase as (_ & Hr). by destruct (is_Exception e).
  - apply handle_events_settings in Hkey as (_ & _ & _ & _ & _ & -> & _). done.
Qed.

(** X4. When the directory loads and the server answers the address of
    page 100, sub page 01, with a page that can be shown, [__init__]
    returns with the directory stored, on page 100, sub page 1, with no
    pending digit, after exactly two requests (the directory, then that
    page), whether or not the directory lists page 100; and the history
    already holds one entry, the start page itself. *)
Theorem X4_start (w : World) (info : gmap Z Z) (body : string)
        (r : result unit) (s : Teletext) (t : list event) :
  rbind (urlopen w PAGES_URL) parse_page_info = Ok info ->
  urlopen w "https://www.ndr.de/public/teletext/100_01.htm" = Ok body ->
  renders (BeautifulSoup w body) ->
  init w fresh = (r, s, t) ->
  r = Ok tt /\ page_info s = Some info /\
  nav s = (100%Z, 1%Z, [(100%Z, 1%Z)]) /\ current_input s = [] /\
  soup s = Some (BeautifulSoup w body) /\
  requests t = [PAGES_URL; "https://www.ndr.de/public/teletext/100_01.htm"].
Proof.
  intros Hdir Hurl Hrend (Hau & Hst & Hci & Hp & Hs & Hcase)%init_run.
  rewrite Hdir in Hcase. destruct Hcase as (Hinfo & Hhist & Hreqs & Hend).
  assert (Hpage_url : page_url s = "https://www.ndr.de/public/teletext/100_01.htm").
  { unfold page_url. by rewrite Hau, Hp, Hs. }
  unfold load_ending in Hend. rewrite Hpage_url, Hurl in Hend.
  destruct Hend as (Hsoup & Hok & _).
  split; [by apply Hok |]. split; [done |].
  split; [unfold nav; by rewrite Hp, Hs, Hhist |].
  split; [done |]. split; [done |]. by rewrite Hreqs, Hpage_url.
Qed.

(** ** The sub page and the count of its page *)

Lemma reachable_well_placed (s : Teletext) : reachable s -> well_placed s.
Proof.
  intros [w r s0 t Hinit | w key r s0 s' t Hrun Hkey].
  - by eapply init_well_placed.
  - eapply handle_events_well_placed; [done |]. by apply running_well_placed.
Qed.

Lemma reachable_start_page (s : Teletext) : reachable s -> start_page s = START_PAGE.
Proof.
  intros [w r s0 t Hinit | w key r s0 s' t Hrun Hkey].
  - by eapply init_start_page.
  - apply handle_events_settings in Hkey.
    destruct Hkey as (_ & _ & _ & _ & Hst & _).
    rewrite Hst. by apply running_start_page.
Qed.

(** C4, as the code has it.  In every state reached from the start by any
    keys, in any worlds, whether the last step returned or raised: a
    current page that the directory lists with a count of at least one has
    its sub page between one and that count; a current page listed with a
    smaller count, which the code accepts from the directory, has sub page
    one, above its count; so the sub page is within the count of the
    current page exactly when that count is at least one, whatever the
    counts of the other pages.  And a call of [load] for a page the
    directory does not have leaves the object on the start page, sub page
    one. *)
Theorem C4_sub_page_in_range :
  (forall s info count,
      reachable s -> page_info s = Some info -> info !! page s = Some count ->
      (1 <= count)%Z -> (1 <= sub_page s <= count)%Z) /\
  (forall s info count,
      reachable s -> page_info s = Some info -> info !! page s = Some count ->
      (count < 1)%Z -> sub_page s = 1%Z) /\
  (forall s,
      reachable s ->
      sub_page_in_range s <->
      (forall info count,
          page_info s = Some info -> info !! page s = Some count ->
          (1 <= count)%Z)) /\
  (forall s, reachable s -> start_page s = START_PAGE) /\
  (forall w key s r s' t p sp nh info,
      handle_events w key s = (r, s', t) ->
      attempt key s = Some (p, sp, nh) ->
      page_info s = Some info -> info !! p = None ->
      page s' = start_page s /\ sub_page s' = 1%Z).
Proof.
  assert (Hplaced : forall s info count,
             reachable s -> page_info s = Some info ->
             info !! page s = Some count ->
             (1 <= sub_page s)%Z /\ (sub_page s = 1%Z \/ (sub_page s <= count)%Z)).
  { intros s info count [Hsub Hplace]%reachable_well_placed Hinfo Hcount.
    split; [done |].
    destruct (Hplace info Hinfo) as [_ [H1 | (count' & Hc & Hle)]]; [by left |].
    right. congruence. }
  split; [| split; [| split; [| split]]].
  - intros s info count Hreach Hinfo Hcount Hpos.
    destruct (Hplaced s info count Hreach Hinfo Hcount) as [H1 [-> | Hle]]; lia.
  - intros s info count Hreach Hinfo Hcount Hneg.
    destruct (Hplaced s info count Hreach Hinfo Hcount) as [H1 [-> | Hle]];
      [done | lia].
  - intros s Hreach. split.
    + intros Hrange info count Hinfo Hcount.
      specialize (Hrange info count Hinfo Hcount). lia.
    + intros Hpos info count Hinfo Hcount.
      specialize (Hpos info count Hinfo Hcount).
      destruct (Hplaced s info count Hreach Hinfo Hcount) as [H1 [-> | Hle]]; lia.
  - apply reachable_start_page.
  - intros w key s r s' t p sp nh info Hkey Hatt Hinfo Hnone.
    apply handle_events_result in Hkey as (_ & _ & Hnav).
    rewrite Hatt, Hinfo in Hnav. destruct Hnav as (_ & Hland & _).
    rewrite landing_unknown in Hland by done. by injection Hland.
Qed.

Lemma C4_sub_page_in_range_witness :
  reachable (snd (fst (init (online "{100:3,666:0}") fresh))) /\
  page_info (snd (fst (init (online "{100:3,666:0}") fresh)))
  = Some {[ 100%Z := 3%Z; 666%Z := 0%Z ]} /\
  (1 <= sub_page (snd (fst (init (online "{100:3,666:0}") fresh))) <= 3)%Z.
Proof.
  assert (Hreach : reachable (snd (fst (init (online "{100:3,666:0}") fresh))))
    by apply reachable_after_init.
  assert (Hinfo : page_info (snd (fst (init (online "{100:3,666:0}") fresh)))
                  = Some {[ 100%Z := 3%Z; 666%Z := 0%Z ]}) by (by vm_compute).
  split; [exact Hreach |]. split; [exact Hinfo |].
  refine (proj1 C4_sub_page_in_range _ _ 3%Z Hreach Hinfo _ _).
  - by vm_compute.
  - lia.
Defined.

(** A directory that gives page 100 a count of zero loads, and the start
    leaves the object on sub page 1 of page 100, above the count. *)
Lemma C4_zero_count_counterexample :
  reachable (snd (fst (init (online "{100:0}") fresh))) /\
  fst (fst (init (online "{100:0}") fresh)) = Ok tt /\
  page_info (snd (fst (init (online "{100:0}") fresh))) = Some {[ 100%Z := 0%Z ]} /\
  page (snd (fst (init (online "{100:0}") fresh))) = 100%Z /\
  sub_page (snd (fst (init (online "{100:0}") fresh))) = 1%Z /\
  ~ sub_page_in_range (snd (fst (init (online "{100:0}") fresh))).
Proof.
  split; [apply reachable_after_init |].
  split; [by vm_compute |]. split; [by vm_compute |].
  split; [by vm_compute |]. split; [by vm_compute |].
  intros Hrange.
  assert (Hinfo : page_info (snd (fst (init (online "{100:0}") fresh)))
                  = Some {[ 100%Z := 0%Z ]}) by (by vm_compute).
  assert (Hpage : ({[ 100%Z := 0%Z ]} : gmap Z Z)
                    !! page (snd (fst (init (online "{100:0}") fresh))) = Some 0%Z)
    by (by vm_compute).
  pose proof (Hrange _ _ Hinfo Hpage) as Hbad.
  assert (Hsub : sub_page (snd (fst (init (online "{100:0}") fresh))) = 1%Z)
    by (by vm_compute).
  rewrite Hsub in Hbad. lia.
Qed.

Lemma run_eta {A B C : Type} (x : A * B * C) : x = (fst (fst x), snd (fst x), snd x).
Proof. by destruct x as [[a b] c]. Qed.

Lemma X4_start_witness :
  fst (fst (init (online "{100:1,101:3}") fresh)) = Ok tt /\
  nav (snd (fst (init (online "{100:1,101:3}") fresh)))
  = (100%Z, 1%Z, [(100%Z, 1%Z)]).
Proof.
  destruct (X4_start (online "{100:1,101:3}") two_pages "<html>" _ _ _
              ltac:(by vm_compute) ltac:(by vm_compute) sample_page_renders
              (run_eta (init (online "{100:1,101:3}") fresh)))
    as (Hr & _ & Hnav & _).
  by split.
Defined.

(** X5. Wherever [__init__] or a key leaves the object, also when it
    raised and whatever counts the directory holds: the sub page is at
    least one; the page is a key of the directory or the start page; and
    the sub page is one or at most the count of the page.  After a start
    that returned, the directory is there for good. *)
Theorem X5_well_placed :
  (forall s, reachable s -> well_placed s) /\
  (forall s, running s -> is_Some (page_info s) /\ well_placed s).
Proof.
  split.
  - intros s [w r s0 t Hinit | w key r s0 s' t Hrun Hkey].
    + by eapply init_well_placed.
    + eapply handle_events_well_placed; [done |]. by apply running_well_placed.
  - intros s Hrun. split; [by apply running_page_info | by apply running_well_placed].
Qed.

Lemma X5_well_placed_witness :
  reachable (snd (fst (init (online "{100:0}") fresh))) /\
  well_placed (snd (fst (init (online "{100:0}") fresh))).
Proof.
  assert (Hreach : reachable (snd (fst (init (online "{100:0}") fresh))))
    by apply reachable_after_init.
  split; [exact Hreach |].
  exact (proj1 X5_well_placed _ Hreach).
Defined.

(** ** Pending digits *)

Lemma digit_value_is_digit (c : ascii) (d : Z) :
  digit_value c = Some d -> is_digit d.
Proof.
  unfold digit_value, is_digit.
  destruct (48 <=? nat_of_ascii c)%nat eqn:Hlo; [| done].
  destruct (nat_of_ascii c <=? 57)%nat eqn:Hhi; [| done].
  apply Nat.leb_le in Hlo, Hhi. intros [= <-]. lia.
Qed.

(** What a key does to the pending digits. *)
Lemma dispatch_input (w : World) (key : keypress) (s : Teletext)
      (r : result unit) (s' : Teletext) (t : list event) :
  dispatch w key s = (r, s', t) ->
  match key with
  | char c =>
      match digit_value c with
      | Some d =>
          if (length (current_input s) =? 2)%nat
          then (r = Ok tt /\ current_input s' = []) \/
               ((exists e, r = Err e) /\ current_input s' = current_input s ++ [d])
          else r = Ok tt /\ current_input s' = current_input s ++ [d]
      | None => current_input s' = current_input s
      end
  | _ => current_input s' = current_input s
  end.
Proof.
  assert (Hprev : forall r s' t,
             load_previous_sub_page w s = (r, s', t) ->
             current_input s' = current_input s).
  { intros r0 s0 t0. unfold load_previous_sub_page. unfold_monad.
    destruct (1 <? sub_page s)%Z; step_load; by intros [= <- <- <-]. }
  assert (Hnext : forall r s' t,
             load_next_sub_page w s = (r, s', t) ->
             current_input s' = current_input s).
  { intros r0 s0 t0. unfold load_next_sub_page. unfold_monad.
    destruct (page_info_getitem s) as [count | e]; [| by intros [= <- <- <-]].
    destruct (sub_page s <? count)%Z; step_load; by intros [= <- <- <-]. }
  destruct key; cbn [dispatch].
  - by intros [= <- <- <-].
  - by intros [= <- <- <-].
  - unfold go_back_in_history, history_pop. unfold_monad.
    destruct (last (history s)) as [[p sp] |]; cbn -[load];
      [| by intros [= <- <- <-]].
    step_load. destruct r0 as [[] | []]; by intros [= <- <- <-].
  - unfold load_previous. unfold_monad. step_load. by intros [= <- <- <-].
  - unfold load_next. unfold_monad. step_load. by intros [= <- <- <-].
  - apply Hprev.
  - apply Hnext.
  - by intros [= <- <- <-].
  - destruct (digit_value c) as [d |] eqn:Hd.
    2:{ destruct (Ascii.eqb c "-"); [apply Hprev |].
        destruct (Ascii.eqb c "+"); [apply Hnext |]. by intros [= <- <- <-]. }
    destruct (digit_not_sign c d Hd) as [-> ->].
    unfold load_number. unfold_monad. cbn -[load length].
    destruct (current_input s) as [| d1 [| d2 [| d3 rest]]] eqn:Hci;
      cbn -[load].
    1,2: by intros [= <- <- <-].
    2:{ rewrite length_app, Nat.add_1_r. cbn. by intros [= <- <- <-]. }
    step_load.
    destruct r0 as [[] | e]; cbn; intros [= <- <- <-]; [by left | right].
    split; [by eexists | done].
Qed.

Lemma handle_events_input (w : World) (key : keypress) (s : Teletext)
      (r : result unit) (s' : Teletext) (t : list event) :
  handle_events w key s = (r, s', t) ->
  match key with
  | char c =>
      match digit_value c with
      | Some d =>
          if (length (current_input s) =? 2)%nat
          then (r = Ok tt /\ current_input s' = []) \/
               ((exists e, r = Err e) /\ current_input s' = current_input s ++ [d])
          else r = Ok tt /\ current_input s' = current_input s ++ [d]
      | None => current_input s' = current_input s
      end
  | _ => current_input s' = current_input s
  end.
Proof.
  intros (t0 & Hd & _)%handle_events_dispatch. by apply dispatch_input in Hd.
Qed.

Lemma init_input (w : World) (r : result unit) (s : Teletext) (t : list event) :
  init w fresh = (r, s, t) -> current_input s = [].
Proof. by intros (_ & _ & Hci & _)%init_run. Qed.

Lemma running_input (s : Teletext) :
  running s ->
  (length (current_input s) <= 2)%nat /\ Forall is_digit (current_input s).
Proof.
  induction 1 as [w s t Hinit | w key s s' t _ [IHlen IHdig] Hkey].
  - apply init_input in Hinit as ->. split; [cbn; lia | constructor].
  - apply handle_events_input in Hkey.
    destruct key; try (by rewrite Hkey).
    destruct (digit_value c) as [d |] eqn:Hd; [| by rewrite Hkey].
    apply digit_value_is_digit in Hd.
    destruct (Nat.eqb_spec (length (current_input s)) 2) as [H2 | H2].
    + destruct Hkey as [[_ ->] | [[e [=]] _]]. split; [cbn; lia | constructor].
    + destruct Hkey as [_ ->]. rewrite length_app, Forall_app. cbn [length].
      split; [lia |]. split; [done |]. by constructor.
Qed.

(** X6. In a running program at most two digits are pending and each lies
    between 0 and 9; only a digit key changes them, a key of another kind
    keeps them even when it navigates or raises; and the number a third
    digit asks for lies between 0 and 999. *)
Theorem X6_pending_digits :
  (forall s, running s ->
             (length (current_input s) <= 2)%nat /\
             Forall is_digit (current_input s)) /\
  (forall w key s r s' t,
      handle_events w key s = (r, s', t) ->
      (forall c d, key = char c -> digit_value c <> Some d) ->
      current_input s' = current_input s) /\
  (forall w s c d r s' t p sp nh,
      running s -> digit_value c = Some d ->
      handle_events w (char c) s = (r, s', t) ->
      (p, sp, nh) ∈ load_calls t ->
      (0 <= p <= 999)%Z /\ sp = None /\ nh = false).
Proof.
  split; [apply running_input |]. split.
  - intros w key s r s' t Hkey Hnot. apply handle_events_input in Hkey.
    destruct key; try done.
    destruct (digit_value c) as [d |] eqn:Hd; [| done].
    by destruct (Hnot c d eq_refl).
  - intros w s c d r s' t p sp nh [_ Hdig]%running_input Hd
           (_ & -> & _)%handle_events_result.
    cbn [attempt].
    destruct (digit_not_sign c d Hd) as [-> ->]. rewrite Hd.
    destruct (current_input s) as [| d1 [| d2 [| d3 rest]]]; cbn;
      try (by intros ?%elem_of_nil).
    intros [= -> -> ->]%list_elem_of_singleton.
    apply Forall_cons in Hdig as [H1 [H2 _]%Forall_cons].
    apply digit_value_is_digit in Hd. unfold is_digit in *.
    split; [lia | done].
Qed.

Lemma X6_pending_digits_witness :
  running (snd (fst (main (online "{100:1,101:3}")
                       [(online "", char "1"); (online "", char "0")]))) /\
  current_input (snd (fst (main (online "{100:1,101:3}")
                             [(online "", char "1"); (online "", char "0")])))
  = [1; 0]%Z /\
  (length (current_input
             (snd (fst (main (online "{100:1,101:3}")
                          [(online "", char "1"); (online "", char "0")]))))
   <= 2)%nat.
Proof.
  assert (Hrun : running (snd (fst (main (online "{100:1,101:3}")
                                      [(online "", char "1"); (online "", char "0")])))).
  { eapply (running_key (online "") (char "0")
              (snd (fst (main (online "{100:1,101:3}") [(online "", char "1")]))));
      [| by vm_compute].
    eapply (running_key (online "") (char "1")
              (snd (fst (main (online "{100:1,101:3}") []))));
      [| by vm_compute].
    eapply (running_init (online "{100:1,101:3}")). by vm_compute. }
  split; [exact Hrun |]. split; [by vm_compute |].
  exact (proj1 (proj1 X6_pending_digits _ Hrun)).
Defined.

(** ** Going back *)

Lemma attempt_no_history (key : keypress) (s : Teletext)
      (p : Z) (sp : option Z) (nh : bool) :
  attempt key s = Some (p, sp, nh) -> key <> KEY_BACKSPACE -> nh = false.
Proof.
  destruct key; cbn [attempt]; try done; repeat case_match; congruence.
Qed.

Lemma landing_stay (info : gmap Z Z) (start p sp : Z) :
  (1 <= sp)%Z ->
  is_Some (info !! p) \/ p = start ->
  sp = 1%Z \/ (exists count, info !! p = Some count /\ (sp <= count)%Z) ->
  landing info start p (Some sp) = (p, sp).
Proof.
  intros Hsp Hpage Hsub. unfold landing.
  destruct (info !! p) as [count |] eqn:Hcount.
  - unfold chosen_sub_page.
    destruct (Z.eqb_spec sp 0) as [? | _]; [lia |].
    destruct (Z.leb_spec 1 sp) as [_ | ?]; [| lia].
    destruct (Z.leb_spec sp count) as [_ | Hgt]; cbn; [done |].
    destruct Hsub as [-> | (count' & [= <-] & ?)]; [done | lia].
  - destruct Hpage as [[count Hc] | ->]; [done |].
    by destruct Hsub as [-> | (count & Hc & _)].
Qed.

(** X7. Backspace undoes a navigation: whatever key other than backspace
    has called [load] and returned, from a state placed as the running
    program places it, the backspace that follows asks for the page and sub
    page that were left, with [no_history], and ends on that page, that sub
    page and that history, also when its own request fails; it returns
    when the server answers. *)
Theorem X7_back_undoes (w1 w2 : World) (key : keypress) (s s1 : Teletext)
        (t1 : list event) (r : result unit) (s' : Teletext) (t : list event) :
  well_placed s -> key <> KEY_BACKSPACE ->
  handle_events w1 key s = (Ok tt, s1, t1) -> load_calls t1 <> [] ->
  handle_events w2 KEY_BACKSPACE s1 = (r, s', t) ->
  nav s' = nav s /\
  load_calls t = [(page s, Some (sub_page s), true)] /\
  (serves w2 -> r = Ok tt).
Proof.
  intros [Hsub Hplace] Hkey H1 Hcalled H2.
  apply handle_events_result in H1 as (Hsame1 & Hcalls1 & Hnav1).
  destruct (attempt key s) as [[[p sp] nh] |] eqn:Hatt;
    [| by rewrite Hcalls1 in Hcalled].
  apply attempt_no_history in Hatt as ->; [| done].
  destruct Hnav1 as [Hhist1 Hnav1]. cbn [history_after] in Hhist1.
  destruct Hsame1 as (_ & _ & _ & _ & Hst1 & Hinfo1 & _).
  destruct (page_info s) as [info |] eqn:Hinfo; [| by destruct Hnav1 as [[=] _]].
  assert (Hatt2 : attempt KEY_BACKSPACE s1 = Some (page s, Some (sub_page s), true))
    by (cbn [attempt]; by rewrite Hhist1, last_snoc).
  pose proof H2 as Hserved.
  apply handle_events_result in H2 as (_ & Hcalls2 & Hnav2).
  rewrite Hatt2 in Hcalls2, Hnav2. rewrite Hinfo1 in Hnav2.
  destruct Hnav2 as (Hhist2 & Hland2 & _).
  cbn [history_after] in Hhist2. rewrite Hhist1, removelast_last in Hhist2.
  destruct (Hplace info eq_refl) as [Hpage Hcount].
  rewrite Hst1, landing_stay in Hland2 by done.
  injection Hland2 as Hp2 Hs2.
  split; [unfold nav; by rewrite Hp2, Hs2, Hhist2 |]. split; [done |].
  intros Hserves.
  eapply (key_served w2 KEY_BACKSPACE s1 info); [done | by eexists | done | done].
Qed.

Lemma X7_back_undoes_witness :
  let s := snd (fst (init (online "{100:1,101:3}") fresh)) in
  let s1 := snd (fst (handle_events (online "") KEY_RIGHT s)) in
  nav s1 = (101%Z, 1%Z, [(100%Z, 1%Z); (100%Z, 1%Z)]) /\
  nav (snd (fst (handle_events (online "") KEY_BACKSPACE s1))) = nav s.
Proof.
  intros s s1. split; [by vm_compute |].
  refine (proj1 (X7_back_undoes (online "") (online "") KEY_RIGHT s s1
                   (snd (handle_events (online "") KEY_RIGHT s)) _ _ _
                   _ _ _ _ (run_eta (handle_events (online "") KEY_BACKSPACE s1)))).
  - exact (init_well_placed _ _ _ _ (run_eta (init (online "{100:1,101:3}") fresh))).
  - done.
  - by vm_compute.
  - by vm_compute.
Defined.

(** ** The arrow keys *)

Lemma landing_turned (info : gmap Z Z) (start p : Z) :
  landing info start p None = turned info start p.
Proof.
  unfold landing, turned. destruct (info !! p) as [count |] eqn:Hp.
  - by rewrite decide_True by (by eexists).
  - by rewrite decide_False by (by intros [? ?]).
Qed.

Lemma landing_within (info : gmap Z Z) (start p sp count : Z) :
  info !! p = Some count -> (1 <= sp <= count)%Z ->
  landing info start p (Some sp) = (p, sp).
Proof.
  intros Hp Hsp. apply landing_stay; [lia | by left; eexists |].
  right. exists count. split; [done | lia].
Qed.

Lemma arrow_key (w : World) (key : keypress) (s : Teletext) (info : gmap Z Z)
      (count : Z) (r : result unit) (s' : Teletext) (t : list event) :
  page_info s = Some info -> info !! page s = Some count ->
  (1 <= sub_page s <= count)%Z ->
  key ∈ [KEY_LEFT; KEY_RIGHT; KEY_DOWN; KEY_UP] ->
  handle_events w key s = (r, s', t) ->
  history s' = history s ++ [(page s, sub_page s)] /\
  requests t = [page_url s'] /\
  (page s', sub_page s')
  = match key with
    | KEY_LEFT => turned info (start_page s) (page s - 1)
    | KEY_RIGHT => turned info (start_page s) (page s + 1)
    | KEY_DOWN =>
        if decide (1 < sub_page s)%Z then (page s, (sub_page s - 1)%Z)
        else turned info (start_page s) (page s - 1)
    | _ =>
        if decide (sub_page s < count)%Z then (page s, (sub_page s + 1)%Z)
        else turned info (start_page s) (page s + 1)
    end.
Proof.
  intros Hinfo Hcount Hsub Hkey (_ & _ & Hnav)%handle_events_result.
  assert (Hget : page_info_getitem s = Ok count)
    by (unfold page_info_getitem; by rewrite Hinfo, Hcount).
  repeat (apply elem_of_cons in Hkey as [-> | Hkey]);
    [| | | | by apply elem_of_nil in Hkey];
    cbn [attempt] in Hnav; rewrite ?Hget in Hnav.
  - rewrite Hinfo in Hnav. destruct Hnav as (Hhist & Hland & Hreqs & _).
    by rewrite landing_turned in Hland.
  - rewrite Hinfo in Hnav. destruct Hnav as (Hhist & Hland & Hreqs & _).
    by rewrite landing_turned in Hland.
  - destruct (Z.ltb_spec 1 (sub_page s)) as [Hlt | Hge];
      rewrite Hinfo in Hnav; destruct Hnav as (Hhist & Hland & Hreqs & _).
    + rewrite decide_True by done.
      by rewrite (landing_within _ _ _ _ count) in Hland by (done || lia).
    + rewrite decide_False by lia. by rewrite landing_turned in Hland.
  - destruct (Z.ltb_spec (sub_page s) count) as [Hlt | Hge];
      rewrite Hinfo in Hnav; destruct Hnav as (Hhist & Hland & Hreqs & _).
    + rewrite decide_True by done.
      by rewrite (landing_within _ _ _ _ count) in Hland by (done || lia).
    + rewrite decide_False by lia. by rewrite landing_turned in Hland.
Qed.

Lemma handle_plus (w : World) (s : Teletext) :
  handle_events w (char "+") s = handle_events w KEY_UP s.
Proof. reflexivity. Qed.

Lemma handle_minus (w : World) (s : Teletext) :
  handle_events w (char "-") s = handle_events w KEY_DOWN s.
Proof. reflexivity. Qed.

Lemma arrow_served (w : World) (key : keypress) (s : Teletext) (info : gmap Z Z)
      (count : Z) (r : result unit) (s' : Teletext) (t : list event) :
  page_info s = Some info -> info !! page s = Some count ->
  key ∈ [KEY_LEFT; KEY_RIGHT; KEY_DOWN; KEY_UP] -> serves w ->
  handle_events w key s = (r, s', t) -> r = Ok tt.
Proof.
  intros Hinfo Hcount Hkey Hserves Hrun.
  eapply key_served; [exact Hrun | | exact Hinfo | exact Hserves].
  assert (Hget : page_info_getitem s = Ok count)
    by (unfold page_info_getitem; by rewrite Hinfo, Hcount).
  repeat (apply elem_of_cons in Hkey as [-> | Hkey]);
    [| | | | by apply elem_of_nil in Hkey]; cbn [attempt]; rewrite ?Hget;
    repeat case_match; by eexists.
Qed.

(** X8. Where the arrow keys lead from a page of the directory shown on one
    of its sub pages, whether or not the new page can be fetched: left and
    right to the first sub page of the neighbouring page number; down and
    up to the neighbouring sub page, and at the first or last sub page to
    the first sub page of the neighbouring page number (down never lands
    on the last sub page of the previous page); a neighbouring number the
    directory does not list leads to the start page instead, there is no
    skipping of gaps and no wrapping around.  The page left is appended to
    the history, the one request made is for the page arrived at, and the
    key returns when the server answers.  The characters [-] and [+] do
    what down and up do. *)
Theorem X8_arrow_keys (w : World) (key : keypress) (s : Teletext) (info : gmap Z Z)
        (count : Z) (r : result unit) (s' : Teletext) (t : list event) :
  page_info s = Some info -> info !! page s = Some count ->
  (1 <= sub_page s <= count)%Z ->
  key ∈ [KEY_LEFT; KEY_RIGHT; KEY_DOWN; KEY_UP] ->
  handle_events w key s = (r, s', t) ->
  history s' = history s ++ [(page s, sub_page s)] /\
  requests t = [page_url s'] /\
  (page s', sub_page s')
  = match key with
    | KEY_LEFT => turned info (start_page s) (page s - 1)
    | KEY_RIGHT => turned info (start_page s) (page s + 1)
    | KEY_DOWN =>
        if decide (1 < sub_page s)%Z then (page s, (sub_page s - 1)%Z)
        else turned info (start_page s) (page s - 1)
    | _ =>
        if decide (sub_page s < count)%Z then (page s, (sub_page s + 1)%Z)
        else turned info (start_page s) (page s + 1)
    end /\
  (serves w -> r = Ok tt) /\
  handle_events w (char "-") s = handle_events w KEY_DOWN s /\
  handle_events w (char "+") s = handle_events w KEY_UP s.
Proof.
  intros Hinfo Hcount Hsub Hkey Hrun.
  destruct (arrow_key w key s info count r s' t Hinfo Hcount Hsub Hkey Hrun)
    as (Hhist & Hreqs & Hland).
  repeat (split; [done |]). split.
  - intros Hserves. by eapply arrow_served.
  - split; [apply handle_minus | apply handle_plus].
Qed.

Lemma X8_arrow_keys_witness :
  let s := with_sub_page 3 (with_page 101 (on_start two_pages)) in
  (page (snd (fst (handle_events offline KEY_UP s))),
   sub_page (snd (fst (handle_events offline KEY_UP s))))
  = (100%Z, 1%Z).
Proof.
  intros s.
  refine (eq_trans
            (proj1 (proj2 (proj2
               (X8_arrow_keys offline KEY_UP s two_pages 3 _ _ _
                  _ _ _ _ (run_eta (handle_events offline KEY_UP s))))))
            _).
  - reflexivity.
  - by vm_compute.
  - cbn. lia.
  - by repeat constructor.
  - by vm_compute.
Defined.

(** ** The sub page keys on a page the directory does not list *)

(** X9. On a page that is not a key of the directory, the up key and [+]
    raise [KeyError] before anything is done: no attribute changes, nothing
    is requested and nothing printed, not even the clock; without a
    directory they raise [TypeError] in the same way.  In a running program
    such a page can only be the start page, 100. *)
Theorem X9_next_sub_page_unlisted (w : World) (key : keypress) (s : Teletext) :
  key = KEY_UP \/ key = char "+" ->
  (forall info,
      page_info s = Some info -> info !! page s = None ->
      handle_events w key s = (Err KeyError, s, []) /\
      (running s -> page s = 100%Z)) /\
  (page_info s = None -> handle_events w key s = (Err TypeError, s, [])).
Proof.
  intros Hkey. split.
  - intros info Hinfo Hpage. split.
    + assert (Hup : handle_events w KEY_UP s = (Err KeyError, s, [])).
      { cbn [handle_events dispatch].
        unfold load_next_sub_page, page_info_getitem. unfold_monad.
        by rewrite Hinfo, Hpage. }
      destruct Hkey as [-> | ->]; [done | by rewrite handle_plus].
    + intros Hrun. pose proof (running_start_page s Hrun) as Hst.
      apply running_well_placed in Hrun as [_ Hplace].
      destruct (Hplace info Hinfo) as [[[count Hc] | Hp] _];
        [congruence | by rewrite Hp, Hst].
  - intros Hinfo.
    assert (Hup : handle_events w KEY_UP s = (Err TypeError, s, [])).
    { cbn [handle_events dispatch].
      unfold load_next_sub_page, page_info_getitem. unfold_monad.
      by rewrite Hinfo. }
    destruct Hkey as [-> | ->]; [done | by rewrite handle_plus].
Qed.

Lemma X9_next_sub_page_unlisted_witness :
  let s := snd (fst (init (online "{101:3}") fresh)) in
  fst (fst (init (online "{101:3}") fresh)) = Ok tt /\
  handle_events (online "") KEY_UP s = (Err KeyError, s, []).
Proof.
  intros s. split; [by vm_compute |].
  refine (proj1 (proj1 (X9_next_sub_page_unlisted (online "") KEY_UP s
                          (or_introl eq_refl)) {[ 101%Z := 3%Z ]} _ _)).
  - by vm_compute.
  - by vm_compute.
Defined.

(** ** Up and down within a page *)

(** X10. Within a page of the directory, on a served connection, up then
    down and down then up each come back to the sub page they started from,
    as long as the first key has a sub page to go to; both visits are
    appended to the history, which therefore grows by two entries. *)
Theorem X10_up_down (w1 w2 : World) (s : Teletext) (info : gmap Z Z) (count : Z) :
  page_info s = Some info -> info !! page s = Some count ->
  (1 <= sub_page s <= count)%Z -> serves w1 -> serves w2 ->
  (forall r s' t,
      (sub_page s < count)%Z ->
      exec_ [(w1, KEY_UP); (w2, KEY_DOWN)] s = (r, s', t) ->
      r = Ok tt /\ page s' = page s /\ sub_page s' = sub_page s /\
      history s'
      = history s ++ [(page s, sub_page s); (page s, (sub_page s + 1)%Z)]) /\
  (forall r s' t,
      (1 < sub_page s)%Z ->
      exec_ [(w1, KEY_DOWN); (w2, KEY_UP)] s = (r, s', t) ->
      r = Ok tt /\ page s' = page s /\ sub_page s' = sub_page s /\
      history s'
      = history s ++ [(page s, sub_page s); (page s, (sub_page s - 1)%Z)]).
Proof.
  intros Hinfo Hcount Hsub Hs1 Hs2.
  assert (Hgen : forall k1 k2 sp r s' t,
             k1 ∈ [KEY_LEFT; KEY_RIGHT; KEY_DOWN; KEY_UP] ->
             k2 ∈ [KEY_LEFT; KEY_RIGHT; KEY_DOWN; KEY_UP] ->
             (1 <= sp <= count)%Z ->
             (forall r1 s1 t1,
                 handle_events w1 k1 s = (r1, s1, t1) ->
                 (page s1, sub_page s1) = (page s, sp)) ->
             (forall s1 r2 s2 t2,
                 page s1 = page s -> sub_page s1 = sp ->
                 page_info s1 = Some info -> start_page s1 = start_page s ->
                 handle_events w2 k2 s1 = (r2, s2, t2) ->
                 (page s2, sub_page s2) = (page s, sub_page s)) ->
             exec_ [(w1, k1); (w2, k2)] s = (r, s', t) ->
             r = Ok tt /\ page s' = page s /\ sub_page s' = sub_page s /\
             history s' = history s ++ [(page s, sub_page s); (page s, sp)]).
  { intros k1 k2 sp r s' t Hk1 Hk2 Hsp Hfirst Hsecond.
    cbn [exec_]. unfold bind at 1.
    specialize (Hfirst _ _ _ (run_eta (handle_events w1 k1 s))).
    destruct (handle_events w1 k1 s) as [[r1 s1] t1] eqn:H1.
    pose proof (arrow_served _ _ _ _ _ _ _ _ Hinfo Hcount Hk1 Hs1 H1) as ->.
    injection Hfirst as Hp1 Hsp1. cbn [fst snd] in Hp1, Hsp1.
    pose proof (handle_events_settings _ _ _ _ _ _ H1)
      as (_ & _ & _ & _ & Hst1 & Hinfo1 & _).
    apply (arrow_key _ _ _ info count) in H1 as (Hhist1 & _); try done.
    unfold bind at 1.
    destruct (handle_events w2 k2 s1) as [[r2 s2] t2] eqn:H2.
    assert (Hinfo1' : page_info s1 = Some info) by congruence.
    assert (Hcount1 : info !! page s1 = Some count) by congruence.
    pose proof (arrow_served _ _ _ _ _ _ _ _ Hinfo1' Hcount1 Hk2 Hs2 H2) as ->.
    pose proof (Hsecond _ _ _ _ Hp1 Hsp1 Hinfo1' Hst1 H2) as [= Hp2 Hsp2].
    apply (arrow_key _ _ _ info count) in H2 as (Hhist2 & _);
      [| done | done | lia | done].
    unfold ret. intros [= <- <- <-].
    repeat (split; [done |]).
    rewrite Hhist2, Hhist1, Hp1, Hsp1, <- app_assoc. done. }
  split.
  - intros r s' t Hlt. apply Hgen; [by repeat constructor | by repeat constructor | lia | |].
    + intros r1 s1 t1 H1.
      apply (arrow_key _ _ _ info count) in H1 as (_ & _ & ->); try done;
        [| by repeat constructor].
      by rewrite decide_True.
    + intros s1 r2 s2 t2 Hp1 Hsp1 Hinfo1 Hst1 H2.
      apply (arrow_key _ _ _ info count) in H2 as (_ & _ & ->);
        [| done | congruence | lia | by repeat constructor].
      rewrite decide_True by lia. rewrite Hp1, Hsp1. f_equal. lia.
  - intros r s' t Hlt. apply Hgen; [by repeat constructor | by repeat constructor | lia | |].
    + intros r1 s1 t1 H1.
      apply (arrow_key _ _ _ info count) in H1 as (_ & _ & ->); try done;
        [| by repeat constructor].
      by rewrite decide_True.
    + intros s1 r2 s2 t2 Hp1 Hsp1 Hinfo1 Hst1 H2.
      apply (arrow_key _ _ _ info count) in H2 as (_ & _ & ->);
        [| done | congruence | lia | by repeat constructor].
      rewrite decide_True by lia. rewrite Hp1, Hsp1. f_equal. lia.
Qed.

Lemma X10_up_down_witness :
  let s := with_page 101 (on_start two_pages) in
  nav (snd (fst (exec_ [(online "", KEY_UP); (online "", KEY_DOWN)] s)))
  = (101%Z, 1%Z, [(101%Z, 1%Z); (101%Z, 2%Z)]).
Proof.
  intros s.
  destruct (proj1 (X10_up_down (online "") (online "") s two_pages 3
                     eq_refl ltac:(by vm_compute) ltac:(cbn; lia)
                     (serves_online "") (serves_online ""))
              _ _ _ ltac:(cbn; lia)
              (run_eta (exec_ [(online "", KEY_UP); (online "", KEY_DOWN)] s)))
    as (_ & Hp & Hsp & Hhist).
  unfold nav. by rewrite Hp, Hsp, Hhist.
Defined.

(** ** The event loop *)

Lemma bind_assoc_run (m1 m2 m3 : M unit) (s : Teletext) :
  ((m1 >>> m2) >>> m3) s = (m1 >>> (m2 >>> m3)) s.
Proof.
  unfold bind.
  destruct (m1 s) as [[[[] | e1] s1] t1]; [| done].
  destruct (m2 s1) as [[[[] | e2] s2] t2]; [| done].
  destruct (m3 s2) as [[r3 s3] t3]. by rewrite app_assoc.
Qed.

Lemma bind_ext_run (m k1 k2 : M unit) (s : Teletext) :
  (forall s', k1 s' = k2 s') -> (m >>> k1) s = (m >>> k2) s.
Proof.
  intros Hk. unfold bind.
  destruct (m s) as [[[[] | e] s1] t1]; [by rewrite Hk | done].
Qed.

Lemma exec_app (l1 l2 : list (World * keypress)) (s : Teletext) :
  exec_ (l1 ++ l2) s = (exec_ l1 >>> exec_ l2) s.
Proof.
  revert s. induction l1 as [| [w key] l1 IH]; intros s.
  - cbn [app exec_]. unfold bind, ret.
    by destruct (exec_ l2 s) as [[r s'] t].
  - cbn [app exec_]. rewrite bind_assoc_run. apply bind_ext_run, IH.
Qed.

Lemma exec_running (l : list (World * keypress)) (s s' : Teletext) (t : list event) :
  running s -> exec_ l s = (Ok tt, s', t) -> running s'.
Proof.
  revert s t. induction l as [| [w key] l IH]; intros s t Hrun.
  - by intros [= <- _].
  - cbn [exec_]. unfold bind.
    destruct (handle_events w key s) as [[[[] | e] s1] t1] eqn:Hkey; [| done].
    destruct (exec_ l s1) as [[r2 s2] t2] eqn:Hrest.
    intros [= -> <- _]. eapply IH; [| exact Hrest].
    by eapply running_key.
Qed.

(** X11. The event loop handles the keys one after the other on the state
    the previous one left: the keys of two stretches give the run of the
    first followed by the run of the second, with the traces laid end to
    end.  An exception ends the loop where it is raised, the keys that
    follow are not handled; escape does so with [SystemExit], without
    changing an attribute or printing anything.  As long as no key raises,
    the loop stays within the states of a running program. *)
Theorem X11_event_loop :
  (forall l1 l2 s, exec_ (l1 ++ l2) s = (exec_ l1 >>> exec_ l2) s) /\
  (forall l1 l2 s e s1 t1,
      exec_ l1 s = (Err e, s1, t1) -> exec_ (l1 ++ l2) s = (Err e, s1, t1)) /\
  (forall l1 w l2 s s1 t1,
      exec_ l1 s = (Ok tt, s1, t1) ->
      exec_ (l1 ++ (w, KEY_ESCAPE) :: l2) s = (Err SystemExit, s1, t1)) /\
  (forall l s s' t, running s -> exec_ l s = (Ok tt, s', t) -> running s').
Proof.
  split; [apply exec_app |]. split; [| split].
  - intros l1 l2 s e s1 t1 H1. rewrite exec_app. unfold bind. by rewrite H1.
  - intros l1 w l2 s s1 t1 H1. rewrite exec_app. unfold bind at 1.
    rewrite H1. cbn. by rewrite app_nil_r.
  - apply exec_running.
Qed.

Lemma X11_event_loop_witness :
  exec_ ([(online "", char "1")] ++ (offline, KEY_ESCAPE) :: [(online "", KEY_RIGHT)])
        (on_start two_pages)
  = (Err SystemExit, with_current_input [1%Z] (on_start two_pages), [print_clock]).
Proof.
  apply (proj1 (proj2 (proj2 X11_event_loop))). reflexivity.
Defined.

(** ** Splitting and joining *)

Section Text.

Implicit Types (c sep : N) (a b s pre mid post : unicode).

Lemma occurs_app c a b : occurs c (a ++ b) = occurs c a || occurs c b.
Proof.
  induction a as [| c' a IH]; [done |].
  cbn [app occurs]. by rewrite IH, orb_assoc.
Qed.

Lemma split_nonempty sep s : split sep s <> [].
Proof.
  destruct s as [| c s]; cbn [split]; [done |].
  destruct (c =? sep)%N; [done |]. by destruct (split sep s).
Qed.

Lemma split_no_sep sep s : occurs sep s = false -> split sep s = [s].
Proof.
  induction s as [| c s IH]; [done |].
  cbn [occurs split]. intros [Hc Hs]%orb_false_elim.
  by rewrite Hc, IH.
Qed.

Lemma split_append sep a b :
  occurs sep a = false -> split sep (a ++ sep :: b) = a :: split sep b.
Proof.
  induction a as [| c a IH].
  - intros _. cbn [app split]. by rewrite N.eqb_refl.
  - cbn [occurs]. intros [Hc Hs]%orb_false_elim.
    cbn [app split]. by rewrite Hc, IH.
Qed.

(** The first piece of a text that starts with a stretch free of the
    separator. *)
Lemma split_head sep a b :
  occurs sep a = false ->
  head (split sep (a ++ b)) = (fun p => a ++ p) <$> head (split sep b).
Proof.
  induction a as [| c a IH].
  - intros _. cbn [app]. by destruct (split sep b).
  - cbn [occurs]. intros [Hc Hs]%orb_false_elim.
    cbn [app split]. rewrite Hc.
    specialize (IH Hs). pose proof (split_nonempty sep b) as Hb.
    destruct (split sep (a ++ b)) as [| p ps]; destruct (split sep b) as [| q qs];
      try done.
    cbn in IH |- *. injection IH as ->. done.
Qed.

Lemma split_join sep (pieces : list unicode) :
  pieces <> [] -> Forall (fun p => occurs sep p = false) pieces ->
  split sep (join sep pieces) = pieces.
Proof.
  induction pieces as [| p [| q rest] IH]; [done | |].
  - intros _ [Hp _]%Forall_cons. by apply split_no_sep.
  - intros _ [Hp Hrest]%Forall_cons.
    change (join sep (p :: q :: rest)) with (p ++ sep :: join sep (q :: rest)).
    rewrite split_append by done. by rewrite IH.
Qed.

Lemma occurs_join c sep (pieces : list unicode) :
  (sep =? c)%N = false -> Forall (fun p => occurs c p = false) pieces ->
  occurs c (join sep pieces) = false.
Proof.
  intros Hsep. induction pieces as [| p [| q rest] IH]; [done | |].
  - by intros [Hp _]%Forall_cons.
  - intros [Hp Hrest]%Forall_cons.
    change (join sep (p :: q :: rest)) with (p ++ sep :: join sep (q :: rest)).
    rewrite occurs_app. cbn [occurs]. by rewrite Hp, Hsep, IH.
Qed.

(** ** The listing between the braces *)

Lemma data_string_until pre mid post c :
  occurs (ord "{") pre = false ->
  occurs (ord "{") mid = false -> occurs (ord "}") mid = false ->
  c = ord "{" \/ c = ord "}" ->
  data_string (pre ++ ord "{" :: mid ++ c :: post) = Ok mid.
Proof.
  intros Hpre Hmid1 Hmid2 Hc. unfold data_string, index.
  rewrite split_append by done. cbn [lookup list_lookup].
  destruct Hc as [-> | ->].
  - rewrite split_append by done. cbn [rbind lookup list_lookup].
    by rewrite split_no_sep.
  - pose proof (split_head (ord "{") mid (ord "}" :: post) Hmid1) as Hhead.
    cbn [split] in Hhead. change (ord "}" =? ord "{")%N with false in Hhead.
    pose proof (split_nonempty (ord "{") post) as Hpost.
    destruct (split (ord "{") post) as [| q qs]; [done |].
    cbn [head fmap option_fmap option_map] in Hhead.
    destruct (split (ord "{") (mid ++ ord "}" :: post)) as [| inner more];
      [done |].
    injection Hhead as ->. cbn [rbind lookup list_lookup].
    by rewrite split_append.
Qed.

End Text.

(** X12. What [get_page_info] takes for the listing: the text that follows
    the first opening brace of the decoded document, up to the next brace
    of either kind, or up to the end of the document when no brace
    follows, so that an unclosed listing is read all the same; what
    precedes the first opening brace and what follows the brace that ends
    the listing play no part.  Without any opening brace the extraction
    raises [IndexError]. *)
Theorem X12_data_string :
  (forall pre mid post c,
      occurs (ord "{") pre = false ->
      occurs (ord "{") mid = false -> occurs (ord "}") mid = false ->
      c = ord "{" \/ c = ord "}" ->
      data_string (pre ++ ord "{" :: mid ++ c :: post) = Ok mid) /\
  (forall pre mid,
      occurs (ord "{") pre = false ->
      occurs (ord "{") mid = false -> occurs (ord "}") mid = false ->
      data_string (pre ++ ord "{" :: mid) = Ok mid) /\
  (forall document,
      occurs (ord "{") document = false ->
      data_string document = Err IndexError).
Proof.
  split; [apply data_string_until |]. split.
  - intros pre mid Hpre Hmid1 Hmid2. unfold data_string, index.
    rewrite split_append by done. cbn [lookup list_lookup].
    rewrite (split_no_sep (ord "{") mid) by done. cbn [rbind lookup list_lookup].
    by rewrite split_no_sep.
  - intros document Hdoc. unfold data_string, index. by rewrite split_no_sep.
Qed.

Lemma X12_data_string_witness :
  data_string (text_of "var pages = {100:1,101:3{200:4}};")
  = Ok (text_of "100:1,101:3").
Proof.
  apply (proj1 X12_data_string (text_of "var pages = ") (text_of "100:1,101:3")
           (text_of "200:4}};") (ord "{"));
    [reflexivity | reflexivity | reflexivity | by left].
Defined.

(** ** Decimal numerals *)

Section Numerals.

Implicit Types (ch c : N) (s : unicode).

Lemma text_of_cons (c : ascii) (s : string) :
  text_of (String c s) = N_of_ascii c :: text_of s.
Proof. reflexivity. Qed.

Lemma length_text_of (s : string) : length (text_of s) = String.length s.
Proof.
  induction s as [| c s IH]; [done |].
  rewrite text_of_cons. cbn [length String.length]. by rewrite IH.
Qed.

Lemma decimal_ascii ch :
  (48 <= ch <= 57)%N -> decimal ch = Some (Z.of_N ch - 48)%Z.
Proof.
  intros Hch. unfold decimal, decimal_zeros. cbn [List.find].
  assert (Htest : ((48 <=? ch)%N && (ch <? 48 + 10)%N) = true).
  { apply andb_true_intro. split; [apply N.leb_le | apply N.ltb_lt]; lia. }
  rewrite Htest. cbn [fmap option_fmap option_map]. f_equal. lia.
Qed.

Lemma digit_not_space ch : (48 <= ch <= 57)%N -> is_space ch = false.
Proof.
  intros Hch. apply not_true_is_false. unfold is_space. intros Hspace.
  repeat (apply orb_prop in Hspace as [Hspace | Hspace]);
    rewrite ?andb_true_iff, ?N.leb_le, ?N.eqb_eq in Hspace; lia.
Qed.

Lemma numeral_cons ch s :
  numeral (ch :: s) = true <-> (48 <= ch <= 57)%N /\ numeral s = true.
Proof.
  unfold numeral. cbn [forallb].
  rewrite !andb_true_iff, !N.leb_le. tauto.
Qed.

Lemma numeral_lstrip s : numeral s = true -> lstrip s = s.
Proof.
  destruct s as [| ch s]; [done |]. intros [Hch _]%numeral_cons.
  cbn [lstrip]. by rewrite digit_not_space.
Qed.

Lemma numeral_rstrip s : numeral s = true -> rstrip s = s.
Proof.
  induction s as [| ch s IH]; [done |]. intros [Hch Hs]%numeral_cons.
  cbn [rstrip]. by rewrite digit_not_space, IH.
Qed.

Lemma numeral_occurs c s :
  numeral s = true -> ~ (48 <= c <= 57)%N -> occurs c s = false.
Proof.
  intros Hs Hc. induction s as [| ch s IH]; [done |].
  apply numeral_cons in Hs as [Hch Hs]. cbn [occurs]. rewrite IH by done.
  destruct (N.eqb_spec ch c) as [-> | _]; [lia | done].
Qed.

Lemma numeral_digit_count s : numeral s = true -> digit_count s = length s.
Proof.
  unfold digit_count. induction s as [| ch s IH]; [done |].
  intros [Hch Hs]%numeral_cons.
  rewrite filter_cons_True by (rewrite decimal_ascii by done; by eexists).
  cbn [length]. by rewrite IH.
Qed.

Lemma string_of_uint_numeral (d : Decimal.uint) :
  numeral (text_of (NilEmpty.string_of_uint d)) = true.
Proof.
  induction d; cbn [NilEmpty.string_of_uint]; [done | ..];
    rewrite text_of_cons; apply numeral_cons; (split; [by vm_compute | done]).
Qed.

Lemma digits_cons_digit ch (d acc : Z) (after_digit : bool) s :
  decimal ch = Some d ->
  digits acc after_digit (ch :: s) = digits (10 * acc + d) true s.
Proof. cbn [digits]. by intros ->. Qed.

(** The digits of a numeral, read by [int] with an accumulator, give what
    the decimal reading of the library gives. *)
Lemma digits_of_uint_acc (d : Decimal.uint) (acc : positive) :
  digits (Z.pos acc) true (text_of (NilEmpty.string_of_uint d))
  = Some (Z.pos (Pos.of_uint_acc d acc)).
Proof.
  revert acc.
  induction d; intros acc; cbn [NilEmpty.string_of_uint Pos.of_uint_acc]; [done | ..];
    (rewrite text_of_cons;
     erewrite digits_cons_digit by (vm_compute; reflexivity);
     rewrite <- IHd; f_equal; lia).
Qed.

Lemma digits_of_uint (d : Decimal.uint) (after_digit : bool) :
  after_digit = true \/ d <> Decimal.Nil ->
  digits 0 after_digit (text_of (NilEmpty.string_of_uint d))
  = Some (Z.of_N (Pos.of_uint d)).
Proof.
  revert after_digit.
  induction d; intros after_digit Hd;
    cbn [NilEmpty.string_of_uint Pos.of_uint];
    [by destruct Hd as [-> | ?] | ..];
    rewrite text_of_cons;
    erewrite digits_cons_digit by (vm_compute; reflexivity);
    [apply IHd; by left | apply digits_of_uint_acc ..].
Qed.

(** The numeral of an integer: digits, after a minus sign when it is
    negative. *)
Lemma str_shape (z : Z) :
  exists s,
    numeral s = true /\ s <> [] /\
    digits 0 false s = Some (Z.abs z) /\
    text_of (str z) = if (z <? 0)%Z then ord "-" :: s else s.
Proof.
  assert (Hpos : forall p,
             numeral (text_of (NilZero.string_of_uint (Pos.to_uint p))) = true /\
             text_of (NilZero.string_of_uint (Pos.to_uint p)) <> [] /\
             digits 0 false (text_of (NilZero.string_of_uint (Pos.to_uint p)))
             = Some (Z.pos p)).
  { intros p. pose proof (Unsigned.to_uint_nonnil p) as Hnil.
    pose proof (Unsigned.of_to p) as Hback.
    assert (Hsame : NilZero.string_of_uint (Pos.to_uint p)
                    = NilEmpty.string_of_uint (Pos.to_uint p))
      by (by destruct (Pos.to_uint p)).
    rewrite Hsame. split; [apply string_of_uint_numeral |]. split.
    - by destruct (Pos.to_uint p).
    - rewrite digits_of_uint by (by right). by rewrite Hback. }
  destruct z as [| p | p].
  - by exists (text_of "0").
  - exists (text_of (NilZero.string_of_uint (Pos.to_uint p))).
    destruct (Hpos p) as (Hn & Hne & Hd). by repeat split.
  - exists (text_of (NilZero.string_of_uint (Pos.to_uint p))).
    destruct (Hpos p) as (Hn & Hne & Hd). by repeat split.
Qed.

Lemma lstrip_cons ch s : is_space ch = false -> lstrip (ch :: s) = ch :: s.
Proof. cbn [lstrip]. by intros ->. Qed.

Lemma rstrip_cons ch s : is_space ch = false -> rstrip (ch :: s) = ch :: rstrip s.
Proof. cbn [rstrip]. by intros ->. Qed.

(** [int(str(z))] is [z], for a numeral within the limit. *)
Lemma int_str (z : Z) : short z -> int (text_of (str z)) = Ok z.
Proof.
  unfold short. rewrite <- length_text_of.
  destruct (str_shape z) as (s & Hn & Hne & Hd & ->).
  destruct s as [| ch s]; [done |].
  pose proof Hn as [Hch _]%numeral_cons.
  unfold int. destruct (Z.ltb_spec z 0) as [Hneg | Hpos]; intros Hshort.
  - rewrite lstrip_cons, rstrip_cons by reflexivity.
    rewrite numeral_rstrip by done.
    change (ord "-" =? ord "-")%N with true. cbn [orb]. rewrite Hd.
    rewrite numeral_digit_count by done.
    destruct (Nat.ltb_spec INT_MAX_STR_DIGITS (length (ch :: s))) as [Hover | _].
    { cbn [length] in Hshort, Hover. lia. }
    f_equal. lia.
  - rewrite numeral_lstrip, numeral_rstrip by done.
    assert (Hminus : (ch =? ord "-")%N = false)
      by (apply N.eqb_neq; unfold ord; cbn; lia).
    assert (Hplus : (ch =? ord "+")%N = false)
      by (apply N.eqb_neq; unfold ord; cbn; lia).
    rewrite Hminus, Hplus. cbn [orb]. rewrite Hd.
    rewrite numeral_digit_count by done.
    destruct (Nat.ltb_spec INT_MAX_STR_DIGITS (length (ch :: s))) as [Hover | _].
    { lia. }
    f_equal. lia.
Qed.

Lemma str_occurs c (z : Z) :
  ~ (48 <= c <= 57)%N -> c <> ord "-" -> occurs c (text_of (str z)) = false.
Proof.
  intros Hc Hminus. destruct (str_shape z) as (s & Hn & _ & _ & ->).
  destruct (z <? 0)%Z; cbn [occurs]; [| by apply numeral_occurs].
  rewrite numeral_occurs by done.
  by destruct (N.eqb_spec (ord "-") c).
Qed.

End Numerals.

(** ** A listing written with decimal numerals *)

Ltac separator := unfold ord; cbn; lia.

Lemma short_leb (z : Z) :
  (String.length (str z) <=? INT_MAX_STR_DIGITS)%nat = true -> short z.
Proof. apply Nat.leb_le. Qed.

Lemma entry_pair_render (kv : Z * Z) :
  short (fst kv) -> short (snd kv) -> entry_pair (render_entry kv) = Some kv.
Proof.
  destruct kv as [k v]. cbn [fst snd]. intros Hk Hv.
  unfold entry_pair, render_entry. cbn [fst snd].
  rewrite split_append by (apply str_occurs; separator).
  rewrite split_no_sep by (apply str_occurs; separator).
  by rewrite !int_str.
Qed.

Lemma render_entry_occurs (c : N) (kv : Z * Z) :
  ~ (48 <= c <= 57)%N -> c <> ord "-" -> c <> ord ":" ->
  occurs c (render_entry kv) = false.
Proof.
  intros Hc Hminus Hcolon. unfold render_entry.
  rewrite occurs_app. cbn [occurs]. rewrite !str_occurs by done.
  by destruct (N.eqb_spec (ord ":") c).
Qed.

Lemma render_listing_occurs (c : N) (pairs : list (Z * Z)) :
  ~ (48 <= c <= 57)%N -> c <> ord "-" -> c <> ord ":" -> c <> ord "," ->
  occurs c (render_listing pairs) = false.
Proof.
  intros Hc Hminus Hcolon Hcomma. apply occurs_join.
  - by destruct (N.eqb_spec (ord ",") c).
  - apply Forall_map, Forall_forall. intros kv _. by apply render_entry_occurs.
Qed.

Lemma split_render_listing (pairs : list (Z * Z)) :
  pairs <> [] -> split (ord ",") (render_listing pairs) = map render_entry pairs.
Proof.
  intros Hne. apply split_join; [by destruct pairs |].
  apply Forall_map, Forall_forall. intros kv _.
  apply render_entry_occurs; separator.
Qed.

Lemma parse_render_listing (body : string) (pairs : list (Z * Z))
      (pre post : unicode) :
  pairs <> [] -> Forall (fun kv => short (fst kv) /\ short (snd kv)) pairs ->
  occurs (ord "{") pre = false ->
  decode body = Ok (pre ++ ord "{" :: render_listing pairs ++ ord "}" :: post) ->
  parse_page_info body = Ok (last_wins pairs).
Proof.
  intros Hne Hshort Hpre Hdecode. unfold parse_page_info.
  rewrite Hdecode. cbn [rbind].
  rewrite data_string_until;
    [| done | apply render_listing_occurs; separator
     | apply render_listing_occurs; separator | by right].
  cbn [rbind]. rewrite split_render_listing by done.
  rewrite (dict_of_entries_pairs _ _ pairs), foldl_insert_last_wins; [done |].
  rewrite <- list_fmap_compose.
  apply Forall_fmap_ext_1. eapply Forall_impl; [exact Hshort |].
  intros kv [Hk Hv]. by apply entry_pair_render.
Qed.

(** X13. Reading back a directory: when the bytes of the document decode to
    a text that holds, between its first braces, one or more entries
    [key:value] written with the decimal numerals of integers (negative
    ones included), each numeral of at most 4300 characters, separated by
    commas, the parse gives the mapping of these pairs, a later pair
    replacing an earlier one with the same key, and [get_page_info] stores
    that mapping without writing to the error stream; whereas the empty
    listing is refused with [ValueError], so that a server with no page
    leaves the object without a directory. *)
Theorem X13_directory_round_trip (body : string) (pairs : list (Z * Z))
        (pre post : unicode) :
  occurs (ord "{") pre = false ->
  (pairs <> [] -> Forall (fun kv => short (fst kv) /\ short (snd kv)) pairs ->
   decode body = Ok (pre ++ ord "{" :: render_listing pairs ++ ord "}" :: post) ->
   parse_page_info body = Ok (last_wins pairs) /\
   forall w s,
     urlopen w (pages_url s) = Ok body ->
     get_page_info w s
     = (Ok tt, with_page_info (Some (last_wins pairs)) s, [request (pages_url s)])) /\
  (decode body = Ok (pre ++ ord "{" :: ord "}" :: post) ->
   parse_page_info body = Err ValueError /\
   forall w s,
     urlopen w (pages_url s) = Ok body ->
     get_page_info w s
     = (Ok tt, s, [request (pages_url s); stderr_write ValueError])).
Proof.
  intros Hpre. split.
  - intros Hne Hshort Hdecode.
    pose proof (parse_render_listing body pairs pre post Hne Hshort Hpre Hdecode)
      as Hparse.
    split; [done |].
    intros w s Hurl. rewrite get_page_info_run, Hurl. cbn [rbind].
    by rewrite Hparse.
  - intros Hdecode.
    assert (Hempty : parse_page_info body = Err ValueError).
    { unfold parse_page_info. rewrite Hdecode. cbn [rbind].
      change (ord "{" :: ord "}" :: post) with (ord "{" :: [] ++ ord "}" :: post).
      rewrite data_string_until; [done | done | done | done | by right]. }
    split; [done |].
    intros w s Hurl. rewrite get_page_info_run, Hurl. cbn [rbind].
    by rewrite Hempty.
Qed.

Lemma X13_directory_round_trip_witness :
  parse_page_info "var pages = {100:1,-7:3,100:12};"
  = Ok (last_wins [(100, 1); (-7, 3); (100, 12)]%Z).
Proof.
  refine (proj1 (proj1 (X13_directory_round_trip
                          "var pages = {100:1,-7:3,100:12};"
                          [(100, 1); (-7, 3); (100, 12)]%Z
                          (text_of "var pages = ") (text_of ";") eq_refl)
                   _ _ eq_refl)).
  - done.
  - repeat (apply Forall_cons_2; [split; apply short_leb; reflexivity |]).
    apply Forall_nil_2.
Defined.

(** ** What one key can do *)

Lemma attempt_history (key : keypress) (s : Teletext) (p : Z) (sp : option Z) :
  attempt key s = Some (p, sp, true) -> key = KEY_BACKSPACE.
Proof.
  destruct key; cbn [attempt]; try done; repeat case_match; congruence.
Qed.

Lemma clock_last (w : World) (key : keypress) (s s' : Teletext) (t : list event) :
  handle_events w key s = (Ok tt, s', t) -> last t = Some print_clock.
Proof.
  assert (Hgen : (dispatch w key >>> display_clock) s = (Ok tt, s', t) ->
                 last t = Some print_clock).
  { unfold display_clock. unfold_monad.
    destruct (dispatch w key s) as [[[[] | e] s0] t0]; [| done].
    intros [= <- <-]. by rewrite last_snoc. }
  destruct key; exact Hgen.
Qed.

(** X15. One key does one thing at most.  It never changes the size, the
    addresses, the start page, the bounds or the directory; it calls
    [load] at most once; when it does not, the page, the sub page, the
    history and the parsed page stay as they were and nothing is
    requested; when it does and there is a directory, exactly one address
    is requested, that of the page and sub page the object is left on,
    whether or not the request succeeds.  The history is kept, or grows by
    the place that was left, or - on backspace only - loses its last
    entry.  A key that returns has redrawn the clock last. *)
Theorem X15_one_key (w : World) (key : keypress) (s : Teletext)
        (r : result unit) (s' : Teletext) (t : list event) :
  handle_events w key s = (r, s', t) ->
  same_settings s s' /\
  (length (load_calls t) <= 1)%nat /\
  (load_calls t = [] ->
   nav s' = nav s /\ soup s' = soup s /\ requests t = []) /\
  (load_calls t <> [] -> is_Some (page_info s) -> requests t = [page_url s']) /\
  (history s' = history s \/
   history s' = history s ++ [(page s, sub_page s)] \/
   key = KEY_BACKSPACE /\ history s' = removelast (history s)) /\
  (r = Ok tt -> last t = Some print_clock).
Proof.
  intros Hrun.
  assert (Hclock : r = Ok tt -> last t = Some print_clock)
    by (intros ->; by eapply clock_last).
  apply handle_events_result in Hrun as (Hsame & Hcalls & Hnav).
  split; [done |]. rewrite Hcalls.
  destruct (attempt key s) as [[[p sp] nh] |] eqn:Hatt;
    unfold option_list; cbn [option_rect length].
  - destruct Hnav as [Hhist Hnav].
    split; [lia |]. split; [done |]. split; [| split].
    + intros _ [info Hinfo]. rewrite Hinfo in Hnav. by destruct Hnav as (_ & ? & _).
    + destruct nh; cbn [history_after] in Hhist.
      * right; right. split; [by eapply attempt_history | done].
      * by right; left.
    + done.
  - destruct Hnav as (Hnav' & Hsoup & Hreqs & _).
    split; [lia |]. split; [done |]. split; [done |]. split.
    + left. by injection Hnav'.
    + done.
Qed.

Lemma X15_one_key_witness :
  requests (snd (handle_events offline KEY_RIGHT (on_start two_pages)))
  = ["https://www.ndr.de/public/teletext/101_01.htm"].
Proof.
  refine (eq_trans
            (proj1 (proj2 (proj2 (proj2
               (X15_one_key offline KEY_RIGHT (on_start two_pages) _ _ _
                  (run_eta (handle_events offline KEY_RIGHT (on_start two_pages)))))))
               _ _)
            _).
  - by vm_compute.
  - by eexists.
  - by vm_compute.
Defined.

(** ** A load that succeeds *)

(** X16. A call of [load] with a directory, an answered request and a page
    with its two blocks, in full: the place left is appended to the history
    unless [no_history] is set; the page and sub page become those the
    directory allows for the arguments; one request is made, for their
    address; the parsed answer is kept in [soup]; the frame of that page is
    printed at the width of the object; nothing else changes and the call
    returns. *)
Theorem X16_load_success (w : World) (page_ : Z) (sub_page_ : option Z)
        (no_history : bool) (s : Teletext) (info : gmap Z Z) (body : string)
        (ttx hdr txt : element) :
  let target := landing info (start_page s) page_ sub_page_ in
  let moved :=
    with_sub_page (snd target)
      (with_page (fst target)
         (if no_history then s
          else with_history (history s ++ [(page s, sub_page s)]) s)) in
  page_info s = Some info ->
  urlopen w (page_url moved) = Ok body ->
  html_body_div (BeautifulSoup w body) = Some ttx ->
  filter (fun a => named "pre" a = true) (children ttx) = [hdr; txt] ->
  load w page_ sub_page_ no_history s
  = (Ok tt, with_soup (Some (BeautifulSoup w body)) moved,
     [call_load page_ sub_page_ no_history; request (page_url moved)]
       ++ frame (width s) hdr txt).
Proof.
  intros target moved Hinfo Hurl Hdiv Hpre.
  rewrite load_unfold, Hinfo. cbn zeta. fold target. fold moved.
  rewrite Hurl.
  rewrite (display_page_frame (with_soup (Some (BeautifulSoup w body)) moved)
             (BeautifulSoup w body) ttx hdr txt) by done.
  cbn [fst snd]. do 2 f_equal.
  by destruct no_history.
Qed.

Lemma X16_load_success_witness :
  load (online "") 101 (Some 2%Z) false (on_start two_pages)
  = (Ok tt,
     with_soup (Some sample_page)
       (with_sub_page 2 (with_page 101 (with_history [(100, 1)]%Z (on_start two_pages)))),
     [call_load 101 (Some 2%Z) false;
      request "https://www.ndr.de/public/teletext/101_02.htm";
      print_clear;
      print_at 0 0 [("white_on_black", "100 NDR Text")];
      print_at 0 1 [("yellow_on_blue", "Nachrichten"); ("white_on_black", " ")]]).
Proof.
  apply (X16_load_success (online "") 101 (Some 2%Z) false (on_start two_pages)
           two_pages "<html>"
           (Element (Some "div") "" None
              [Element (Some "pre") "100 NDR Text" None [];
               Element (Some "pre") "Nachrichten" None
                 [Element (Some "b") "Nachrichten" (Some ["f3"; "b4"]) []]])
           (Element (Some "pre") "100 NDR Text" None [])
           (Element (Some "pre") "Nachrichten" None
              [Element (Some "b") "Nachrichten" (Some ["f3"; "b4"]) []]));
    reflexivity.
Defined.
